(** * AlertForge: a shallow embedding of [alertforge.py]

    The development follows the single source file [alertforge.py]:
    - Python string helpers and JSON values (what [json.load] returns);
    - [validate_bulletin_data], [load_bulletins_from_file], [process_batch];
    - the enums [Severity] and [Category] and [generate_from_dict];
    - [textwrap.wrap] as the card calls it;
    - [_draw_item_card] as a list of drawing operations;
    - the vertical layout of [generate];
    - the logo background replacement of [_draw_header];
    - [_blend_colors], with Python's floats as binary64 numbers.

    Python exceptions are the [PyRaise] branch of [pyres]. Strings are
    Stdlib [string]s; the case mappings and [strip] are modelled on ASCII. *)

From Stdlib Require Import ZArith Lia List Bool Ascii String QArith Qround Qpower.
From Stdlib Require Import Numbers.DecimalString Numbers.DecimalNat Lqa.
Import ListNotations.
Open Scope string_scope.
Open Scope Z_scope.
Set Warnings "-register-all".

(* ------------------------------------------------------------------------- *)
(** ** Python results *)

Inductive pyres (A : Type) : Type :=
| PyOk (a : A)
| PyRaise (exn : string).
Arguments PyOk {A} a.
Arguments PyRaise {A} exn.

Definition py_bind {A B} (m : pyres A) (k : A -> pyres B) : pyres B :=
  match m with
  | PyOk a => k a
  | PyRaise e => PyRaise e
  end.

Notation "x <- m ;; k" := (py_bind m (fun x => k))
  (at level 61, m at next level, right associativity).

(* ------------------------------------------------------------------------- *)
(** ** Python string helpers (ASCII) *)

Module PyStr.

Fixpoint smap (f : ascii -> ascii) (s : string) : string :=
  match s with
  | EmptyString => EmptyString
  | String c s' => String (f c) (smap f s')
  end.

(** [str.lower] and [str.upper] on the ASCII letters. *)
Definition lower_char (c : ascii) : ascii :=
  let n := nat_of_ascii c in
  if andb (Nat.leb 65 n) (Nat.leb n 90) then ascii_of_nat (n + 32) else c.

Definition upper_char (c : ascii) : ascii :=
  let n := nat_of_ascii c in
  if andb (Nat.leb 97 n) (Nat.leb n 122) then ascii_of_nat (n - 32) else c.

Definition lower (s : string) : string := smap lower_char s.
Definition upper (s : string) : string := smap upper_char s.

(** [str.isspace] on ASCII: \t \n \x0b \x0c \r, \x1c..\x1f and space. *)
Definition isspace (c : ascii) : bool :=
  let n := nat_of_ascii c in
  orb (andb (Nat.leb 9 n) (Nat.leb n 13)) (andb (Nat.leb 28 n) (Nat.leb n 32)).

Fixpoint drop_space (l : list ascii) : list ascii :=
  match l with
  | c :: l' => if isspace c then drop_space l' else l
  | [] => []
  end.

(** [str.strip()] *)
Definition strip (s : string) : string :=
  string_of_list_ascii
    (rev (drop_space (rev (drop_space (list_ascii_of_string s))))).

(** [sub in s] for strings *)
Definition contains (s sub : string) : bool :=
  match index 0 sub s with Some _ => true | None => false end.

(** [f"{n}"] for a non-negative int *)
Definition of_nat (n : nat) : string := NilEmpty.string_of_uint (Nat.to_uint n).

(** [f"{n:02d}"] *)
Definition of_nat_02 (n : nat) : string :=
  if Nat.ltb n 10 then "0" ++ of_nat n else of_nat n.

(** [', '.join(l)] *)
Definition join (sep : string) (l : list string) : string := concat sep l.

Definition mem (x : string) (l : list string) : bool :=
  existsb (String.eqb x) l.

End PyStr.

(* ------------------------------------------------------------------------- *)
(** ** JSON values, as [json.load] returns them *)

Inductive json : Type :=
| JNull
| JBool (b : bool)
| JNum (z : Z)
| JStr (s : string)
| JArr (l : list json)
| JObj (o : list (string * json)).

(** A JSON object becomes a dict in which the last binding of a key wins. *)
Definition dict_get (o : list (string * json)) (k : string) : option json :=
  match find (fun kv => String.eqb (fst kv) k) (rev o) with
  | Some (_, v) => Some v
  | None => None
  end.

(** Python truthiness ([bool(v)]) *)
Definition truthy (v : json) : bool :=
  match v with
  | JNull => false
  | JBool b => b
  | JNum z => negb (Z.eqb z 0)
  | JStr s => negb (String.eqb s "")
  | JArr l => negb (Nat.eqb (List.length l) 0)
  | JObj o => negb (Nat.eqb (List.length o) 0)
  end.

Definition json_eqb_str (v : json) (s : string) : bool :=
  match v with JStr t => String.eqb t s | _ => false end.

(** [key in data] *)
Definition py_in (key : string) (data : json) : pyres bool :=
  match data with
  | JObj o => PyOk (match dict_get o key with Some _ => true | None => false end)
  | JStr s => PyOk (PyStr.contains s key)
  | JArr l => PyOk (existsb (fun v => json_eqb_str v key) l)
  | _ => PyRaise "TypeError: argument of type is not iterable"
  end.

(** [data[key]] with a string key *)
Definition py_getitem (data : json) (key : string) : pyres json :=
  match data with
  | JObj o => match dict_get o key with
              | Some v => PyOk v
              | None => PyRaise ("KeyError: " ++ key)
              end
  | _ => PyRaise "TypeError: indices must be integers"
  end.

(** [v.lower()], [v.upper()], [v.strip()]: only strings have them. *)
Definition py_str_method (f : string -> string) (v : json) : pyres string :=
  match v with
  | JStr s => PyOk (f s)
  | _ => PyRaise "AttributeError: object has no such attribute"
  end.

(** [data.get(key, default)] on a dict *)
Definition py_get (o : list (string * json)) (k : string) (default : json) : json :=
  match dict_get o k with Some v => v | None => default end.

(* ------------------------------------------------------------------------- *)
(** ** [Severity], [Category], [BulletinItem] *)

(** [class Severity(Enum)]: value = (key, color, bg_color, icon); the icons
    are not used by the drawing code and are left out. *)
Inductive Severity := CRITICAL | HIGH | MEDIUM | LOW | INFO.

Definition severity_members : list Severity := [CRITICAL; HIGH; MEDIUM; LOW; INFO].

Definition severity_key (s : Severity) : string :=
  match s with
  | CRITICAL => "critical" | HIGH => "high" | MEDIUM => "medium"
  | LOW => "low" | INFO => "info"
  end.

Definition severity_color (s : Severity) : string :=
  match s with
  | CRITICAL => "#DC2626" | HIGH => "#EA580C" | MEDIUM => "#CA8A04"
  | LOW => "#16A34A" | INFO => "#2563EB"
  end.

(** [class Category(Enum)]: value = (key, icon, label); the icon is unused.
    The label of VULNERABILITA ends in a non-ASCII letter in the source; it
    is written here without the accent. *)
Inductive Category := AGGIORNAMENTI | VULNERABILITA | PATCH | ADVISORY | INCIDENT.

Definition category_members : list Category :=
  [AGGIORNAMENTI; VULNERABILITA; PATCH; ADVISORY; INCIDENT].

Definition category_key (c : Category) : string :=
  match c with
  | AGGIORNAMENTI => "aggiornamenti" | VULNERABILITA => "vulnerabilita"
  | PATCH => "patch" | ADVISORY => "advisory" | INCIDENT => "incident"
  end.

Definition category_label (c : Category) : string :=
  match c with
  | AGGIORNAMENTI => "Aggiornamenti" | VULNERABILITA => "Vulnerabilita"
  | PATCH => "Patch" | ADVISORY => "Advisory" | INCIDENT => "Incident"
  end.

(** [@dataclass BulletinItem] *)
Record BulletinItem := {
  category : Category;
  severity : Severity;
  product : string;
  description : string;
  tags : list string;
  cve_id : option string;
  version : option string;
  image_path : option string
}.

(* ------------------------------------------------------------------------- *)
(** ** [validate_bulletin_data] *)

Definition required_fields : list string :=
  ["category"; "severity"; "product"; "description"].

Definition msg_prefix (index : nat) : string :=
  "Bollettino #" ++ PyStr.of_nat index ++ ": ".

Definition valid_categories : list string := map category_key category_members.
Definition valid_severities : list string := map severity_key severity_members.

Definition cve_msg (index : nat) : string :=
  msg_prefix index ++ "CVE ID deve iniziare con 'CVE-'".

(** [for field in required_fields: if field not in data or not data[field]] *)
Fixpoint check_required (data : json) (index : nat) (fields : list string)
  : pyres (option string) :=
  match fields with
  | [] => PyOk None
  | f :: rest =>
      present <- py_in f data ;;
      if negb present then
        PyOk (Some (msg_prefix index ++ "Campo obbligatorio '" ++ f ++ "' mancante o vuoto"))
      else
        v <- py_getitem data f ;;
        if negb (truthy v) then
          PyOk (Some (msg_prefix index ++ "Campo obbligatorio '" ++ f ++ "' mancante o vuoto"))
        else check_required data index rest
  end.

Definition validate_bulletin_data (data : json) (index : nat) : pyres (bool * string) :=
  missing <- check_required data index required_fields ;;
  match missing with
  | Some m => PyOk (false, m)
  | None =>
    cat <- py_getitem data "category" ;;
    cat_l <- py_str_method PyStr.lower cat ;;
    if negb (PyStr.mem cat_l valid_categories) then
      cat_s <- py_str_method (fun s => s) cat ;;
      PyOk (false, msg_prefix index ++ "Category '" ++ cat_s ++ "' non valida. Usare: "
                   ++ PyStr.join ", " valid_categories)
    else
    sev <- py_getitem data "severity" ;;
    sev_l <- py_str_method PyStr.lower sev ;;
    if negb (PyStr.mem sev_l valid_severities) then
      sev_s <- py_str_method (fun s => s) sev ;;
      PyOk (false, msg_prefix index ++ "Severity '" ++ sev_s ++ "' non valida. Usare: "
                   ++ PyStr.join ", " valid_severities)
    else
    prod <- py_getitem data "product" ;;
    prod_s <- py_str_method PyStr.strip prod ;;
    if Nat.ltb (String.length prod_s) 2 then
      PyOk (false, msg_prefix index ++ "Il nome del prodotto deve essere di almeno 2 caratteri")
    else
    desc <- py_getitem data "description" ;;
    desc_s <- py_str_method PyStr.strip desc ;;
    if Nat.ltb (String.length desc_s) 10 then
      PyOk (false, msg_prefix index ++ "La descrizione deve essere di almeno 10 caratteri")
    else
    has_cve <- py_in "cve_id" data ;;
    if has_cve then
      cvev <- py_getitem data "cve_id" ;;
      if truthy cvev then
        cve <- py_str_method PyStr.upper cvev ;;
        if negb (String.prefix "CVE-" cve) then PyOk (false, cve_msg index)
        else PyOk (true, "")
      else PyOk (true, "")
    else PyOk (true, "")
  end.

(* ------------------------------------------------------------------------- *)
(** ** [generate_from_dict]: building the [BulletinItem] *)

(** [category_map.get(key, Category.ADVISORY)] *)
Definition category_of_key (k : string) : Category :=
  match find (fun c => String.eqb (category_key c) k) category_members with
  | Some c => c
  | None => ADVISORY
  end.

(** [severity_map.get(key, Severity.MEDIUM)] *)
Definition severity_of_key (k : string) : Severity :=
  match find (fun s => String.eqb (severity_key s) k) severity_members with
  | Some s => s
  | None => MEDIUM
  end.

(** The [BulletinItem] that [generate_from_dict] builds. The dataclass
    checks no types, so [product], [description], [tags], [cve_id],
    [version] and [image_path] hold the JSON values of the record as they
    are: [data.get] gives [[]] for a missing [tags] and [None] ([JNull])
    for a missing optional key. *)
Record PyBulletinItem := {
  item_category : Category;
  item_severity : Severity;
  item_product : json;
  item_description : json;
  item_tags : json;
  item_cve_id : json;
  item_version : json;
  item_image_path : json
}.

(** [BulletinItem(category=category_map.get(data["category"].lower(), Category.ADVISORY),
    severity=severity_map.get(data["severity"].lower(), Severity.MEDIUM),
    product=data["product"], description=data["description"],
    tags=data.get("tags", []), cve_id=data.get("cve_id"),
    version=data.get("version"), image_path=data.get("image"))], the
    arguments evaluated in this order. *)
Definition bulletin_item_of_dict (data : json) : pyres PyBulletinItem :=
  catv <- py_getitem data "category" ;;
  cat_l <- py_str_method PyStr.lower catv ;;
  sevv <- py_getitem data "severity" ;;
  sev_l <- py_str_method PyStr.lower sevv ;;
  prod <- py_getitem data "product" ;;
  desc <- py_getitem data "description" ;;
  match data with
  | JObj o =>
      PyOk {| item_category := category_of_key cat_l;
              item_severity := severity_of_key sev_l;
              item_product := prod; item_description := desc;
              item_tags := py_get o "tags" (JArr []);
              item_cve_id := py_get o "cve_id" JNull;
              item_version := py_get o "version" JNull;
              item_image_path := py_get o "image" JNull |}
  | _ => PyRaise "AttributeError: object has no attribute 'get'"
  end.

(** The card model below ([draw_item_card]) draws a [BulletinItem] whose
    fields are strings. [typed_item] reads a [PyBulletinItem] as one,
    [None] when a field holds a value the card model does not cover (a
    non-string [product] or [description], a truthy non-string optional
    value, [tags] neither a list of strings nor a string nor falsy): Python
    stores such a value and meets it, if at all, only when drawing. A falsy
    optional value is [None] (the card only tests it for truthiness) and a
    string [tags] is the list of its characters (the card iterates over it). *)
Definition as_str (v : json) : option string :=
  match v with JStr s => Some s | _ => None end.

Definition opt_str (v : json) : option (option string) :=
  match v with
  | JStr s => Some (if String.eqb s "" then None else Some s)
  | _ => if truthy v then None else Some None
  end.

Fixpoint chars_of (s : string) : list string :=
  match s with
  | EmptyString => []
  | String c s' => String c EmptyString :: chars_of s'
  end.

Definition str_list (l : list json) : option (list string) :=
  fold_right (fun v acc =>
    match v, acc with
    | JStr s, Some r => Some (s :: r)
    | _, _ => None
    end) (Some []) l.

Definition tag_list (v : json) : option (list string) :=
  match v with
  | JArr l => str_list l
  | JStr s => Some (chars_of s)
  | _ => if truthy v then None else Some []
  end.

Definition typed_item (r : PyBulletinItem) : option BulletinItem :=
  match as_str (item_product r), as_str (item_description r), tag_list (item_tags r),
        opt_str (item_cve_id r), opt_str (item_version r), opt_str (item_image_path r) with
  | Some prod, Some desc, Some tg, Some cv, Some ver, Some img =>
      Some {| category := item_category r; severity := item_severity r;
              product := prod; description := desc; tags := tg;
              cve_id := cv; version := ver; image_path := img |}
  | _, _, _, _, _, _ => None
  end.

(** The item of [generate_from_dict], as the card model reads it; [None]
    when building it raises or when [typed_item] does not cover it. *)
Definition item_of_dict (data : json) : option BulletinItem :=
  match bulletin_item_of_dict data with
  | PyOk r => typed_item r
  | PyRaise _ => None
  end.

(* ------------------------------------------------------------------------- *)
(** ** [textwrap.wrap(text, width)] with the default [TextWrapper] options

    expand_tabs, replace_whitespace, drop_whitespace, break_long_words and
    break_on_hyphens are all on; no indents, no max_lines.
    [_split] cuts the munged text with [wordsep_re], modelled below by
    its three branches (whitespace runs, em-dashes, words possibly cut
    after a hyphen); characters are the code points 0..255. The hyphen
    rule of [_handle_long_word] is modelled too. *)

Module TextWrap.

Definition chunk := list ascii.

Definition code (c : ascii) : nat := nat_of_ascii c.

(** [textwrap._whitespace = '\t\n\x0b\x0c\r '] *)
Definition tw_space (c : ascii) : bool :=
  orb (andb (Nat.leb 9 (code c)) (Nat.leb (code c) 13)) (Nat.eqb (code c) 32).

(** [str.expandtabs(8)]: the column restarts after \n and \r. *)
Fixpoint expandtabs_aux (col : nat) (l : list ascii) : list ascii :=
  match l with
  | [] => []
  | c :: l' =>
      if Nat.eqb (code c) 9 then
        let k := (8 - Nat.modulo col 8)%nat in
        app (repeat " "%char k) (expandtabs_aux (col + k)%nat l')
      else if orb (Nat.eqb (code c) 10) (Nat.eqb (code c) 13) then
        c :: expandtabs_aux 0 l'
      else c :: expandtabs_aux (S col) l'
  end.

(** [_munge_whitespace]: expand tabs, then every character of
    [_whitespace] becomes a space. *)
Definition munge_whitespace (l : list ascii) : list ascii :=
  map (fun c => if tw_space c then " "%char else c) (expandtabs_aux 0 l).

(** Python's [\w] on the code points 0..255: letters, digits, [_] and
    the Latin-1 word characters. *)
Definition in_ranges (n : nat) (rs : list (nat * nat)) : bool :=
  existsb (fun r => andb (Nat.leb (fst r) n) (Nat.leb n (snd r))) rs.

Definition is_word (c : ascii) : bool :=
  in_ranges (code c) [(48, 57); (65, 90); (95, 95); (97, 122); (170, 170); (178, 179);
                      (181, 181); (185, 186); (188, 190); (192, 214); (216, 246); (248, 255)]%nat.

(** [letter = r'[^\d\W]'] *)
Definition is_letter (c : ascii) : bool :=
  andb (is_word c) (negb (andb (Nat.leb 48 (code c)) (Nat.leb (code c) 57))).

(** [word_punct]: a word character or one of ! (double quote) ' & . , ? *)
Definition is_word_punct (c : ascii) : bool :=
  orb (is_word c) (in_ranges (code c) [(33, 34); (38, 39); (44, 44); (46, 46); (63, 63)]%nat).

Definition is_hyphen (c : ascii) : bool := Nat.eqb (code c) 45.

(** [nowhitespace]: any character outside [_whitespace] *)
Definition is_nws (c : ascii) : bool := negb (tw_space c).

(** The character at index [i] of the text satisfies [p]; false out of range,
    as a lookaround past either end fails. *)
Definition chk (p : ascii -> bool) (t : list ascii) (i : Z) : bool :=
  if i <? 0 then false
  else match nth_error t (Z.to_nat i) with Some c => p c | None => false end.

(** Length of the run of characters satisfying [p] from index [i]. *)
Fixpoint run_len (p : ascii -> bool) (l : list ascii) : nat :=
  match l with
  | c :: l' => if p c then S (run_len p l') else O
  | [] => O
  end.

Definition run_from (p : ascii -> bool) (t : list ascii) (i : Z) : Z :=
  Z.of_nat (run_len p (skipn (Z.to_nat i) t)).

(** [-{2,}\w] matches at [i]: the greedy run of hyphens backtracks only
    onto hyphens, so it matches iff the maximal run has length two or more
    and a word character follows it. *)
Definition dashes_then_word (t : list ascii) (i : Z) : bool :=
  let k := run_from is_hyphen t i in
  andb (2 <=? k) (chk is_word t (i + k)).

(** The hyphenated-word branch at index [q] of the text:
    [-(?: (?<=lt{2}-) | (?<=lt-lt-)) (?= lt -? lt)]. *)
Definition hyphen_break (t : list ascii) (q : Z) : bool :=
  andb (chk is_hyphen t q)
  (andb (orb (andb (chk is_letter t (q - 2)) (chk is_letter t (q - 1)))
             (andb (chk is_letter t (q - 3))
                   (andb (chk is_hyphen t (q - 2)) (chk is_letter t (q - 1)))))
        (andb (chk is_letter t (q + 1))
              (orb (chk is_letter t (q + 2))
                   (andb (chk is_hyphen t (q + 2)) (chk is_letter t (q + 3)))))).

(** The lazy [nws+?] of the word branch: the current match is the text
    from its start to [q] (at least one character), and the three
    alternatives are tried in order before taking one more character. *)
Fixpoint word_end (t : list ascii) (q : Z) (fuel : nat) : Z :=
  match fuel with
  | O => q
  | S f =>
      if hyphen_break t q then q + 1
      else if negb (chk is_nws t q) then q
      else if andb (chk is_word_punct t (q - 1)) (dashes_then_word t q) then q
      else word_end t (q + 1) f
  end.

(** End of the match of [wordsep_re] starting at index [p] (a character
    of the text): whitespace run, em-dash or word. *)
Definition match_end (t : list ascii) (p : Z) : Z :=
  if chk tw_space t p then p + run_from tw_space t p
  else if andb (chk is_word_punct t (p - 1)) (dashes_then_word t p)
  then p + run_from is_hyphen t p
  else word_end t (p + 1) (List.length t).

Definition slice (t : list ascii) (a b : Z) : chunk :=
  firstn (Z.to_nat (b - a)) (skipn (Z.to_nat a) t).

(** [wordsep_re.split(text)]: every character starts or continues a match,
    so the pieces between matches are empty and dropped by [_split]. *)
Fixpoint split_from (t : list ascii) (p : Z) (fuel : nat) : list chunk :=
  match fuel with
  | O => []
  | S f =>
      if Z.of_nat (List.length t) <=? p then []
      else let e := match_end t p in slice t p e :: split_from t e f
  end.

(** [_split(_munge_whitespace(text))] *)
Definition split_chunks (text : string) : list chunk :=
  let t := munge_whitespace (list_ascii_of_string text) in
  split_from t 0 (List.length t).

Definition clen (ch : chunk) : Z := Z.of_nat (List.length ch).

(** [chunk.strip() == ''] *)
Definition blank (ch : chunk) : bool :=
  match PyStr.drop_space ch with [] => true | _ => false end.

(** inner loop: [while chunks: if cur_len + len(chunks[-1]) <= width: ...] *)
Fixpoint take_fitting (width cur_len : Z) (cur_line chunks : list chunk)
  : list chunk * Z * list chunk :=
  match chunks with
  | ch :: rest =>
      if cur_len + clen ch <=? width
      then take_fitting width (cur_len + clen ch) (app cur_line [ch]) rest
      else (cur_line, cur_len, chunks)
  | [] => (cur_line, cur_len, [])
  end.

(** [chunk.rfind('-', 0, stop)], -1 when absent *)
Fixpoint rfind_hyphen_aux (i : nat) (l : list ascii) (acc : Z) : Z :=
  match l with
  | [] => acc
  | c :: l' => rfind_hyphen_aux (S i) l' (if Nat.eqb (code c) 45 then Z.of_nat i else acc)
  end.

Definition rfind_hyphen (ch : chunk) (stop : Z) : Z :=
  rfind_hyphen_aux 0 (firstn (Z.to_nat stop) ch) (-1).

(** [_handle_long_word]: returns the new current line and the remaining
    chunks (the long chunk replaced by its unbroken tail). *)
Definition handle_long_word (width cur_len : Z) (cur_line : list chunk)
    (ch : chunk) (rest : list chunk) : list chunk * list chunk :=
  let space_left := if width <? 1 then 1 else width - cur_len in
  let hyphen := rfind_hyphen ch space_left in
  let end_ :=
    if andb (space_left <? clen ch)
         (andb (0 <? hyphen)
               (existsb (fun c => negb (Nat.eqb (code c) 45)) (firstn (Z.to_nat hyphen) ch)))
    then hyphen + 1 else space_left in
  (app cur_line [firstn (Z.to_nat end_) ch], skipn (Z.to_nat end_) ch :: rest).

(** One pass of the outer [while chunks:] loop of [_wrap_chunks]. *)
Definition wrap_step (width : Z) (chunks : list chunk) (lines : list string)
  : list chunk * list string :=
  let chunks1 :=
    match chunks, lines with
    | ch :: rest, _ :: _ => if blank ch then rest else chunks
    | _, _ => chunks
    end in
  let '(cl, cur_len, chunks2) := take_fitting width 0 [] chunks1 in
  let '(cl2, chunks3) :=
    match chunks2 with
    | ch :: rest => if width <? clen ch then handle_long_word width cur_len cl ch rest
                    else (cl, chunks2)
    | [] => (cl, [])
    end in
  let cl3 :=
    match rev cl2 with
    | lst :: _ => if blank lst then removelast cl2 else cl2
    | [] => cl2
    end in
  match cl3 with
  | [] => (chunks3, lines)
  | _ => (chunks3, app lines [string_of_list_ascii (List.concat cl3)])
  end.

(** Each pass with [width >= 1] removes at least one character from the
    chunks, so [S (number of characters)] passes always reach the end. *)
Fixpoint wrap_loop (fuel : nat) (width : Z) (chunks : list chunk) (lines : list string)
  : list string :=
  match fuel with
  | O => lines
  | S f =>
      match chunks with
      | [] => lines
      | _ => let '(chunks', lines') := wrap_step width chunks lines in
             wrap_loop f width chunks' lines'
      end
  end.

Definition wrap (text : string) (width : Z) : pyres (list string) :=
  if width <=? 0 then PyRaise "ValueError: invalid width (must be > 0)"
  else
    let chunks := split_chunks text in
    PyOk (wrap_loop (S (List.length (List.concat chunks))) width chunks []).

End TextWrap.

(* ------------------------------------------------------------------------- *)
(** ** [_draw_item_card] and [_draw_tag]

    A card is rendered as the list of drawing operations it performs, with
    their coordinates. Text extents depend on the font; where the code
    measures text ([draw.textbbox]) the width is given by [measure]. The
    severity-badge label and the tag labels are positioned from font
    metrics and are left out; their rectangles are kept. *)

Inductive font := font_small | font_tag | font_body | font_cve | font_heading.

Inductive rect_kind :=
| CardBackground
| AccentBar
| SeverityBadge
| TagChip (tag : string).

Inductive text_kind := CategoryText | ProductText | CveText | DescText.

Inductive draw_op :=
| DRect (k : rect_kind) (x1 y1 x2 y2 : Z)
| DText (k : text_kind) (x y : Z) (s : string).

(** The spacings of [_draw_item_card], normal ([compact = False]) and
    compact, with the tag metrics of [_draw_tag] and the badge metrics. *)
Record profile := {
  padding_top : Z;
  padding_bottom : Z;
  tag_section : Z;          (* tag_section_height when item.tags *)
  spacing_category : Z;
  spacing_product : Z;
  spacing_cve : Z;
  spacing_cve_desc : Z;
  spacing_no_cve : Z;
  line_height : Z;
  max_desc_lines : nat;
  tag_height : Z;
  max_tags : nat;
  tag_padding_x : Z;
  tag_gap : Z;              (* 16 if not compact else 12 *)
  badge_margin : Z;
  badge_width : Z
}.

Definition profile_of (compact : bool) : profile :=
  if compact then
    {| padding_top := 30; padding_bottom := 35; tag_section := 70;
       spacing_category := 60; spacing_product := 55; spacing_cve := 70;
       spacing_cve_desc := 70; spacing_no_cve := 80; line_height := 44;
       max_desc_lines := 3; tag_height := 52; max_tags := 4;
       tag_padding_x := 28; tag_gap := 12; badge_margin := 35; badge_width := 280 |}
  else
    {| padding_top := 40; padding_bottom := 50; tag_section := 90;
       spacing_category := 80; spacing_product := 70; spacing_cve := 90;
       spacing_cve_desc := 80; spacing_no_cve := 100; line_height := 58;
       max_desc_lines := 6; tag_height := 68; max_tags := 6;
       tag_padding_x := 40; tag_gap := 16; badge_margin := 50; badge_width := 320 |}.

Definition badge_height : Z := 90.

Section Card.

Variable measure : font -> string -> Z.

(** [_draw_tag]: draws the chip and returns [tag_width + gap]. *)
Definition draw_tag (compact : bool) (x y : Z) (tag : string) : draw_op * Z :=
  let p := profile_of compact in
  let f := if compact then font_small else font_tag in
  let tag_width := measure f tag + tag_padding_x p * 2 in
  (DRect (TagChip tag) x y (x + tag_width) (y + tag_height p), tag_width + tag_gap p).

(** [for tag in item.tags[:max_tags]: if tag_x + 200 > x + card_width - 40: break] *)
Fixpoint place_tags (compact : bool) (limit tag_x tag_y : Z) (ts : list string)
  : list draw_op :=
  match ts with
  | [] => []
  | t :: ts' =>
      if limit <? tag_x + 200 then []
      else let '(op, adv) := draw_tag compact tag_x tag_y t in
           op :: place_tags compact limit (tag_x + adv) tag_y ts'
  end.

Fixpoint desc_ops (x y lh : Z) (lines : list string) : list draw_op :=
  match lines with
  | [] => []
  | l :: ls => DText DescText x y l :: desc_ops x (y + lh) lh ls
  end.

Record card_result := {
  card_h : Z;                    (* the card_height the card is drawn with *)
  card_wrapped : list string;    (* textwrap.wrap(item.description, ...) *)
  card_ops : list draw_op;
  card_end_y : Z                 (* the returned y + card_height + 40 *)
}.

Definition nonempty {A} (l : list A) : bool :=
  match l with [] => false | _ => true end.

Definition draw_item_card (x y : Z) (item : BulletinItem) (card_width min_height : Z)
    (compact : bool) : pyres card_result :=
  let p := profile_of compact in
  let inner_x := x + 50 in
  let tag_section_height := if nonempty (tags item) then tag_section p else 0 in
  let content_height :=
    padding_top p + spacing_category p + spacing_product p +
    (match cve_id item with
     | Some _ => spacing_cve p + spacing_cve_desc p
     | None => spacing_no_cve p
     end) in
  let wrap_width := Z.quot card_width 22 in
  wrapped_desc <- TextWrap.wrap (description item) wrap_width ;;
  let desc_lines := Nat.min (List.length wrapped_desc) (max_desc_lines p) in
  let content_height := content_height + Z.of_nat desc_lines * line_height p in
  let card_height0 := content_height + tag_section_height + padding_bottom p in
  let card_height :=
    if andb (0 <? min_height) (card_height0 <? min_height) then min_height
    else card_height0 in
  let inner_y0 := y + padding_top p in
  let inner_y1 := inner_y0 + spacing_category p in
  let product_text :=
    match version item with
    | Some v => product item ++ " v" ++ v
    | None => product item
    end in
  let '(cve_part, inner_y2) :=
    match cve_id item with
    | Some c => ([DText CveText inner_x (inner_y1 + spacing_cve p) c],
                 inner_y1 + spacing_cve p + spacing_cve_desc p)
    | None => ([], inner_y1 + spacing_no_cve p)
    end in
  let tag_part :=
    if nonempty (tags item) then
      place_tags compact (x + card_width - 40) inner_x
        (y + card_height - padding_bottom p - tag_height p)
        (firstn (max_tags p) (tags item))
    else [] in
  PyOk {|
    card_h := card_height;
    card_wrapped := wrapped_desc;
    card_ops :=
      [DRect CardBackground x y (x + card_width) (y + card_height);
       DRect AccentBar x (y + 24) (x + 10) (y + card_height - 24);
       DText CategoryText inner_x inner_y0 (PyStr.upper (category_label (category item)));
       DRect SeverityBadge (x + card_width - badge_width p - badge_margin p) (y + badge_margin p)
             (x + card_width - badge_margin p) (y + badge_margin p + badge_height);
       DText ProductText inner_x inner_y1 product_text]
      ++ cve_part
      ++ desc_ops inner_x inner_y2 (line_height p) (firstn (max_desc_lines p) wrapped_desc)
      ++ tag_part;
    card_end_y := y + card_height + 40 |}.

End Card.

(** Card height as the spec states it: padding_top + category row + product
    row + (CVE row + CVE-to-description gap, or the no-CVE gap) + capped
    wrapped line count x line height + tag section (if tags) +
    padding_bottom, stretched (never shrunk) to [min_height]. *)
Definition spec_card_height (item : BulletinItem) (compact : bool) (n_wrapped : nat)
    (min_height : Z) : Z :=
  let p := profile_of compact in
  Z.max (padding_top p + spacing_category p + spacing_product p
         + match cve_id item with
           | Some _ => spacing_cve p + spacing_cve_desc p
           | None => spacing_no_cve p
           end
         + Z.of_nat (Nat.min n_wrapped (max_desc_lines p)) * line_height p
         + (if nonempty (tags item) then tag_section p else 0)
         + padding_bottom p)
        min_height.


(** The description lines a card draws. *)
Fixpoint desc_texts (ops : list draw_op) : list string :=
  match ops with
  | [] => []
  | DText DescText _ _ s :: ops' => s :: desc_texts ops'
  | _ :: ops' => desc_texts ops'
  end.

(** The text drawn on the CVE line of a card. *)
Fixpoint cve_texts (ops : list draw_op) : list string :=
  match ops with
  | [] => []
  | DText CveText _ _ s :: ops' => s :: cve_texts ops'
  | _ :: ops' => cve_texts ops'
  end.

(** The tags whose chips a card draws, left to right, with their rectangles. *)
Fixpoint chip_rects (ops : list draw_op) : list (string * (Z * Z * Z * Z)) :=
  match ops with
  | [] => []
  | DRect (TagChip t) x1 y1 x2 y2 :: ops' => (t, (x1, y1, x2, y2)) :: chip_rects ops'
  | _ :: ops' => chip_rects ops'
  end.

(** Chips drawn left to right from [x0]: each starts where the previous one
    ended plus the gap [_draw_tag] adds to its returned width. *)
Fixpoint chip_chain (gap x0 : Z) (chips : list (string * (Z * Z * Z * Z))) : Prop :=
  match chips with
  | [] => True
  | (_, (x1, _, x2, _)) :: cs => x1 = x0 /\ chip_chain gap (x2 + gap) cs
  end.

(** The [tag_x] after drawing [chips] from [x0]. *)
Fixpoint next_chip_x (gap x0 : Z) (chips : list (string * (Z * Z * Z * Z))) : Z :=
  match chips with
  | [] => x0
  | (_, (_, _, x2, _)) :: cs => next_chip_x gap (x2 + gap) cs
  end.

Fixpoint str_repeat (n : nat) (s : string) : string :=
  match n with O => EmptyString | S n' => s ++ str_repeat n' s end.

(** A bulletin with a single 120-character tag. *)
Definition long_tag_item : BulletinItem := {|
  category := VULNERABILITA; severity := HIGH; product := "OpenSSL";
  description := "A buffer overflow was fixed in the TLS handshake parser.";
  tags := [str_repeat 120 "x"]; cve_id := None; version := None; image_path := None |}.

(** A bulletin in the shape of the end-to-end example of the spec. *)
Definition sample_item : BulletinItem := {|
  category := PATCH; severity := HIGH; product := "OpenSSL";
  description := "A buffer overflow was fixed in the TLS handshake parser.";
  tags := ["tls"; "overflow"]; cve_id := Some "CVE-2024-9999";
  version := None; image_path := None |}.

(** A monospace stand-in for [draw.textbbox] widths: 22 pixels a character. *)
Definition mono_measure (f : font) (s : string) : Z := 22 * Z.of_nat (String.length s).


(* ------------------------------------------------------------------------- *)
(** ** [load_json_file], [load_bulletins_from_file], [process_batch] *)

(** What [load_json_file] finds at a path: nothing ([os.path.exists] is
    false), a file [json.load] rejects with a [JSONDecodeError], a path
    whose opening or reading raises another exception (a directory, a file
    without read permission, bytes that are not UTF-8), each with the text
    of the exception, or the parsed value. *)
Inductive file_content :=
| Missing
| Malformed (e : string)
| Unreadable (e : string)
| Parsed (j : json).

(** [load_json_file] returns [inl data] or [inr error_message]. *)
Definition load_json_file (path : string) (c : file_content) : json + string :=
  match c with
  | Missing => inr ("File non trovato: " ++ path)
  | Malformed e => inr ("Errore parsing JSON in " ++ path ++ ": " ++ e)
  | Unreadable e => inr ("Errore caricamento file " ++ path ++ ": " ++ e)
  | Parsed j => inl j
  end.

(** [for ... in v]: a list gives its items, a dict its keys, a string its
    characters; other values are not iterable. *)
Definition py_iter (v : json) : pyres (list json) :=
  match v with
  | JArr l => PyOk l
  | JObj o => PyOk (map (fun kv => JStr (fst kv)) o)
  | JStr s => PyOk (map JStr (chars_of s))
  | _ => PyRaise "TypeError: object is not iterable"
  end.

(** [for i, bulletin in enumerate(bulletins): validate_bulletin_data(bulletin, i + 1)] *)
Fixpoint validate_all (bs : list json) (index : nat) : pyres (option string) :=
  match bs with
  | [] => PyOk None
  | b :: bs' =>
      r <- validate_bulletin_data b index ;;
      if fst r then validate_all bs' (S index) else PyOk (Some (snd r))
  end.

(** [load_bulletins_from_file]: [inl bulletins] or [inr error_message]. *)
Definition load_bulletins_from_file (path : string) (c : file_content)
  : pyres (list json + string) :=
  match load_json_file path c with
  | inr e => PyOk (inr e)
  | inl data =>
    let bulletins :=
      match data with
      | JArr l => PyOk (inl (JArr l))
      | JObj o =>
          match dict_get o "bulletins", dict_get o "items" with
          | Some b, _ => PyOk (inl b)
          | None, Some b => PyOk (inl b)
          | None, None => PyOk (inr "Formato JSON non valido. Atteso una lista o un dict con chiave 'bulletins' o 'items'")
          end
      | _ => PyOk (inr "Formato JSON non valido. Atteso una lista o un dizionario")
      end in
    b <- bulletins ;;
    match b with
    | inr e => PyOk (inr e)
    | inl bv =>
        bs <- py_iter bv ;;
        err <- validate_all bs 1 ;;
        match err with
        | Some e => PyOk (inr e)
        | None => PyOk (inl bs)
        end
    end
  end.

(** A file in one of the three layouts [load_bulletins_from_file] accepts,
    holding the record list [l]: a JSON list, or a dict whose "bulletins"
    key, or (without "bulletins") whose "items" key, holds it. *)
Definition record_list_file (c : file_content) (l : list json) : Prop :=
  c = Parsed (JArr l) \/
  (exists d, c = Parsed (JObj d) /\ dict_get d "bulletins" = Some (JArr l)) \/
  (exists d, c = Parsed (JObj d) /\ dict_get d "bulletins" = None /\
             dict_get d "items" = Some (JArr l)).

(** [os.path.join(a, b)] for a relative [b] *)
Definition path_join (a b : string) : string :=
  if orb (String.eqb a "") (String.eqb (substring (String.length a - 1) 1 a) "/")
  then a ++ b else a ++ "/" ++ b.

(** [os.path.splitext(file_name)[0]] for the names [*.json] matches *)
Definition base_name (file_name : string) : string :=
  substring 0 (String.length file_name - 5) file_name.

(** U+274C, the cross mark that prefixes error lines, in UTF-8 *)
Definition cross_mark : string :=
  String (ascii_of_nat 226) (String (ascii_of_nat 157) (String (ascii_of_nat 140) EmptyString)).

Record batch_state := {
  successes : nat;
  failures : nat;
  errors : list string;
  written : list string      (* the PNG files saved, in order *)
}.

Section Batch.

(** [SecurityBulletinGenerator.generate(item, output_file)]: drawing with
    PIL and saving; [PyRaise] when it raises. *)
Variable generate : PyBulletinItem -> string -> pyres unit.

(** [os.makedirs(output_dir, exist_ok=True)]: [PyRaise] when it raises
    (an empty path, a path that names a file, no permission). *)
Variable makedirs : string -> pyres unit.

(** [generate_from_dict(data, output_file)] *)
Definition generate_from_dict (data : json) (output_file : string) : pyres unit :=
  item <- bulletin_item_of_dict data ;;
  generate item output_file.

Fixpoint render_all (output_dir file_name : string) (single : bool)
    (bs : list json) (i : nat) (st : batch_state) : batch_state :=
  match bs with
  | [] => st
  | b :: bs' =>
      let output_file :=
        if single then path_join output_dir (base_name file_name ++ ".png")
        else path_join output_dir (base_name file_name ++ "_" ++ PyStr.of_nat_02 (S i) ++ ".png") in
      let st' :=
        match generate_from_dict b output_file with
        | PyOk _ => {| successes := S (successes st); failures := failures st;
                       errors := errors st; written := app (written st) [output_file] |}
        | PyRaise e => {| successes := successes st; failures := S (failures st);
                          errors := app (errors st)
                            [cross_mark ++ " " ++ file_name ++ " bollettino #" ++ PyStr.of_nat (S i)
                             ++ ": Errore generazione: " ++ e];
                          written := written st |}
        end in
      render_all output_dir file_name single bs' (S i) st'
  end.

(** The [for json_file in json_files:] loop; [file_name] is the base name
    of [json_file = os.path.join(input_dir, file_name)]. *)
Fixpoint batch_files (input_dir output_dir : string) (files : list (string * file_content))
    (st : batch_state) : pyres batch_state :=
  match files with
  | [] => PyOk st
  | (file_name, c) :: files' =>
      r <- load_bulletins_from_file (path_join input_dir file_name) c ;;
      match r with
      | inr e =>
          batch_files input_dir output_dir files'
            {| successes := successes st; failures := S (failures st);
               errors := app (errors st) [cross_mark ++ " " ++ file_name ++ ": " ++ e];
               written := written st |}
      | inl bs =>
          batch_files input_dir output_dir files'
            (render_all output_dir file_name (Nat.eqb (List.length bs) 1) bs 0 st)
      end
  end.

(** [process_batch(input_dir, output_dir, config)]; [files] are the names
    and contents of the [*.json] files of [input_dir] in [glob] order. *)
Definition process_batch (input_dir output_dir : string)
    (files : list (string * file_content)) : pyres batch_state :=
  _ <- makedirs output_dir ;;
  match files with
  | [] => PyOk {| successes := 0; failures := 0;
                  errors := ["Nessun file JSON trovato in " ++ input_dir]; written := [] |}
  | _ => batch_files input_dir output_dir files {| successes := 0; failures := 0; errors := []; written := [] |}
  end.

End Batch.

(** Bulletin records used as concrete inputs. *)
Definition record_with (cat sev : string) (extra : list (string * json)) : json :=
  JObj (app [("category", JStr cat); ("severity", JStr sev); ("product", JStr "OpenSSL");
             ("description", JStr "A buffer overflow was fixed in the TLS handshake parser.")]
            extra).

Definition foo_bar_record : json := record_with "foo" "bar" [].

Definition lower_cve_record : json :=
  record_with "patch" "high" [("cve_id", JStr "cve-2024-1234")].

Definition good_record : json := record_with "patch" "high" [].
Definition bad_record : json := record_with "patch" "bar" [].

(** A batch directory with one valid and one invalid single-record file *)
Definition good_bad_files : list (string * file_content) :=
  [("good.json", Parsed (JArr [good_record])); ("bad.json", Parsed (JArr [bad_record]))].

(** One file holding a valid record followed by an invalid one *)
Definition mixed_files : list (string * file_content) :=
  [("mixed.json", Parsed (JArr [good_record; bad_record]))].

(** [generate] when drawing and saving succeed *)
Definition generate_ok (item : PyBulletinItem) (output_file : string) : pyres unit := PyOk tt.

(** [os.makedirs] when the output directory exists or can be created *)
Definition makedirs_ok (output_dir : string) : pyres unit := PyOk tt.

(* ------------------------------------------------------------------------- *)
(** ** Python floats: binary64 numbers

    A float is the rational number it denotes. Each float operation is the
    exact operation followed by [f64], rounding to the nearest binary64
    number with ties to even (53-bit significands, subnormals below
    2^-1022). The exponent is not bounded above: no overflow to infinity,
    which the pixel and colour computations below never approach. *)

Definition P2 (k : Z) : Q := Qpower (2 # 1) k.

(** The nearest integer, ties to the even one *)
Definition round_half_even (m : Q) : Z :=
  let f := Qfloor m in
  match Qcompare (m - inject_Z f) (1 # 2) with
  | Lt => f
  | Gt => f + 1
  | Eq => if Z.even f then f else f + 1
  end.

(** For [0 < x], the [k] with [2^k <= x < 2^(k+1)] *)
Definition floor_log2 (x : Q) : Z :=
  let k := Z.log2 (Qnum x) - Z.log2 (Zpos (Qden x)) in
  if Qle_bool (P2 k) x then k else k - 1.

(** The weight of the last significand bit of [x] *)
Definition f64_exp (x : Q) : Z := Z.max (floor_log2 x - 52) (-1074).

Definition f64_pos (x : Q) : Q :=
  let e := f64_exp x in
  (inject_Z (round_half_even (x * P2 (- e))) * P2 e)%Q.

Definition f64 (x : Q) : Q :=
  match Qcompare x 0 with
  | Gt => f64_pos x
  | Lt => (- f64_pos (- x))%Q
  | Eq => 0%Q
  end.

(* ------------------------------------------------------------------------- *)
(** ** [_blend_colors] *)

(** [int(v)] on a float, truncating toward zero *)
Definition py_int (v : Q) : Z :=
  if Qle_bool 0 v then Qfloor v else - Qfloor (- v).

(** [int(c1 + (c2 - c1) * factor)]: [c2 - c1] is an int; multiplied by
    the float [factor] and added to [c1] it gives floats. *)
Definition blend_channel (c1 c2 : Z) (factor : Q) : Z :=
  py_int (f64 (inject_Z c1 + f64 (inject_Z (c2 - c1) * factor))).

(** [tuple(int(c1 + (c2 - c1) * factor) for c1, c2 in zip(color1, color2))] *)
Definition blend_colors (color1 color2 : list Z) (factor : Q) : list Z :=
  map (fun '(c1, c2) => blend_channel c1 c2 factor) (combine color1 color2).

(* ------------------------------------------------------------------------- *)
(** ** The vertical layout of [generate] *)

(** Where [generate] puts the card, the attached image and the footer. *)
Record layout := {
  lay_card_top : Z;
  lay_card_bottom : Z;                 (* card_x's y + card_height *)
  lay_image : option (Z * Z * Z * Z);  (* img_x, img_y, new_width, new_height *)
  lay_footer_line : Z;                 (* the separator line of [_draw_footer] *)
  lay_canvas_height : Z
}.

(** The header block [_draw_header] draws ends at this y, which it returns. *)
Definition header_bottom : Z := 300.

(** The scaling of the attached image in [generate]; [img] is the size of
    the image when [item.image_path] exists and opens. [None] when there
    is not enough room, or when the [except] catches a division by zero or
    the ValueError [Image.resize] raises for a width or height below 1.
    [img_ratio] and the quotient and product it enters are floats; the
    int operand of each is converted to a float first. *)
Definition fit_attached_image (available_height card_width : Z) (img : option (Z * Z))
  : option (Z * Z) :=
  match img with
  | None => None
  | Some (w, h) =>
    let min_card_height := 450 in
    let space_for_image := available_height - min_card_height - 40 in
    if 100 <? space_for_image then
      let max_img_width := card_width - 80 in
      let max_img_height := Z.min space_for_image 600 in
      if Z.eqb h 0 then None else
      let img_ratio := f64 (inject_Z w / inject_Z h) in
      if Qeq_bool img_ratio 0 then None else
      let new_width := Z.min w max_img_width in
      let new_height := py_int (f64 (f64 (inject_Z new_width) / img_ratio)) in
      let size :=
        if max_img_height <? new_height then
          (py_int (f64 (f64 (inject_Z max_img_height) * img_ratio)), max_img_height)
        else (new_width, new_height) in
      (* [attached_img.resize(size)] raises a ValueError below 1 pixel *)
      if orb (fst size <? 1) (snd size <? 1) then None else Some size
    else None
  end.

(** [generate(item)] for a canvas [config.width] x [config.height]. *)
Definition generate_layout (measure : font -> string -> Z) (width height : Z)
    (item : BulletinItem) (img : option (Z * Z)) : pyres layout :=
  let card_width := width - 160 in
  let footer_height := 120 in
  let y_offset := header_bottom in
  let card_x := 80 in
  let available_height := height - y_offset - footer_height - 40 in
  let attached := fit_attached_image available_height card_width img in
  let '(card_min_height, compact_mode) :=
    match attached with
    | Some (_, ih) => (available_height - ih - 40, true)
    | None => (available_height, false)
    end in
  r <- draw_item_card measure card_x y_offset item card_width card_min_height compact_mode ;;
  PyOk {|
    lay_card_top := y_offset;
    lay_card_bottom := y_offset + card_h r;
    lay_image :=
      match attached with
      | Some (iw, ih) => Some (card_x + Z.div (card_width - iw) 2, card_end_y r, iw, ih)
      | None => None
      end;
    lay_footer_line := height - 80 - 30;
    lay_canvas_height := height |}.

(** A bulletin with a CVE, tags and a description of four sentences,
    three or more wrapped lines on any card of the default width. *)
Definition image_item : BulletinItem := {|
  category := VULNERABILITA; severity := CRITICAL; product := "OpenSSL";
  description := str_repeat 4 "A buffer overflow was fixed in the TLS handshake parser. ";
  tags := ["tls"; "overflow"]; cve_id := Some "CVE-2024-9999";
  version := None; image_path := Some "diagram.png" |}.

(* ------------------------------------------------------------------------- *)
(** ** [_hex_to_rgb] and the logo background replacement of [_draw_header] *)

Definition hex_digit (c : ascii) : option Z :=
  let n := nat_of_ascii c in
  if andb (Nat.leb 48 n) (Nat.leb n 57) then Some (Z.of_nat n - 48)
  else if andb (Nat.leb 97 n) (Nat.leb n 102) then Some (Z.of_nat n - 87)
  else if andb (Nat.leb 65 n) (Nat.leb n 70) then Some (Z.of_nat n - 55)
  else None.

Fixpoint hex_digits (acc : Z) (l : list ascii) : option Z :=
  match l with
  | [] => Some acc
  | c :: l' => match hex_digit c with
               | Some d => hex_digits (acc * 16 + d) l'
               | None => None
               end
  end.

(** [int(s, 16)] on the (at most two character) slices [_hex_to_rgb]
    takes: surrounding whitespace, an optional sign, then hex digits. *)
Definition int16 (s : string) : pyres Z :=
  let err := PyRaise ("ValueError: invalid literal for int() with base 16: " ++ s) in
  match list_ascii_of_string (PyStr.strip s) with
  | [] => err
  | c :: l =>
      let '(sign, digits) :=
        if Nat.eqb (nat_of_ascii c) 43 then (1, l)
        else if Nat.eqb (nat_of_ascii c) 45 then (-1, l)
        else (1, c :: l) in
      match digits with
      | [] => err
      | _ => match hex_digits 0 digits with
             | Some v => PyOk (sign * v)
             | None => err
             end
      end
  end.

Fixpoint lstrip_hash (s : string) : string :=
  match s with
  | String c s' => if Nat.eqb (nat_of_ascii c) 35 then lstrip_hash s' else s
  | EmptyString => EmptyString
  end.

Record rgb := mk_rgb { red : Z; green : Z; blue : Z }.

(** [_hex_to_rgb]: [tuple(int(h[i:i+2], 16) for i in (0, 2, 4))] after
    [h = hex_color.lstrip('#')]; slices are clamped to the string. *)
Definition hex_to_rgb (hex_color : string) : pyres rgb :=
  let h := lstrip_hash hex_color in
  r <- int16 (substring 0 2 h) ;;
  g <- int16 (substring 2 2 h) ;;
  b <- int16 (substring 4 2 h) ;;
  PyOk (mk_rgb r g b).

(** An RGBA pixel of the logo after [convert("RGBA")] *)
Record pixel := mk_pixel { pr : Z; pg : Z; pb : Z; pa : Z }.

Definition image := list (list pixel).

(** [pixels[px, py] = (bg_rgb[0], bg_rgb[1], bg_rgb[2], a)] *)
Definition replaced (bg : rgb) (p : pixel) : pixel :=
  mk_pixel (red bg) (green bg) (blue bg) (pa p).

Definition is_dark (p : pixel) : bool := (pr p <? 30) && (pg p <? 30) && (pb p <? 30).
Definition is_light (p : pixel) : bool := (225 <? pr p) && (225 <? pg p) && (225 <? pb p).
Definition near (t : rgb) (p : pixel) : bool :=
  (Z.abs (pr p - red t) <? 30) && (Z.abs (pg p - green t) <? 30) && (Z.abs (pb p - blue t) <? 30).

(** The double loop [for py ...: for px ...:] rewrites each pixel from its
    own value only, so it is a map over rows and columns. *)
Definition map_pixels (f : pixel -> pixel) (img : image) : image := map (map f) img.

(** The [if self.config.logo_bg_replace:] block of [_draw_header];
    [logo_bg_color] is [config.logo_bg_color]. A [PyRaise] is caught by the
    surrounding [try] and the logo is then not drawn. *)
Definition replace_logo_bg (bg : rgb) (logo_bg_color : option string) (img : image)
  : pyres image :=
  match logo_bg_color with
  | Some c =>
    if String.eqb c "" then
      PyOk (map_pixels (fun p => if is_dark p then replaced bg p
                                 else if is_light p then replaced bg p else p) img)
    else
    let target_color := PyStr.lower c in
    if PyStr.mem target_color ["black"; "dark"; "nero"; "scuro"] then
      PyOk (map_pixels (fun p => if is_dark p then replaced bg p else p) img)
    else if PyStr.mem target_color ["white"; "light"; "bianco"; "chiaro"] then
      PyOk (map_pixels (fun p => if is_light p then replaced bg p else p) img)
    else if String.prefix "#" target_color then
      target_rgb <- hex_to_rgb c ;;
      PyOk (map_pixels (fun p => if near target_rgb p then replaced bg p else p) img)
    else PyOk img
  | None =>
      PyOk (map_pixels (fun p => if is_dark p then replaced bg p
                                 else if is_light p then replaced bg p else p) img)
  end.

Definition pixel_at (img : image) (i j : nat) : option pixel :=
  match nth_error img i with Some row => nth_error row j | None => None end.

(** [config.background_color] of the default configuration, "#0F172A" *)
Definition default_bg : rgb := mk_rgb 15 23 42.

(** The description layout as the spec words it: split on line breaks,
    keep an empty unit as an empty line, wrap each non-empty unit. *)
Fixpoint split_nl_aux (cur : list ascii) (l : list ascii) : list (list ascii) :=
  match l with
  | [] => [rev cur]
  | c :: l' => if Nat.eqb (nat_of_ascii c) 10 then rev cur :: split_nl_aux [] l'
               else split_nl_aux (c :: cur) l'
  end.

Fixpoint spec_layout_units (units : list (list ascii)) (width : Z) : pyres (list string) :=
  match units with
  | [] => PyOk []
  | u :: us =>
      first <- (match u with
                | [] => PyOk [""]
                | _ => TextWrap.wrap (string_of_list_ascii u) width
                end) ;;
      rest <- spec_layout_units us width ;;
      PyOk (app first rest)
  end.

Definition spec_layout (text : string) (width : Z) : pyres (list string) :=
  spec_layout_units (split_nl_aux [] (list_ascii_of_string text)) width.

Definition nl : string := String (ascii_of_nat 10) EmptyString.

Definition two_paragraphs : string := "First paragraph." ++ nl ++ nl ++ "Second paragraph.".

Definition nl_to_space (s : string) : string :=
  PyStr.smap (fun c => if Nat.eqb (nat_of_ascii c) 10 then " "%char else c) s.

Definition no_tabs (s : string) : bool :=
  forallb (fun c => negb (Nat.eqb (nat_of_ascii c) 9)) (list_ascii_of_string s).

(* ------------------------------------------------------------------------- *)
(** ** The gradient of [_draw_gradient_rounded_rect] *)



(* ------------------------------------------------------------------------- *)
(** ** The [#RRGGBB] notation of the configuration's colours *)

Definition hex_char (d : Z) : ascii :=
  if d <? 10 then ascii_of_nat (48 + Z.to_nat d) else ascii_of_nat (55 + Z.to_nat d).

(** [format(v, '02X')] for [0 <= v <= 255] *)
Definition hex2 (v : Z) : string :=
  String (hex_char (v / 16)) (String (hex_char (v mod 16)) EmptyString).

Definition rgb_to_hex (c : rgb) : string :=
  "#" ++ hex2 (red c) ++ hex2 (green c) ++ hex2 (blue c).

(* ------------------------------------------------------------------------- *)
(** ** [load_config_from_file] *)

(** [@dataclass BulletinConfig]. [load_config_from_file] passes whatever
    [data.get] returns, so each field holds a JSON value. *)
Record BulletinConfig := {
  cfg_width : json;
  cfg_height : json;
  background_color : json;
  accent_color : json;
  text_color : json;
  secondary_text : json;
  card_bg : json;
  logo_path : json;
  logo_bg_replace : json;
  logo_bg_color : json;
  organization : json;
  title : json;
  date : json;
  footer_text : json
}.

(** [type(v).__name__] *)
Definition py_type_name (v : json) : string :=
  match v with
  | JNull => "NoneType" | JBool _ => "bool" | JNum _ => "int" | JStr _ => "str"
  | JArr _ => "list" | JObj _ => "dict"
  end.

(** [load_config_from_file(file_path)]; [now] is
    [datetime.now().strftime("%d/%m/%Y")]. *)
Definition load_config_from_file (path : string) (c : file_content) (now : string)
  : BulletinConfig + string :=
  match load_json_file path c with
  | inr e => inr e
  | inl (JObj o) =>
      let config_date := py_get o "date" JNull in
      let config_date := if truthy config_date then config_date else JStr now in
      inl {| cfg_width := py_get o "width" (JNum 2400);
             cfg_height := py_get o "height" (JNum 1600);
             background_color := py_get o "background_color" (JStr "#0F172A");
             accent_color := py_get o "accent_color" (JStr "#3B82F6");
             text_color := py_get o "text_color" (JStr "#F8FAFC");
             secondary_text := py_get o "secondary_text" (JStr "#94A3B8");
             card_bg := py_get o "card_bg" (JStr "#1E293B");
             logo_path := py_get o "logo_path" JNull;
             logo_bg_replace := py_get o "logo_bg_replace" (JBool false);
             logo_bg_color := py_get o "logo_bg_color" JNull;
             organization := py_get o "organization" (JStr "Security Operations Center");
             title := py_get o "title" (JStr "Bollettino di Sicurezza");
             date := config_date;
             footer_text := py_get o "footer_text" (JStr "Confidential - Internal Use Only") |}
  | inl data =>
      inr ("Errore creazione configurazione: '" ++ py_type_name data
           ++ "' object has no attribute 'get'")
  end.

(** [BulletinConfig(date=...)]: the dataclass defaults. *)
Definition default_config (d : string) : BulletinConfig := {|
  cfg_width := JNum 2400; cfg_height := JNum 1600;
  background_color := JStr "#0F172A"; accent_color := JStr "#3B82F6";
  text_color := JStr "#F8FAFC"; secondary_text := JStr "#94A3B8";
  card_bg := JStr "#1E293B"; logo_path := JNull; logo_bg_replace := JBool false;
  logo_bg_color := JNull; organization := JStr "Security Operations Center";
  title := JStr "Bollettino di Sicurezza"; date := JStr d;
  footer_text := JStr "Confidential - Internal Use Only" |}.

Definition config_keys : list string :=
  ["width"; "height"; "background_color"; "accent_color"; "text_color";
   "secondary_text"; "card_bg"; "logo_path"; "logo_bg_replace"; "logo_bg_color";
   "organization"; "title"; "date"; "footer_text"].

(* ------------------------------------------------------------------------- *)
(** ** [os.path.splitext] (POSIX) *)

(** [p.rfind(c)], -1 when absent *)
Fixpoint rfind_aux (c : ascii) (i : Z) (l : list ascii) (acc : Z) : Z :=
  match l with
  | [] => acc
  | d :: l' => rfind_aux c (i + 1) l' (if Ascii.eqb d c then i else acc)
  end.

Definition rfind (c : ascii) (p : string) : Z := rfind_aux c 0 (list_ascii_of_string p) (-1).

(** [genericpath._splitext(p, '/', None, '.')] *)
Definition splitext (p : string) : string * string :=
  let sepIndex := rfind "/"%char p in
  let dotIndex := rfind "."%char p in
  if sepIndex <? dotIndex then
    let between := firstn (Z.to_nat (dotIndex - (sepIndex + 1)))
                     (skipn (Z.to_nat (sepIndex + 1)) (list_ascii_of_string p)) in
    if existsb (fun c => negb (Ascii.eqb c "."%char)) between
    then (substring 0 (Z.to_nat dotIndex) p,
          substring (Z.to_nat dotIndex) (String.length p - Z.to_nat dotIndex) p)
    else (p, "")
  else (p, "").

(* ------------------------------------------------------------------------- *)
(** ** [main] *)

(** The arguments [create_parser] defines that [main] reads; [None] when
    an option is not given. *)
Record cli_args := {
  arg_input : option string;
  arg_output : option string;
  arg_config : option string;
  arg_batch : option string;
  arg_output_dir : string       (* default "output" *)
}.

(** [if args.x:] on an optional string *)
Definition opt_truthy (o : option string) : option string :=
  match o with Some s => if String.eqb s "" then None else Some s | None => None end.

Definition exists_path (fs : string -> file_content) (p : string) : bool :=
  match fs p with Missing => false | _ => true end.

Section Main.

Variable generate : PyBulletinItem -> string -> pyres unit.
Variable makedirs : string -> pyres unit.

(** [for i, bulletin in enumerate(bulletins, 1): output_file =
    f"{output_base}_{i:02d}{output_ext}"; generator.generate_from_dict(...)]
    inside the [try]: the first exception ends the loop with exit code 1.
    Returns the exit code and the files written. *)
Fixpoint generate_numbered (output_base output_ext : string) (bs : list json) (i : nat)
    (written : list string) : Z * list string :=
  match bs with
  | [] => (0, written)
  | b :: bs' =>
      let output_file := output_base ++ "_" ++ PyStr.of_nat_02 i ++ output_ext in
      match generate_from_dict generate b output_file with
      | PyOk _ => generate_numbered output_base output_ext bs' (S i) (app written [output_file])
      | PyRaise _ => (1, written)
      end
  end.

(** The single-file mode of [main] from [load_bulletins_from_file(input_file)]
    on. An exception of [load_bulletins_from_file] is not caught and ends
    the program with exit code 1. *)
Definition run_single (input_file output : string) (c : file_content) : Z * list string :=
  match load_bulletins_from_file input_file c with
  | PyRaise _ => (1, [])
  | PyOk (inr _) => (1, [])
  | PyOk (inl bulletins) =>
      match bulletins with
      | [b] => match generate_from_dict generate b output with
               | PyOk _ => (0, [output])
               | PyRaise _ => (1, [])
               end
      | _ =>
          let '(output_base, output_ext) := splitext output in
          let output_ext := if String.eqb output_ext "" then ".png" else output_ext in
          generate_numbered output_base output_ext bulletins 1 []
      end
  end.

(** [config_file = args.config], or ["config.json"] when it is not given
    and exists *)
Definition config_file_of (args : cli_args) (fs : string -> file_content) : option string :=
  match opt_truthy (arg_config args) with
  | Some f => Some f
  | None => if exists_path fs "config.json" then Some "config.json" else None
  end.

(** [if config_file: config, error = load_config_from_file(config_file);
    if error: sys.exit(1)] *)
Definition config_error (args : cli_args) (fs : string -> file_content) (now : string) : bool :=
  match config_file_of args fs with
  | Some f => match load_config_from_file f (fs f) now with inr _ => true | inl _ => false end
  | None => false
  end.

(** [input_file = args.input], or ["bulletins.json"] when it is not given
    and exists *)
Definition input_file_of (args : cli_args) (fs : string -> file_content) : option string :=
  match opt_truthy (arg_input args) with
  | Some f => Some f
  | None => if exists_path fs "bulletins.json" then Some "bulletins.json" else None
  end.

(** [main()]: [fs] gives what is at a path (relative paths in the current
    directory), [listing] the [*.json] files of the batch directory, [now]
    the current date. Returns the exit status and, in single-file mode, the
    files written; in batch mode the files [process_batch] records, none
    when it raises. *)
Definition main (args : cli_args) (fs : string -> file_content)
    (listing : list (string * file_content)) (now : string) : Z * list string :=
  if config_error args fs now then (1, []) else
  match opt_truthy (arg_batch args) with
  | Some dir =>
      match process_batch generate makedirs dir (arg_output_dir args) listing with
      | PyOk st => (if Nat.eqb (failures st) 0 then 0 else 1, written st)
      | PyRaise _ => (1, [])
      end
  | None =>
      match input_file_of args fs, opt_truthy (arg_output args) with
      | Some inp, Some out => run_single inp out (fs inp)
      | _, _ => (1, [])
      end
  end.

End Main.

(* ------------------------------------------------------------------------- *)
(** ** Inputs for [main] and the loaders *)

(** A current directory whose [b.json] holds two valid records *)
Definition two_record_fs (p : string) : file_content :=
  if String.eqb p "b.json" then Parsed (JArr [good_record; good_record]) else Missing.

(** [--input b.json --output report] *)
Definition report_args : cli_args :=
  {| arg_input := Some "b.json"; arg_output := Some "report"; arg_config := None;
     arg_batch := None; arg_output_dir := "output" |}.

(** The item [generate_from_dict] builds from [lower_cve_record] *)
Definition lower_cve_item : BulletinItem := {|
  category := PATCH; severity := HIGH; product := "OpenSSL";
  description := "A buffer overflow was fixed in the TLS handshake parser.";
  tags := []; cve_id := Some "cve-2024-1234"; version := None; image_path := None |}.

(** A current directory whose [b.json] holds one valid record *)
Definition one_record_fs (p : string) : file_content :=
  if String.eqb p "b.json" then Parsed (JArr [good_record]) else Missing.

(** A current directory whose [b.json] holds a valid and an invalid record *)
Definition mixed_fs (p : string) : file_content :=
  if String.eqb p "b.json" then Parsed (JArr [good_record; bad_record]) else Missing.

(** [two_record_fs] with a [cfg.json] holding a list *)
Definition list_config_fs (p : string) : file_content :=
  if String.eqb p "cfg.json" then Parsed (JArr []) else two_record_fs p.

(** [--batch in --output report --input b.json] *)
Definition batch_args : cli_args :=
  {| arg_input := Some "b.json"; arg_output := Some "report"; arg_config := None;
     arg_batch := Some "in"; arg_output_dir := "output" |}.

(** [--config cfg.json --input b.json --output report] *)
Definition cfg_args : cli_args :=
  {| arg_input := Some "b.json"; arg_output := Some "report"; arg_config := Some "cfg.json";
     arg_batch := None; arg_output_dir := "output" |}.

(* ========================================================================= *)
(** * Properties *)

Lemma PyOk_inj {A} (a b : A) : PyOk a = PyOk b -> a = b.
Proof. intros H. injection H as H. exact H. Qed.

(** ** The card *)

Ltac split_in H :=
  repeat match type of H with
  | In _ (_ ++ _) => apply in_app_iff in H; destruct H as [H|H]
  | In _ (_ :: _) => destruct H as [H|H]
  | In _ [] => contradiction
  end.

Lemma stretch_is_max (h0 mh : Z) :
  0 < h0 -> (if andb (0 <? mh) (h0 <? mh) then mh else h0) = Z.max h0 mh.
Proof. intros H. destruct (Z.ltb_spec 0 mh), (Z.ltb_spec h0 mh); simpl; lia. Qed.

Lemma place_tags_rects measure compact limit tx ty ts op :
  In op (place_tags measure compact limit tx ty ts) ->
  exists t x1 x2, op = DRect (TagChip t) x1 ty x2 (ty + tag_height (profile_of compact)).
Proof.
  revert tx. induction ts as [|t ts IH]; intros tx Hin; simpl in Hin; [contradiction|].
  destruct (limit <? tx + 200); [contradiction|].
  unfold draw_tag in Hin. simpl in Hin.
  destruct Hin as [<-|Hin]; [eexists _, _, _; reflexivity | eapply IH; eauto].
Qed.

Lemma desc_ops_texts x y lh lines op :
  In op (desc_ops x y lh lines) -> exists ty l, op = DText DescText x ty l.
Proof.
  revert y. induction lines as [|l ls IH]; intros y Hin; simpl in Hin; [contradiction|].
  destruct Hin as [<-|Hin]; [eexists _, _; reflexivity | eapply IH; eauto].
Qed.

(** C1 *)
Theorem card_height_matches_drawn_card :
  forall measure x y item card_width min_height compact r,
  draw_item_card measure x y item card_width min_height compact = PyOk r ->
  TextWrap.wrap (description item) (Z.quot card_width 22) = PyOk (card_wrapped r) /\
  card_h r = spec_card_height item compact (List.length (card_wrapped r)) min_height /\
  In (DRect CardBackground x y (x + card_width) (y + card_h r)) (card_ops r) /\
  In (DRect AccentBar x (y + 24) (x + 10) (y + card_h r - 24)) (card_ops r) /\
  (forall k x1 y1 x2 y2, In (DRect k x1 y1 x2 y2) (card_ops r) ->
     y <= y1 <= y2 /\ y2 <= y + card_h r) /\
  (forall t x1 y1 x2 y2, In (DRect (TagChip t) x1 y1 x2 y2) (card_ops r) ->
     y2 = y + card_h r - padding_bottom (profile_of compact)) /\
  card_end_y r = y + card_h r + 40.
Proof.
  intros measure x y item card_width min_height compact r Hd.
  unfold draw_item_card in Hd.
  destruct (TextWrap.wrap (description item) (Z.quot card_width 22)) as [w|e] eqn:Hw;
    simpl in Hd; [|discriminate].
  assert (Hmax : forall h0, 0 < h0 ->
            (if andb (0 <? min_height) (h0 <? min_height) then min_height else h0)
            = Z.max h0 min_height) by (intros; apply stretch_is_max; assumption).
  assert (Hn : (0 <= Z.of_nat (Nat.min (List.length w) (max_desc_lines (profile_of compact))))%Z)
    by lia.
  unfold spec_card_height.
  destruct (cve_id item) as [c|] eqn:Hc; cbv beta iota zeta delta [py_bind] in Hd;
    injection Hd as <-;
    cbn [card_h card_wrapped card_ops card_end_y];
    destruct compact; destruct (tags item) as [|t0 ts] eqn:Ht; simpl nonempty in *;
    cbn [padding_top spacing_category spacing_product spacing_cve spacing_cve_desc
         spacing_no_cve line_height max_desc_lines tag_section padding_bottom profile_of
         tag_height badge_width badge_margin max_tags] in *;
    rewrite Hmax by lia;
    match goal with |- context [Z.max ?a min_height] =>
      remember (Z.max a min_height) as H eqn:HH;
      assert (Ha : a <= H) by (rewrite HH; apply Z.le_max_l)
    end;
    (split; [reflexivity|]); (split; [reflexivity|]);
    (split; [simpl; auto 10|]); (split; [simpl; auto 10|]);
    (split; [|split; [|reflexivity]]).
  all: intros ? x1 y1 x2 y2 Hin; split_in Hin; try discriminate Hin;
    try (injection Hin; intros; subst; unfold badge_height; lia);
    try (apply desc_ops_texts in Hin; destruct Hin as (? & ? & ?); discriminate);
    try (apply place_tags_rects in Hin; destruct Hin as (? & ? & ? & Heq);
         cbn [tag_height profile_of] in Heq; injection Heq; intros; subst; lia).
Qed.

Lemma card_height_matches_drawn_card_witness :
  exists r, draw_item_card mono_measure 80 300 sample_item 2240 1140 false = PyOk r /\
    card_h r = spec_card_height sample_item false (List.length (card_wrapped r)) 1140.
Proof.
  destruct (draw_item_card mono_measure 80 300 sample_item 2240 1140 false) as [r|e] eqn:E;
    [|vm_compute in E; discriminate].
  exists r. split; [reflexivity|].
  exact (proj1 (proj2 (card_height_matches_drawn_card _ _ _ _ _ _ _ _ E))).
Defined.

Example sample_card_height :
  option_map card_h
    (match draw_item_card mono_measure 80 300 sample_item 2240 0 false with
     | PyOk r => Some r | PyRaise _ => None end) = Some 558.
Proof. vm_compute. reflexivity. Qed.

Lemma wrap_ok (text : string) (width : Z) :
  0 < width -> exists l, TextWrap.wrap text width = PyOk l.
Proof.
  intros H. unfold TextWrap.wrap. destruct (Z.leb_spec width 0); [lia|]. eexists; reflexivity.
Qed.

Lemma desc_texts_app l1 l2 : desc_texts (app l1 l2) = app (desc_texts l1) (desc_texts l2).
Proof.
  induction l1 as [|[k ? ? ? ?|k ? ? ?] l1 IH]; simpl; [reflexivity| |destruct k]; rewrite ?IH; reflexivity.
Qed.

Lemma desc_texts_desc_ops x y lh lines : desc_texts (desc_ops x y lh lines) = lines.
Proof. revert y. induction lines as [|l ls IH]; intros y; simpl; [reflexivity|]. now rewrite IH. Qed.

Lemma desc_texts_place_tags measure compact limit tx ty ts :
  desc_texts (place_tags measure compact limit tx ty ts) = [].
Proof.
  revert tx. induction ts as [|t ts IH]; intros tx; simpl; [reflexivity|].
  destruct (limit <? tx + 200); [reflexivity|]. simpl. apply IH.
Qed.

(** C5 *)
Theorem normal_mode_description_capped :
  forall measure x y item card_width min_height,
  22 <= card_width ->
  exists r,
    draw_item_card measure x y item card_width min_height false = PyOk r /\
    desc_texts (card_ops r) = firstn 6 (card_wrapped r) /\
    (List.length (desc_texts (card_ops r)) <= 6)%nat /\
    card_h r = spec_card_height item false (List.length (desc_texts (card_ops r))) min_height.
Proof.
  intros measure x y item card_width min_height Hw.
  assert (Hq : 0 < Z.quot card_width 22) by (apply Z.quot_str_pos; lia).
  destruct (wrap_ok (description item) _ Hq) as [w Hwr].
  destruct (draw_item_card measure x y item card_width min_height false) as [r|e] eqn:E.
  - exists r. split; [reflexivity|].
    destruct (card_height_matches_drawn_card _ _ _ _ _ _ _ _ E) as (Hwr' & Hh & _).
    rewrite Hwr in Hwr'. injection Hwr' as Hwr'.
    assert (Hd : desc_texts (card_ops r) = firstn 6 (card_wrapped r)).
    { unfold draw_item_card in E. rewrite Hwr in E.
      destruct (cve_id item); cbv beta iota zeta delta [py_bind] in E;
        injection E as <-; cbn [card_ops card_wrapped];
        rewrite ?desc_texts_app; cbn [desc_texts app];
        rewrite ?desc_texts_app, desc_texts_desc_ops;
        destruct (tags item); cbn [nonempty];
        rewrite ?desc_texts_place_tags; simpl; rewrite ?app_nil_r; reflexivity. }
    split; [exact Hd|]. rewrite Hd.
    split; [apply firstn_le_length|].
    assert (Hm : Nat.min (List.length (firstn 6 (card_wrapped r))) 6
                 = Nat.min (List.length (card_wrapped r)) 6) by (rewrite length_firstn; lia).
    rewrite Hh. unfold spec_card_height. cbn [max_desc_lines profile_of].
    rewrite Hm. reflexivity.
  - unfold draw_item_card in E. rewrite Hwr in E. destruct (cve_id item); discriminate.
Qed.

Lemma normal_mode_description_capped_witness :
  (22 <= 2240) /\
  exists r,
    draw_item_card mono_measure 80 300 sample_item 2240 1140 false = PyOk r /\
    desc_texts (card_ops r) = firstn 6 (card_wrapped r) /\
    (List.length (desc_texts (card_ops r)) <= 6)%nat /\
    card_h r = spec_card_height sample_item false (List.length (desc_texts (card_ops r))) 1140.
Proof.
  split; [lia|]. apply (normal_mode_description_capped mono_measure 80 300 sample_item 2240 1140).
  lia.
Defined.

(** 200 characters of text without spaces wrap to two lines at the default
    card width, and 1000 of them to ten, of which six are drawn. *)
Example long_description_six_lines :
  match draw_item_card mono_measure 80 300
          {| category := PATCH; severity := HIGH; product := "OpenSSL";
             description := string_of_list_ascii (repeat "a"%char 1000);
             tags := []; cve_id := None; version := None; image_path := None |}
          2240 0 false with
  | PyOk r => (List.length (card_wrapped r), List.length (desc_texts (card_ops r)), card_h r)
  | PyRaise _ => (0%nat, 0%nat, 0)
  end = (10%nat, 6%nat, 40 + 80 + 70 + 100 + 6 * 58 + 50).
Proof. vm_compute. reflexivity. Qed.

(** ** Line breaks in the description *)

Example two_paragraphs_spec_layout :
  spec_layout two_paragraphs 101 = PyOk ["First paragraph."; ""; "Second paragraph."].
Proof. vm_compute. reflexivity. Qed.

(** C4, counterexample: at the default card width (2240, wrap width 101)
    the two paragraphs separated by a blank line are drawn as one line
    with two spaces in the middle, not as paragraph, empty line, paragraph. *)
Lemma two_paragraphs_drawn_as_one_line :
  (match draw_item_card mono_measure 80 300
          {| category := ADVISORY; severity := LOW; product := "Product";
             description := two_paragraphs; tags := []; cve_id := None;
             version := None; image_path := None |} 2240 0 false with
  | PyOk r => desc_texts (card_ops r)
  | PyRaise _ => []
  end) = ["First paragraph.  Second paragraph."] /\
  spec_layout two_paragraphs (Z.quot 2240 22)
    <> PyOk ["First paragraph.  Second paragraph."].
Proof. split; vm_compute; [reflexivity | discriminate]. Qed.

Lemma expandtabs_no_tabs (l : list ascii) (col : nat) :
  forallb (fun c => negb (Nat.eqb (nat_of_ascii c) 9)) l = true ->
  TextWrap.expandtabs_aux col l = l.
Proof.
  revert col. induction l as [|c l IH]; intros col H; [reflexivity|].
  simpl in H. apply andb_prop in H as [Hc H].
  unfold TextWrap.expandtabs_aux; fold TextWrap.expandtabs_aux. unfold TextWrap.code.
  apply negb_true_iff in Hc. rewrite Hc.
  destruct (orb _ _); rewrite IH by exact H; reflexivity.
Qed.

Lemma list_ascii_smap f s :
  list_ascii_of_string (PyStr.smap f s) = map f (list_ascii_of_string s).
Proof. induction s as [|c s IH]; simpl; [reflexivity|]. now rewrite IH. Qed.

Lemma forallb_map_notab (l : list ascii) :
  forallb (fun c => negb (Nat.eqb (nat_of_ascii c) 9)) l = true ->
  forallb (fun c => negb (Nat.eqb (nat_of_ascii c) 9))
    (map (fun c => if Nat.eqb (nat_of_ascii c) 10 then " "%char else c) l) = true.
Proof.
  induction l as [|c l IH]; simpl; [reflexivity|]. intros H.
  apply andb_prop in H as [Hc H]. rewrite IH by exact H.
  destruct (Nat.eqb (nat_of_ascii c) 10); [reflexivity|]. rewrite Hc. reflexivity.
Qed.

(** C4, amended: the layout step does not split on line breaks. For a
    description without tabs, wrapping it gives exactly what wrapping it
    with every line break replaced by a space gives: the whole description
    is one paragraph wrapped greedily by character count. *)
Theorem description_newlines_are_spaces :
  forall text width, no_tabs text = true ->
  TextWrap.wrap text width = TextWrap.wrap (nl_to_space text) width.
Proof.
  intros text width H. unfold TextWrap.wrap, TextWrap.split_chunks.
  assert (E : TextWrap.munge_whitespace (list_ascii_of_string text)
              = TextWrap.munge_whitespace (list_ascii_of_string (nl_to_space text))).
  { unfold TextWrap.munge_whitespace, nl_to_space. rewrite list_ascii_smap.
    unfold no_tabs in H.
    rewrite (expandtabs_no_tabs _ 0 H), (expandtabs_no_tabs _ 0 (forallb_map_notab _ H)).
    rewrite map_map. apply map_ext. intros c.
    destruct (Nat.eqb (nat_of_ascii c) 10) eqn:Hn; [|reflexivity].
    apply Nat.eqb_eq in Hn. unfold TextWrap.tw_space, TextWrap.code. rewrite Hn. reflexivity. }
  rewrite E. reflexivity.
Qed.

Lemma description_newlines_are_spaces_witness :
  no_tabs two_paragraphs = true /\
  TextWrap.wrap two_paragraphs 101 = TextWrap.wrap (nl_to_space two_paragraphs) 101.
Proof.
  split; [vm_compute; reflexivity|].
  apply description_newlines_are_spaces. vm_compute. reflexivity.
Defined.

(** ** Unknown category and severity *)

(** C3, counterexample: the record with category "foo" and severity "bar"
    fails validation with an indexed message, so loading a file that holds
    it reports an error and the record is not rendered. *)
Lemma unknown_category_fails_validation :
  validate_bulletin_data foo_bar_record 1
    = PyOk (false, "Bollettino #1: Category 'foo' non valida. Usare: aggiornamenti, vulnerabilita, patch, advisory, incident") /\
  validate_bulletin_data (record_with "patch" "bar" []) 1
    = PyOk (false, "Bollettino #1: Severity 'bar' non valida. Usare: critical, high, medium, low, info") /\
  load_bulletins_from_file "bulletins.json" (Parsed (JArr [foo_bar_record]))
    = PyOk (inr "Bollettino #1: Category 'foo' non valida. Usare: aggiornamenti, vulnerabilita, patch, advisory, incident").
Proof. vm_compute. repeat split. Qed.

Lemma category_of_unknown_key k :
  PyStr.mem k valid_categories = false -> category_of_key k = ADVISORY.
Proof.
  unfold PyStr.mem, category_of_key, valid_categories, category_members.
  cbn [map existsb find category_key]. intros H.
  repeat (let H1 := fresh "H" in
          apply orb_false_elim in H as [H1 H]; rewrite String.eqb_sym in H1; rewrite H1).
  reflexivity.
Qed.

Lemma severity_of_unknown_key k :
  PyStr.mem k valid_severities = false -> severity_of_key k = MEDIUM.
Proof.
  unfold PyStr.mem, severity_of_key, valid_severities, severity_members.
  cbn [map existsb find severity_key]. intros H.
  repeat (let H1 := fresh "H" in
          apply orb_false_elim in H as [H1 H]; rewrite String.eqb_sym in H1; rewrite H1).
  reflexivity.
Qed.

Lemma prefix_app (a b : string) : String.prefix a (a ++ b) = true.
Proof.
  induction a as [|c a IH]; [destruct b; reflexivity|].
  cbn [String.prefix append]. destruct (ascii_dec c c) as [_|n]; [exact IH|congruence].
Qed.

Lemma check_required_some_prefix data index fields m :
  check_required data index fields = PyOk (Some m) -> String.prefix (msg_prefix index) m = true.
Proof.
  induction fields as [|f fields IH]; cbn [check_required]; [discriminate|].
  destruct (py_in f data) as [[]|]; cbn [py_bind negb]; [|intros H; apply PyOk_inj in H;
    injection H as <-; apply prefix_app|discriminate].
  destruct (py_getitem data f) as [v|]; cbn [py_bind]; [|discriminate].
  destruct (truthy v); cbn [negb]; [exact IH|].
  intros H; apply PyOk_inj in H; injection H as <-. apply prefix_app.
Qed.

Lemma check_required_present o index fields :
  check_required (JObj o) index fields = PyOk None ->
  forall f, In f fields -> exists v, dict_get o f = Some v.
Proof.
  induction fields as [|a fields IH]; intros H f Hf; [destruct Hf|].
  cbn [check_required py_in] in H.
  destruct (dict_get o a) as [v|] eqn:E; cbn [py_bind negb] in H; [|discriminate].
  destruct Hf as [<-|Hf]; [eauto|].
  unfold py_getitem in H. rewrite E in H. cbn [py_bind] in H.
  destruct (truthy v); cbn [negb] in H; [exact (IH H f Hf)|discriminate].
Qed.

(** Every failure message of [validate_bulletin_data] starts with the
    record's "Bollettino #<index>: ". *)
Lemma validate_false_prefix b index m :
  validate_bulletin_data b index = PyOk (false, m) -> String.prefix (msg_prefix index) m = true.
Proof.
  unfold validate_bulletin_data.
  destruct (check_required b index required_fields) as [[m'|]|] eqn:Hr; cbn [py_bind];
    [intros H; apply PyOk_inj in H; injection H as <-; exact (check_required_some_prefix _ _ _ _ Hr)
    | | discriminate].
  unfold cve_msg. cbv beta iota zeta delta [py_bind].
  repeat match goal with
         | |- context [match ?x with _ => _ end] => destruct x; cbv beta iota
         end.
  all: intros H; try discriminate; apply PyOk_inj in H; try discriminate; injection H as <-; apply prefix_app.
Qed.

Lemma validate_all_app pre rest i :
  validate_all pre i = PyOk None ->
  validate_all (app pre rest) i = validate_all rest (i + List.length pre).
Proof.
  revert i. induction pre as [|b pre IH]; intros i H; cbn [app validate_all] in *.
  - rewrite Nat.add_0_r. reflexivity.
  - destruct (validate_bulletin_data b i) as [[[] m]|e]; cbn [py_bind fst] in *; try discriminate.
    rewrite (IH _ H). cbn [List.length]. f_equal. lia.
Qed.

Lemma load_record_list path c l :
  record_list_file c l ->
  load_bulletins_from_file path c =
  (err <- validate_all l 1 ;;
   match err with Some e => PyOk (inr e) | None => PyOk (inl l) end).
Proof.
  intros [-> | [(d & -> & Hb) | (d & -> & Hb & Hi)]];
    unfold load_bulletins_from_file; cbn [load_json_file py_bind];
    rewrite ?Hb, ?Hi; reflexivity.
Qed.

Lemma load_records_invalid path c l e :
  record_list_file c l -> validate_all l 1 = PyOk (Some e) ->
  load_bulletins_from_file path c = PyOk (inr e).
Proof. intros Hc H. rewrite (load_record_list path c l Hc), H. reflexivity. Qed.

Lemma load_records_valid path c l :
  record_list_file c l -> validate_all l 1 = PyOk None ->
  load_bulletins_from_file path c = PyOk (inl l).
Proof. intros Hc H. rewrite (load_record_list path c l Hc), H. reflexivity. Qed.

Lemma batch_files_load_error gen input_dir output_dir name c files st e :
  load_bulletins_from_file (path_join input_dir name) c = PyOk (inr e) ->
  batch_files gen input_dir output_dir ((name, c) :: files) st =
  batch_files gen input_dir output_dir files
    {| successes := successes st; failures := S (failures st);
       errors := app (errors st) [cross_mark ++ " " ++ name ++ ": " ++ e];
       written := written st |}.
Proof. intros H. simpl. rewrite H. reflexivity. Qed.

Lemma main_single_load_error gen mk args fs listing now inp out e :
  config_error args fs now = false -> opt_truthy (arg_batch args) = None ->
  input_file_of args fs = Some inp -> opt_truthy (arg_output args) = Some out ->
  load_bulletins_from_file inp (fs inp) = PyOk (inr e) ->
  main gen mk args fs listing now = (1, []).
Proof.
  intros H1 H2 H3 H4 H5. unfold main. rewrite H1, H2, H3, H4. unfold run_single. rewrite H5.
  reflexivity.
Qed.

(** C3, amended: validation rejects a category outside the known set (and,
    with a known category, a severity outside it) with a message naming the
    record index and the value. Both paths run it on every record of a file
    (a list, or a dict's "bulletins" or "items") before rendering any: when
    the records before it are valid, loading reports that message, the
    single-file mode exits with 1 and writes nothing, and batch mode counts
    the file as a failure with the error "<cross mark> <file name>:
    <message>" and writes nothing for it. Only the item construction of
    [generate_from_dict], which does not validate, maps the unknown category
    to ADVISORY and the unknown severity to MEDIUM without raising. *)
Theorem unknown_category_severity_handling :
  forall o index c s,
  check_required (JObj o) index required_fields = PyOk None ->
  dict_get o "category" = Some (JStr c) ->
  dict_get o "severity" = Some (JStr s) ->
  (PyStr.mem (PyStr.lower c) valid_categories = false ->
     validate_bulletin_data (JObj o) index
       = PyOk (false, msg_prefix index ++ "Category '" ++ c ++ "' non valida. Usare: "
                      ++ PyStr.join ", " valid_categories)) /\
  (PyStr.mem (PyStr.lower c) valid_categories = true ->
   PyStr.mem (PyStr.lower s) valid_severities = false ->
     validate_bulletin_data (JObj o) index
       = PyOk (false, msg_prefix index ++ "Severity '" ++ s ++ "' non valida. Usare: "
                      ++ PyStr.join ", " valid_severities)) /\
  ((PyStr.mem (PyStr.lower c) valid_categories = false \/
    PyStr.mem (PyStr.lower s) valid_severities = false) ->
   exists m,
     validate_bulletin_data (JObj o) index = PyOk (false, m) /\
     String.prefix (msg_prefix index) m = true /\
     forall pre post file,
       validate_all pre 1 = PyOk None -> index = S (List.length pre) ->
       record_list_file file (app pre (JObj o :: post)) ->
       (forall path, load_bulletins_from_file path file = PyOk (inr m)) /\
       (forall gen mk args fs listing now inp out,
          config_error args fs now = false -> opt_truthy (arg_batch args) = None ->
          input_file_of args fs = Some inp -> opt_truthy (arg_output args) = Some out ->
          fs inp = file -> main gen mk args fs listing now = (1, [])) /\
       (forall gen input_dir output_dir name files st,
          batch_files gen input_dir output_dir ((name, file) :: files) st =
          batch_files gen input_dir output_dir files
            {| successes := successes st; failures := S (failures st);
               errors := app (errors st) [cross_mark ++ " " ++ name ++ ": " ++ m];
               written := written st |})) /\
  (exists r, bulletin_item_of_dict (JObj o) = PyOk r /\
     (PyStr.mem (PyStr.lower c) valid_categories = false -> item_category r = ADVISORY) /\
     (PyStr.mem (PyStr.lower s) valid_severities = false -> item_severity r = MEDIUM)).
Proof.
  intros o index c s Hreq Hc Hs.
  assert (Vc : PyStr.mem (PyStr.lower c) valid_categories = false ->
     validate_bulletin_data (JObj o) index
       = PyOk (false, msg_prefix index ++ "Category '" ++ c ++ "' non valida. Usare: "
                      ++ PyStr.join ", " valid_categories)).
  { intros Hm. unfold validate_bulletin_data. rewrite Hreq. unfold py_getitem.
    rewrite Hc. cbn [py_bind py_str_method]. rewrite Hm. reflexivity. }
  assert (Vs : PyStr.mem (PyStr.lower c) valid_categories = true ->
     PyStr.mem (PyStr.lower s) valid_severities = false ->
     validate_bulletin_data (JObj o) index
       = PyOk (false, msg_prefix index ++ "Severity '" ++ s ++ "' non valida. Usare: "
                      ++ PyStr.join ", " valid_severities)).
  { intros Hm Hm'. unfold validate_bulletin_data. rewrite Hreq. unfold py_getitem.
    rewrite Hc, Hs. cbn [py_bind py_str_method]. rewrite Hm, Hm'. reflexivity. }
  split; [exact Vc|]. split; [exact Vs|]. split.
  - intros Hu.
    assert (Hv : exists m, validate_bulletin_data (JObj o) index = PyOk (false, m)).
    { destruct (PyStr.mem (PyStr.lower c) valid_categories) eqn:Ec.
      - destruct Hu as [Hu|Hu]; [discriminate|]. eexists. exact (Vs eq_refl Hu).
      - eexists. exact (Vc eq_refl). }
    destruct Hv as [m Hv]. exists m. split; [exact Hv|].
    split; [exact (validate_false_prefix _ _ _ Hv)|].
    intros pre post file Hpre Hi Hf.
    assert (Ha : validate_all (app pre (JObj o :: post)) 1 = PyOk (Some m)).
    { rewrite (validate_all_app _ _ _ Hpre). cbn [validate_all].
      replace (1 + List.length pre)%nat with index by lia. rewrite Hv. reflexivity. }
    assert (Hl : forall path, load_bulletins_from_file path file = PyOk (inr m))
      by (intros path; exact (load_records_invalid path _ _ _ Hf Ha)).
    split; [exact Hl|]. split.
    + intros gen mk args fs listing now inp out H1 H2 H3 H4 H5.
      apply (main_single_load_error gen mk args fs listing now inp out m H1 H2 H3 H4).
      rewrite H5. apply Hl.
    + intros gen input_dir output_dir name files st. apply batch_files_load_error, Hl.
  - destruct (check_required_present o index required_fields Hreq "product")
      as [p Hp]; [cbn; tauto|].
    destruct (check_required_present o index required_fields Hreq "description")
      as [d Hd]; [cbn; tauto|].
    unfold bulletin_item_of_dict, py_getitem. rewrite Hc, Hs, Hp, Hd.
    cbn [py_bind py_str_method]. eexists. split; [reflexivity|]. cbn [item_category item_severity].
    split; [apply category_of_unknown_key | apply severity_of_unknown_key].
Qed.

Lemma unknown_category_severity_handling_witness :
  exists m r,
  validate_bulletin_data foo_bar_record 1 = PyOk (false, m) /\
  load_bulletins_from_file "bulletins.json" (Parsed (JArr [foo_bar_record])) = PyOk (inr m) /\
  bulletin_item_of_dict foo_bar_record = PyOk r /\
  item_category r = ADVISORY /\ item_severity r = MEDIUM.
Proof.
  destruct (unknown_category_severity_handling
              [("category", JStr "foo"); ("severity", JStr "bar"); ("product", JStr "OpenSSL");
               ("description", JStr "A buffer overflow was fixed in the TLS handshake parser.")]
              1 "foo" "bar") as (_ & _ & H3 & H4); [vm_compute; reflexivity .. |].
  destruct (H3 (or_introl eq_refl)) as (m & Hv & _ & Hp).
  destruct (Hp [] [] (Parsed (JArr [foo_bar_record])) eq_refl eq_refl (or_introl eq_refl))
    as (Hl & _ & _).
  destruct H4 as (r & Hr & Hc & Hs).
  exists m, r. split; [exact Hv|]. split; [apply Hl|]. split; [exact Hr|].
  split; [apply Hc | apply Hs]; vm_compute; reflexivity.
Defined.

(** ** The CVE identifier *)

Lemma dict_get_snoc rest k v k' :
  dict_get (app rest [(k, v)]) k' = if String.eqb k k' then Some v else dict_get rest k'.
Proof.
  unfold dict_get. rewrite rev_unit. cbn [find fst]. destruct (String.eqb k k'); reflexivity.
Qed.

Lemma cve_texts_app l1 l2 : cve_texts (app l1 l2) = app (cve_texts l1) (cve_texts l2).
Proof.
  induction l1 as [|[k ? ? ? ?|k ? ? ?] l1 IH]; simpl; [reflexivity| |destruct k]; rewrite ?IH; reflexivity.
Qed.

Lemma cve_texts_desc_ops x y lh lines : cve_texts (desc_ops x y lh lines) = [].
Proof. revert y. induction lines as [|l ls IH]; intros y; simpl; [reflexivity|]. apply IH. Qed.

Lemma cve_texts_place_tags measure compact limit tx ty ts :
  cve_texts (place_tags measure compact limit tx ty ts) = [].
Proof.
  revert tx. induction ts as [|t ts IH]; intros tx; simpl; [reflexivity|].
  destruct (limit <? tx + 200); [reflexivity|]. simpl. apply IH.
Qed.

Lemma card_cve_line measure x y it cw mh compact r c :
  cve_id it = Some c ->
  draw_item_card measure x y it cw mh compact = PyOk r -> cve_texts (card_ops r) = [c].
Proof.
  intros Hc Hd. unfold draw_item_card in Hd. rewrite Hc in Hd.
  destruct (TextWrap.wrap (description it) (Z.quot cw 22)); [|discriminate].
  cbv beta iota zeta delta [py_bind] in Hd. injection Hd as <-. cbn [card_ops cve_texts].
  rewrite ?cve_texts_app, ?cve_texts_desc_ops. cbn [cve_texts app].
  destruct (nonempty (tags it)); rewrite ?cve_texts_place_tags; reflexivity.
Qed.

(** C6, counterexample: "cve-2024-1234" passes validation, as does
    "CVE-2024-1234", but the card draws it as given, in lowercase. *)
Lemma lowercase_cve_rendered_as_given :
  validate_bulletin_data lower_cve_record 1 = PyOk (true, "") /\
  validate_bulletin_data (record_with "patch" "high" [("cve_id", JStr "CVE-2024-1234")]) 1
    = PyOk (true, "") /\
  (match item_of_dict lower_cve_record with
   | Some it =>
       match draw_item_card mono_measure 80 300 it 2240 1140 false with
       | PyOk r => cve_texts (card_ops r)
       | PyRaise _ => []
       end
   | None => []
   end) = ["cve-2024-1234"].
Proof. vm_compute. repeat split. Qed.

(** C6, amended: for a record whose other fields pass validation and whose
    [cve_id] is a non-empty string [s], validation fails with the indexed
    CVE message exactly when [s] uppercased does not start with "CVE-";
    the card's CVE line is [s] exactly as given. *)
Theorem cve_prefix_validation_and_rendering :
  forall rest index s,
  validate_bulletin_data (JObj rest) index = PyOk (true, "") ->
  s <> "" ->
  validate_bulletin_data (JObj (app rest [("cve_id", JStr s)])) index
    = PyOk (if String.prefix "CVE-" (PyStr.upper s) then (true, "") else (false, cve_msg index)) /\
  (forall it, item_of_dict (JObj (app rest [("cve_id", JStr s)])) = Some it -> cve_id it = Some s) /\
  (forall measure x y it cw mh compact r,
     cve_id it = Some s ->
     draw_item_card measure x y it cw mh compact = PyOk r -> cve_texts (card_ops r) = [s]).
Proof.
  intros rest index s H Hs.
  assert (Hs' : String.eqb s "" = false) by (apply String.eqb_neq; exact Hs).
  split; [|split].
  - unfold validate_bulletin_data, check_required, required_fields, py_in, py_getitem in *.
    rewrite !dict_get_snoc. cbn [String.eqb Ascii.eqb Bool.eqb].
    cbv beta iota zeta delta [py_bind] in *.
    repeat (match type of H with
            | context [match ?x with _ => _ end] => destruct x eqn:?
            end; cbv beta iota zeta delta [py_bind] in H |- *; try discriminate).
    all: cbn [truthy py_str_method]; rewrite ?Hs'; cbn [negb];
         destruct (String.prefix "CVE-" (PyStr.upper s)); reflexivity.
  - intros it Hi. unfold item_of_dict in Hi.
    destruct (bulletin_item_of_dict _) as [r|] eqn:Hb; [|discriminate].
    assert (Hcv : item_cve_id r = JStr s).
    { unfold bulletin_item_of_dict, py_getitem in Hb. cbv beta iota zeta delta [py_bind] in Hb.
      repeat (match type of Hb with
              | context [match ?x with _ => _ end] => destruct x
              end; cbv beta iota in Hb; try discriminate).
      apply PyOk_inj in Hb. subst r. cbn [item_cve_id]. unfold py_get.
      rewrite dict_get_snoc. reflexivity. }
    unfold typed_item in Hi. rewrite Hcv in Hi. cbn [opt_str] in Hi. rewrite Hs' in Hi.
    repeat (match type of Hi with
            | context [match ?x with _ => _ end] => destruct x
            end; try discriminate).
    injection Hi as <-. reflexivity.
  - intros. eapply card_cve_line; eauto.
Qed.

Lemma cve_prefix_validation_and_rendering_witness :
  validate_bulletin_data (record_with "patch" "high" []) 1 = PyOk (true, "") /\
  validate_bulletin_data lower_cve_record 1 = PyOk (true, "") /\
  validate_bulletin_data (record_with "patch" "high" [("cve_id", JStr "2024-1234")]) 1
    = PyOk (false, cve_msg 1).
Proof.
  split; [vm_compute; reflexivity|].
  destruct (cve_prefix_validation_and_rendering
              [("category", JStr "patch"); ("severity", JStr "high"); ("product", JStr "OpenSSL");
               ("description", JStr "A buffer overflow was fixed in the TLS handshake parser.")]
              1 "cve-2024-1234") as (H1 & _ & _); [vm_compute; reflexivity | discriminate |].
  destruct (cve_prefix_validation_and_rendering
              [("category", JStr "patch"); ("severity", JStr "high"); ("product", JStr "OpenSSL");
               ("description", JStr "A buffer overflow was fixed in the TLS handshake parser.")]
              1 "2024-1234") as (H2 & _ & _); [vm_compute; reflexivity | discriminate |].
  split; [etransitivity; [exact H1|]; vm_compute; reflexivity|].
  etransitivity; [exact H2|]; vm_compute; reflexivity.
Defined.

(** ** Logo background replacement *)

Example default_bg_hex : hex_to_rgb "#0F172A" = PyOk default_bg.
Proof. reflexivity. Qed.

Lemma pixel_at_map f img i j p :
  pixel_at img i j = Some p -> pixel_at (map_pixels f img) i j = Some (f p).
Proof.
  unfold pixel_at, map_pixels. rewrite nth_error_map.
  destruct (nth_error img i) as [row|]; [|discriminate]. simpl.
  rewrite nth_error_map. intros ->. reflexivity.
Qed.

Lemma hash_policy_not_named (hex : string) :
  String.prefix "#" hex = true ->
  PyStr.mem (PyStr.lower hex) ["black"; "dark"; "nero"; "scuro"] = false /\
  PyStr.mem (PyStr.lower hex) ["white"; "light"; "bianco"; "chiaro"] = false /\
  String.prefix "#" (PyStr.lower hex) = true /\ String.eqb hex "" = false.
Proof.
  destruct hex as [|c rest]; [discriminate|]. intros H.
  destruct (ascii_dec "#"%char c) as [<-|Hne].
  - cbn [PyStr.lower PyStr.smap PyStr.mem existsb].
    change (PyStr.lower_char "#") with "#"%char. simpl.
    destruct (PyStr.smap PyStr.lower_char rest); repeat split.
  - exfalso. unfold String.prefix in H.
    destruct (ascii_dec "#"%char c); [contradiction | discriminate].
Qed.

(** C7, counterexample: with the policy string "auto" no rule applies and
    a near-black pixel is left unchanged; the both-rules mode is the one
    of an unset policy. *)
Lemma auto_policy_replaces_nothing :
  replace_logo_bg default_bg (Some "auto") [[mk_pixel 10 10 10 255]]
    = PyOk [[mk_pixel 10 10 10 255]] /\
  replace_logo_bg default_bg None [[mk_pixel 10 10 10 255]]
    = PyOk [[mk_pixel 15 23 42 255]].
Proof. split; reflexivity. Qed.

Lemma mem_In (x : string) (l : list string) : PyStr.mem x l = true -> In x l.
Proof.
  unfold PyStr.mem. intros H. apply existsb_exists in H. destruct H as (y & Hy & E).
  apply String.eqb_eq in E. subst. exact Hy.
Qed.

Lemma lower_empty (c : string) : PyStr.lower c = "" -> c = "".
Proof. destruct c; [reflexivity|discriminate]. Qed.

(** C7, amended: with a policy whose lower-case form is "black", "dark",
    "nero" or "scuro", a pixel is replaced by the background colour,
    keeping its alpha, exactly when its three channels are below 30; with
    "white", "light", "bianco" or "chiaro" (any case), exactly when they
    are all above 225; with a policy "#..." whose hex parses to [t],
    exactly when each channel is within 30 of [t], and when the hex does
    not parse the error propagates (the logo is then not drawn); with the
    policy unset or empty both the dark and the light rules apply; any
    other policy, "auto" among them, leaves the logo unchanged. Other
    pixels are unchanged. *)
Theorem logo_bg_replacement_rules :
  forall bg img i j p,
  pixel_at img i j = Some p ->
  (forall c, PyStr.mem (PyStr.lower c) ["black"; "dark"; "nero"; "scuro"] = true ->
     exists out, replace_logo_bg bg (Some c) img = PyOk out /\
     pixel_at out i j = Some (if (pr p <? 30) && (pg p <? 30) && (pb p <? 30)
                              then mk_pixel (red bg) (green bg) (blue bg) (pa p) else p)) /\
  (forall c, PyStr.mem (PyStr.lower c) ["white"; "light"; "bianco"; "chiaro"] = true ->
     exists out, replace_logo_bg bg (Some c) img = PyOk out /\
     pixel_at out i j = Some (if (225 <? pr p) && (225 <? pg p) && (225 <? pb p)
                              then mk_pixel (red bg) (green bg) (blue bg) (pa p) else p)) /\
  (forall hex t, String.prefix "#" hex = true -> hex_to_rgb hex = PyOk t ->
     exists out, replace_logo_bg bg (Some hex) img = PyOk out /\
     pixel_at out i j = Some (if (Z.abs (pr p - red t) <? 30) && (Z.abs (pg p - green t) <? 30)
                                 && (Z.abs (pb p - blue t) <? 30)
                              then mk_pixel (red bg) (green bg) (blue bg) (pa p) else p)) /\
  (forall hex e, String.prefix "#" hex = true -> hex_to_rgb hex = PyRaise e ->
     replace_logo_bg bg (Some hex) img = PyRaise e) /\
  (exists out, replace_logo_bg bg None img = PyOk out /\
     pixel_at out i j = Some (if ((pr p <? 30) && (pg p <? 30) && (pb p <? 30))
                                 || ((225 <? pr p) && (225 <? pg p) && (225 <? pb p))
                              then mk_pixel (red bg) (green bg) (blue bg) (pa p) else p)) /\
  replace_logo_bg bg (Some "") img = replace_logo_bg bg None img /\
  (forall c, c <> "" ->
     PyStr.mem (PyStr.lower c) ["black"; "dark"; "nero"; "scuro"] = false ->
     PyStr.mem (PyStr.lower c) ["white"; "light"; "bianco"; "chiaro"] = false ->
     String.prefix "#" (PyStr.lower c) = false ->
     replace_logo_bg bg (Some c) img = PyOk img) /\
  replace_logo_bg bg (Some "auto") img = PyOk img.
Proof.
  intros bg img i j p Hp. split; [|split; [|split; [|split; [|split; [|split; [|split]]]]]].
  - intros c Hm. unfold replace_logo_bg.
    assert (Hc : String.eqb c "" = false).
    { destruct (String.eqb_spec c "") as [->|_]; [discriminate|reflexivity]. }
    rewrite Hc, Hm. eexists. split; [reflexivity|].
    rewrite (pixel_at_map _ _ _ _ _ Hp). reflexivity.
  - intros c Hm. unfold replace_logo_bg.
    assert (Hc : String.eqb c "" = false).
    { destruct (String.eqb_spec c "") as [->|_]; [discriminate|reflexivity]. }
    assert (Hd : PyStr.mem (PyStr.lower c) ["black"; "dark"; "nero"; "scuro"] = false).
    { apply mem_In in Hm. cbn [In] in Hm.
      destruct Hm as [E|[E|[E|[E|[]]]]]; rewrite <- E; reflexivity. }
    rewrite Hc, Hd, Hm. eexists. split; [reflexivity|].
    rewrite (pixel_at_map _ _ _ _ _ Hp). reflexivity.
  - intros hex t Hh Ht. destruct (hash_policy_not_named hex Hh) as (H1 & H2 & H3 & H4).
    unfold replace_logo_bg. rewrite H4, H1, H2, H3, Ht. cbn [py_bind].
    eexists. split; [reflexivity|]. rewrite (pixel_at_map _ _ _ _ _ Hp). reflexivity.
  - intros hex e Hh He. destruct (hash_policy_not_named hex Hh) as (H1 & H2 & H3 & H4).
    unfold replace_logo_bg. rewrite H4, H1, H2, H3, He. reflexivity.
  - eexists. split; [reflexivity|]. rewrite (pixel_at_map _ _ _ _ _ Hp).
    unfold is_dark, is_light.
    destruct ((pr p <? 30) && (pg p <? 30) && (pb p <? 30)),
             ((225 <? pr p) && (225 <? pg p) && (225 <? pb p)); reflexivity.
  - reflexivity.
  - intros c Hne H1 H2 H3. unfold replace_logo_bg.
    destruct (String.eqb_spec c "") as [E|_]; [contradiction|].
    rewrite H1, H2, H3. reflexivity.
  - reflexivity.
Qed.

Lemma logo_bg_replacement_rules_witness :
  pixel_at [[mk_pixel 10 10 10 255; mk_pixel 250 250 250 128]] 0 1
    = Some (mk_pixel 250 250 250 128) /\
  String.prefix "#" "#FFFFFF" = true /\ hex_to_rgb "#FFFFFF" = PyOk (mk_rgb 255 255 255) /\
  (exists out,
    replace_logo_bg default_bg (Some "#FFFFFF") [[mk_pixel 10 10 10 255; mk_pixel 250 250 250 128]]
      = PyOk out /\ pixel_at out 0 1 = Some (mk_pixel 15 23 42 128)) /\
  (exists out,
    replace_logo_bg default_bg (Some "Nero") [[mk_pixel 10 10 10 255; mk_pixel 250 250 250 128]]
      = PyOk out /\ pixel_at out 0 1 = Some (mk_pixel 250 250 250 128)) /\
  (exists out,
    replace_logo_bg default_bg (Some "WHITE") [[mk_pixel 10 10 10 255; mk_pixel 250 250 250 128]]
      = PyOk out /\ pixel_at out 0 1 = Some (mk_pixel 15 23 42 128)) /\
  replace_logo_bg default_bg (Some "#zz") [[mk_pixel 10 10 10 255]]
    = PyRaise ("ValueError: invalid literal for int() with base 16: " ++ "zz") /\
  replace_logo_bg default_bg (Some "red") [[mk_pixel 10 10 10 255]]
    = PyOk [[mk_pixel 10 10 10 255]].
Proof.
  destruct (logo_bg_replacement_rules default_bg [[mk_pixel 10 10 10 255; mk_pixel 250 250 250 128]]
              0 1 (mk_pixel 250 250 250 128) eq_refl)
    as (Hdark & Hlight & Hhex & _).
  destruct (logo_bg_replacement_rules default_bg [[mk_pixel 10 10 10 255]]
              0 0 (mk_pixel 10 10 10 255) eq_refl)
    as (_ & _ & _ & Hbad & _ & _ & Hother & _).
  split; [reflexivity|]. split; [reflexivity|]. split; [reflexivity|].
  split.
  { destruct (Hhex "#FFFFFF" (mk_rgb 255 255 255) eq_refl eq_refl) as (out & Ho & Hpx).
    exists out. split; [exact Ho|]. rewrite Hpx. reflexivity. }
  split.
  { destruct (Hdark "Nero" ltac:(vm_compute; reflexivity)) as (out & Ho & Hpx).
    exists out. split; [exact Ho|]. rewrite Hpx. reflexivity. }
  split.
  { destruct (Hlight "WHITE" ltac:(vm_compute; reflexivity)) as (out & Ho & Hpx).
    exists out. split; [exact Ho|]. rewrite Hpx. reflexivity. }
  split.
  { apply Hbad; [reflexivity|vm_compute; reflexivity]. }
  apply Hother; [discriminate|vm_compute; reflexivity|vm_compute; reflexivity|vm_compute; reflexivity].
Defined.

Example dark_policy_examples :
  replace_logo_bg default_bg (Some "dark") [[mk_pixel 10 10 10 200; mk_pixel 50 50 50 200]]
    = PyOk [[mk_pixel 15 23 42 200; mk_pixel 50 50 50 200]].
Proof. reflexivity. Qed.

(** ** Batch mode *)

(** C8, counterexample: a file holding a valid record followed by an
    invalid one produces no PNG at all, even when drawing succeeds; the
    valid sibling record is not rendered and the whole file counts as one
    failure. *)
Lemma invalid_record_drops_valid_sibling :
  process_batch generate_ok makedirs_ok "in" "out" mixed_files =
  PyOk {| successes := 0; failures := 1;
          errors := [cross_mark ++ " mixed.json: Bollettino #2: Severity 'bar' non valida. Usare: critical, high, medium, low, info"];
          written := [] |}.
Proof. vm_compute. reflexivity. Qed.

Lemma validate_all_first_failure bs i e :
  validate_all bs i = PyOk (Some e) ->
  exists k b, nth_error bs k = Some b /\ validate_all (firstn k bs) i = PyOk None /\
    validate_bulletin_data b (i + k) = PyOk (false, e).
Proof.
  revert i. induction bs as [|b bs IH]; intros i H; cbn [validate_all] in H; [discriminate|].
  destruct (validate_bulletin_data b i) as [[[] m]|x] eqn:Hb; cbn [py_bind fst snd] in H;
    [|apply PyOk_inj in H; injection H as <-|discriminate].
  - destruct (IH (S i) H) as (k & b' & Hk & Hpre & Hv).
    exists (S k), b'. split; [exact Hk|]. split.
    + cbn [firstn validate_all]. rewrite Hb. exact Hpre.
    + rewrite <- Hv. f_equal. lia.
  - exists 0%nat, b. split; [reflexivity|]. split; [reflexivity|]. rewrite Nat.add_0_r. exact Hb.
Qed.

(** C8, amended: validation runs over all records of a file before any is
    rendered, and a record that fails it makes its whole file fail: loading
    reports the message of the first failing record, which starts with
    "Bollettino #<its index>: " and names the field, and batch mode records
    the file as one failure with the error "<cross mark> <file name>:
    <message>", renders none of its records and goes on with the following
    files. On a directory with one valid single-record file and one invalid
    file (in either order), when [os.makedirs] and drawing the valid record
    succeed, the run writes exactly the PNG of the valid file, records one
    error naming the invalid file, and [main] exits with code 1; a batch run
    exits with 0 exactly when no failure was counted (and with 1, writing
    nothing, when [process_batch] raises). *)
Theorem batch_invalid_file_handling :
  (forall gen input_dir output_dir name c files st e,
     load_bulletins_from_file (path_join input_dir name) c = PyOk (inr e) ->
     batch_files gen input_dir output_dir ((name, c) :: files) st =
     batch_files gen input_dir output_dir files
       {| successes := successes st; failures := S (failures st);
          errors := app (errors st) [cross_mark ++ " " ++ name ++ ": " ++ e];
          written := written st |}) /\
  (forall path c bs e,
     record_list_file c bs -> validate_all bs 1 = PyOk (Some e) ->
     load_bulletins_from_file path c = PyOk (inr e) /\
     exists k b, nth_error bs k = Some b /\ validate_all (firstn k bs) 1 = PyOk None /\
       validate_bulletin_data b (S k) = PyOk (false, e) /\
       String.prefix (msg_prefix (S k)) e = true) /\
  (forall gen mk input_dir output_dir n1 c1 b n2 c2 e files,
     mk output_dir = PyOk tt ->
     load_bulletins_from_file (path_join input_dir n1) c1 = PyOk (inl [b]) ->
     generate_from_dict gen b (path_join output_dir (base_name n1 ++ ".png")) = PyOk tt ->
     load_bulletins_from_file (path_join input_dir n2) c2 = PyOk (inr e) ->
     files = [(n1, c1); (n2, c2)] \/ files = [(n2, c2); (n1, c1)] ->
     exists st, process_batch gen mk input_dir output_dir files = PyOk st /\
       written st = [path_join output_dir (base_name n1 ++ ".png")] /\
       successes st = 1%nat /\ failures st = 1%nat /\
       errors st = [cross_mark ++ " " ++ n2 ++ ": " ++ e] /\
       (forall args fs now,
          config_error args fs now = false ->
          opt_truthy (arg_batch args) = Some input_dir -> arg_output_dir args = output_dir ->
          main gen mk args fs files now = (1, written st))) /\
  (forall gen mk args fs listing now dir,
     config_error args fs now = false -> opt_truthy (arg_batch args) = Some dir ->
     (forall st, process_batch gen mk dir (arg_output_dir args) listing = PyOk st ->
        main gen mk args fs listing now = (if Nat.eqb (failures st) 0 then 0 else 1, written st)) /\
     (forall err, process_batch gen mk dir (arg_output_dir args) listing = PyRaise err ->
        main gen mk args fs listing now = (1, []))).
Proof.
  split; [|split; [|split]].
  - intros gen input_dir output_dir name c files st e H. apply batch_files_load_error, H.
  - intros path c bs e Hc H. split; [exact (load_records_invalid path c bs e Hc H)|].
    destruct (validate_all_first_failure bs 1 e H) as (k & b & Hk & Hpre & Hv).
    exists k, b. split; [exact Hk|]. split; [exact Hpre|]. split; [exact Hv|].
    exact (validate_false_prefix _ _ _ Hv).
  - intros gen mk input_dir output_dir n1 c1 b n2 c2 e files Hmk H1 Hg H2 Hf.
    assert (Hr : forall st,
      render_all gen output_dir n1 (Nat.eqb (List.length [b]) 1) [b] 0 st =
      {| successes := S (successes st); failures := failures st; errors := errors st;
         written := app (written st) [path_join output_dir (base_name n1 ++ ".png")] |}).
    { intros st. cbn [render_all List.length Nat.eqb]. rewrite Hg. reflexivity. }
    destruct Hf as [-> | ->]; eexists; unfold process_batch; rewrite Hmk;
      cbn [py_bind batch_files]; rewrite H1, H2; cbn [py_bind]; rewrite Hr;
      (split; [reflexivity|]); cbn; repeat split;
      intros args fs now Hc Hb Ho; unfold main; rewrite Hc, Hb, Ho; unfold process_batch;
      rewrite Hmk; cbn [py_bind batch_files]; rewrite H1, H2; cbn [py_bind]; rewrite Hr;
      reflexivity.
  - intros gen mk args fs listing now dir Hc Hb. split.
    + intros st H. unfold main. rewrite Hc, Hb, H. reflexivity.
    + intros err H. unfold main. rewrite Hc, Hb, H. reflexivity.
Qed.

Lemma batch_invalid_file_handling_witness :
  load_bulletins_from_file "in/mixed.json" (Parsed (JArr [good_record; bad_record]))
    = PyOk (inr "Bollettino #2: Severity 'bar' non valida. Usare: critical, high, medium, low, info") /\
  batch_files generate_ok "in" "out" [("bad.json", Parsed (JArr [bad_record]))]
    {| successes := 0; failures := 0; errors := []; written := [] |}
  = PyOk {| successes := 0; failures := 1;
            errors := [cross_mark ++ " bad.json: Bollettino #1: Severity 'bar' non valida. Usare: critical, high, medium, low, info"];
            written := [] |} /\
  (exists st, process_batch generate_ok makedirs_ok "in" "out" good_bad_files = PyOk st /\
     written st = ["out/good.png"] /\ failures st = 1%nat /\
     main generate_ok makedirs_ok
       {| arg_input := None; arg_output := None; arg_config := None;
          arg_batch := Some "in"; arg_output_dir := "out" |}
       (fun _ => Missing) good_bad_files "2026-10-15" = (1, ["out/good.png"])).
Proof.
  destruct batch_invalid_file_handling as (H1 & H2 & H3 & _).
  split.
  - apply (H2 "in/mixed.json" _ [good_record; bad_record]); [left; reflexivity | vm_compute; reflexivity].
  - split.
    + rewrite (H1 generate_ok "in" "out" "bad.json" (Parsed (JArr [bad_record])) []
                 {| successes := 0; failures := 0; errors := []; written := [] |}
                 "Bollettino #1: Severity 'bar' non valida. Usare: critical, high, medium, low, info");
        [reflexivity | vm_compute; reflexivity].
    + destruct (H3 generate_ok makedirs_ok "in" "out" "good.json" (Parsed (JArr [good_record]))
                  good_record "bad.json" (Parsed (JArr [bad_record]))
                  "Bollettino #1: Severity 'bar' non valida. Usare: critical, high, medium, low, info"
                  good_bad_files)
        as (st & Hp & Hw & _ & Hf & _ & Hm);
        [reflexivity | vm_compute; reflexivity | vm_compute; reflexivity
        | vm_compute; reflexivity | left; reflexivity |].
      exists st. split; [exact Hp|]. split; [exact Hw|]. split; [exact Hf|].
      rewrite Hm; [rewrite Hw; reflexivity | vm_compute; reflexivity | reflexivity | reflexivity].
Defined.

(** ** Tag chips *)

Lemma chip_rects_app l1 l2 : chip_rects (app l1 l2) = app (chip_rects l1) (chip_rects l2).
Proof.
  induction l1 as [|[k ? ? ? ?|k ? ? ?] l1 IH]; simpl; [reflexivity| |]; [destruct k|];
    rewrite ?IH; reflexivity.
Qed.

Lemma chip_rects_desc_ops x y lh lines : chip_rects (desc_ops x y lh lines) = [].
Proof. revert y. induction lines as [|l ls IH]; intros y; simpl; [reflexivity|]. apply IH. Qed.

Lemma place_tags_chips measure compact limit tx ty ts :
  let chips := chip_rects (place_tags measure compact limit tx ty ts) in
  let gap := tag_gap (profile_of compact) in
  (exists k, map fst chips = firstn k ts) /\
  (List.length chips <= List.length ts)%nat /\
  (forall t x1 y1 x2 y2, In (t, (x1, y1, x2, y2)) chips -> x1 + 200 <= limit) /\
  chip_chain gap tx chips /\
  ((List.length chips < List.length ts)%nat -> limit < next_chip_x gap tx chips + 200).
Proof.
  revert tx. induction ts as [|t ts IH]; intros tx; cbn zeta.
  - simpl. split; [exists O; reflexivity|]. repeat split; [lia|contradiction|lia].
  - cbn [place_tags]. destruct (Z.ltb_spec limit (tx + 200)) as [Hl|Hl].
    + simpl. split; [exists O; reflexivity|]. repeat split; [lia|contradiction|].
      intros _. exact Hl.
    + unfold draw_tag. cbn [chip_rects map fst snd List.length chip_chain next_chip_x In].
      set (w := measure _ t + tag_padding_x (profile_of compact) * 2).
      destruct (IH (tx + (w + tag_gap (profile_of compact)))) as ([k Hk] & Hlen & Hin & Hch & Hnx).
      split; [|split; [|split; [|split]]].
      * exists (S k). simpl. rewrite Hk. reflexivity.
      * simpl. lia.
      * intros t' x1 y1 x2 y2 [He|He]; [injection He; intros; subst; lia|].
        eapply Hin; eauto.
      * split; [reflexivity|]. replace (tx + w + tag_gap (profile_of compact))
          with (tx + (w + tag_gap (profile_of compact))) by lia. exact Hch.
      * intros Hlt. replace (tx + w + tag_gap (profile_of compact))
          with (tx + (w + tag_gap (profile_of compact))) by lia. apply Hnx. simpl in Hlt. lia.
Qed.

Lemma card_chip_rects measure x y it cw mh compact r :
  draw_item_card measure x y it cw mh compact = PyOk r ->
  exists ty, chip_rects (card_ops r) =
    chip_rects (place_tags measure compact (x + cw - 40) (x + 50) ty
                  (firstn (max_tags (profile_of compact)) (tags it))).
Proof.
  intros Hd. unfold draw_item_card in Hd.
  destruct (TextWrap.wrap (description it) (Z.quot cw 22)); [|discriminate].
  cbv beta iota zeta delta [py_bind] in Hd.
  destruct (cve_id it); injection Hd as <-; cbn [card_ops chip_rects app];
    rewrite chip_rects_app, chip_rects_desc_ops; cbn [app];
    (destruct (tags it) eqn:Ht; cbn [nonempty];
     [exists 0; rewrite firstn_nil; reflexivity | eexists; reflexivity]).
Qed.

(** C9, counterexample: with glyphs 22 pixels wide, a card of width 2240
    at x = 80 (the default 2400-pixel canvas) with one 120-character tag
    draws its chip from x = 130 to x = 2850, past the right margin
    80 + 2240 - 40 = 2280: the overflow check estimates every chip at 200
    pixels. *)
Lemma long_tag_chip_overflows :
  exists r, draw_item_card mono_measure 80 300 long_tag_item 2240 0 false = PyOk r /\
    map (fun c => (fst (fst (fst (snd c))), snd (fst (snd c)))) (chip_rects (card_ops r))
      = [(130, 2850)] /\
    80 + 2240 - 40 < 2850.
Proof. eexists. split; [reflexivity|]. split; [vm_compute; reflexivity|lia]. Qed.

(** C9, amended: the chips a card draws are those of the first k tags of
    its list, for some k, in list order and at most 6 (normal mode) or 4
    (compact mode); they run left to right from [x + 50], each starting at
    the previous chip's right edge plus the tag gap; each chip drawn starts
    at a [tag_x] with [tag_x + 200 <= x + card_width - 40] (a fixed 200-pixel
    estimate of a chip, not its width); and when fewer chips than capped
    tags are drawn, placement stopped because the next [tag_x] failed that
    check. The remaining tags are dropped without error. *)
Theorem tag_chips_placement :
  forall measure x y it cw mh compact r,
  draw_item_card measure x y it cw mh compact = PyOk r ->
  let chips := chip_rects (card_ops r) in
  let gap := tag_gap (profile_of compact) in
  let cap := if compact then 4%nat else 6%nat in
  (exists k, map fst chips = firstn k (tags it)) /\
  (List.length chips <= cap)%nat /\
  (forall t x1 y1 x2 y2, In (t, (x1, y1, x2, y2)) chips -> x1 + 200 <= x + cw - 40) /\
  chip_chain gap (x + 50) chips /\
  ((List.length chips < List.length (firstn cap (tags it)))%nat ->
     x + cw - 40 < next_chip_x gap (x + 50) chips + 200).
Proof.
  intros measure x y it cw mh compact r Hd. cbn zeta.
  destruct (card_chip_rects _ _ _ _ _ _ _ _ Hd) as [ty ->].
  assert (Hcap : max_tags (profile_of compact) = if compact then 4%nat else 6%nat)
    by (destruct compact; reflexivity).
  rewrite Hcap.
  destruct (place_tags_chips measure compact (x + cw - 40) (x + 50) ty
              (firstn (if compact then 4%nat else 6%nat) (tags it)))
    as ([k Hk] & Hlen & Hin & Hch & Hnx).
  split; [|split; [|split; [|split]]]; try assumption.
  - exists (Nat.min k (if compact then 4%nat else 6%nat)). rewrite Hk, firstn_firstn. reflexivity.
  - rewrite length_firstn in Hlen. lia.
Qed.

Lemma tag_chips_placement_witness :
  exists r, draw_item_card mono_measure 80 300 sample_item 2240 0 false = PyOk r /\
    List.length (chip_rects (card_ops r)) = 2%nat /\
    chip_chain 16 130 (chip_rects (card_ops r)).
Proof.
  eexists. split; [reflexivity|].
  destruct (tag_chips_placement mono_measure 80 300 sample_item 2240 0 false _ eq_refl)
    as (_ & _ & _ & Hch & _).
  split; [reflexivity|exact Hch].
Defined.

(** ** Binary64 rounding *)

Lemma P2_pos k : (0 < P2 k)%Q.
Proof. apply Qpower_0_lt. reflexivity. Qed.

Lemma P2_add a b : (P2 (a + b) == P2 a * P2 b)%Q.
Proof. unfold P2. apply Qpower_plus. discriminate. Qed.

Lemma P2_le a b : a <= b -> (P2 a <= P2 b)%Q.
Proof. intros H. apply Qpower_le_compat_l; [exact H|discriminate]. Qed.

Lemma P2_lt a b : a < b -> (P2 a < P2 b)%Q.
Proof. intros H. apply Qpower_lt_compat_l; [exact H|reflexivity]. Qed.

Lemma P2_lt_inv a b : (P2 a < P2 b)%Q -> a < b.
Proof. intros H. apply (Qpower_lt_compat_l_inv (2#1)); [exact H|reflexivity]. Qed.

Lemma P2_Z k : 0 <= k -> (P2 k == inject_Z (2 ^ k))%Q.
Proof. intros H. unfold P2. rewrite (Zpower_Qpower 2 k H). reflexivity. Qed.

Lemma P2_0 : (P2 0 == 1)%Q.
Proof. reflexivity. Qed.

Lemma P2_opp_mul k : (P2 k * P2 (- k) == 1)%Q.
Proof. rewrite <- P2_add. rewrite Z.add_opp_diag_r. reflexivity. Qed.

Lemma Qeq_num_den (x : Q) : (x == inject_Z (Qnum x) / inject_Z (Zpos (Qden x)))%Q.
Proof. destruct x as [n d]. unfold Qeq, Qdiv, Qmult, Qinv, inject_Z. simpl. lia. Qed.

Lemma floor_log2_spec (x : Q) : (0 < x)%Q ->
  (P2 (floor_log2 x) <= x /\ x < P2 (floor_log2 x + 1))%Q.
Proof.
  intros Hx. destruct x as [n d]. unfold Qlt in Hx. simpl in Hx.
  assert (Hn : 0 < n) by lia.
  unfold floor_log2. cbn [Qnum Qden].
  set (a := Z.log2 n). set (b := Z.log2 (Zpos d)).
  destruct (Z.log2_spec n Hn) as [Ha1 Ha2].
  destruct (Z.log2_spec (Zpos d) eq_refl) as [Hb1 Hb2].
  fold a in Ha1, Ha2. fold b in Hb1, Hb2.
  assert (Ha0 : 0 <= a) by apply Z.log2_nonneg.
  assert (Hb0 : 0 <= b) by apply Z.log2_nonneg.
  assert (Hq : ((n # d) == inject_Z n / inject_Z (Zpos d))%Q) by apply (Qeq_num_den (n # d)).
  assert (HdQ : (0 < inject_Z (Zpos d))%Q) by (unfold Qlt; simpl; lia).
  (* lower bound: P2 (a - b - 1) <= x *)
  assert (Hlow : (P2 (a - b - 1) <= n # d)%Q).
  { rewrite Hq. apply Qle_shift_div_l; [exact HdQ|].
    apply Qle_trans with (P2 (a - b - 1) * P2 (b + 1))%Q.
    - apply Qmult_le_l; [apply P2_pos|].
      rewrite P2_Z by lia. rewrite <- Zle_Qle. lia.
    - rewrite <- P2_add. replace (a - b - 1 + (b + 1)) with a by lia.
      rewrite P2_Z by lia. rewrite <- Zle_Qle. lia. }
  assert (Hup : (n # d < P2 (a - b + 1))%Q).
  { rewrite Hq. apply Qlt_shift_div_r; [exact HdQ|].
    apply Qlt_le_trans with (P2 (a - b + 1) * P2 b)%Q.
    - rewrite <- P2_add. replace (a - b + 1 + b) with (a + 1) by lia.
      rewrite P2_Z by lia. rewrite <- Zlt_Qlt. replace (a + 1) with (Z.succ a) by lia. lia.
    - apply Qmult_le_l; [apply P2_pos|].
      rewrite P2_Z by lia. rewrite <- Zle_Qle. lia. }
  destruct (Qle_bool (P2 (a - b)) (n # d)) eqn:E.
  - apply Qle_bool_iff in E. split; assumption.
  - assert (E' : ~ (P2 (a - b) <= n # d)%Q) by (intros H; apply Qle_bool_iff in H; congruence).
    apply Qnot_le_lt in E'. split; [exact Hlow|]. replace (a - b - 1 + 1) with (a - b) by lia. exact E'.
Qed.

Lemma floor_log2_mono (x y : Q) : (0 < x)%Q -> (x <= y)%Q -> floor_log2 x <= floor_log2 y.
Proof.
  intros Hx Hxy.
  destruct (floor_log2_spec x Hx) as [H1 _].
  destruct (floor_log2_spec y (Qlt_le_trans _ _ _ Hx Hxy)) as [_ H2].
  assert (H : (P2 (floor_log2 x) < P2 (floor_log2 y + 1))%Q).
  { apply Qle_lt_trans with x; [exact H1|]. apply Qle_lt_trans with y; assumption. }
  apply P2_lt_inv in H. lia.
Qed.

Lemma Qfloor_Qeq (a b : Q) : (a == b)%Q -> Qfloor a = Qfloor b.
Proof. intros E. apply Z.le_antisymm; apply Qfloor_resp_le; rewrite E; apply Qle_refl. Qed.

Lemma round_half_even_range (m : Q) :
  Qfloor m <= round_half_even m <= Qfloor m + 1.
Proof.
  unfold round_half_even. destruct (Qcompare _ _); try lia. destruct (Z.even _); lia.
Qed.

Lemma round_half_even_Z (z : Z) : round_half_even (inject_Z z) = z.
Proof.
  unfold round_half_even. rewrite Qfloor_Z.
  assert (H : (inject_Z z - inject_Z z < 1 # 2)%Q) by lra.
  rewrite (proj1 (Qlt_alt _ _) H). reflexivity.
Qed.

Lemma round_half_even_lo (m : Q) : (m - inject_Z (Qfloor m) < 1 # 2)%Q -> round_half_even m = Qfloor m.
Proof. intros H. unfold round_half_even. rewrite (proj1 (Qlt_alt _ _) H). reflexivity. Qed.

Lemma round_half_even_hi (m : Q) : (1 # 2 < m - inject_Z (Qfloor m))%Q -> round_half_even m = Qfloor m + 1.
Proof. intros H. unfold round_half_even. rewrite (proj1 (Qgt_alt _ _) H). reflexivity. Qed.

Lemma round_half_even_mono (m m' : Q) : (m <= m')%Q -> round_half_even m <= round_half_even m'.
Proof.
  intros H.
  pose proof (Qfloor_resp_le _ _ H) as Hf.
  pose proof (round_half_even_range m) as R1. pose proof (round_half_even_range m') as R2.
  destruct (Z.eq_dec (Qfloor m) (Qfloor m')) as [E|E]; [|lia].
  pose proof (Qfloor_le m) as F1. pose proof (Qlt_floor m) as F2.
  pose proof (Qfloor_le m') as F3. pose proof (Qlt_floor m') as F4.
  rewrite inject_Z_plus in F2, F4.
  set (f := Qfloor m) in *. set (f' := Qfloor m') in *.
  unfold round_half_even. fold f f'. clearbody f f'. subst f'.
  destruct (Qcompare (m - inject_Z f) (1 # 2)) eqn:C1;
  destruct (Qcompare (m' - inject_Z f) (1 # 2)) eqn:C2; try lia;
  try (destruct (Z.even f); lia);
  first [apply Qeq_alt in C1 | apply Qlt_alt in C1 | apply Qgt_alt in C1];
  first [apply Qeq_alt in C2 | apply Qlt_alt in C2 | apply Qgt_alt in C2];
  try (exfalso; lra).
Qed.

Lemma round_half_even_le_Z (m : Q) (z : Z) : (m <= inject_Z z)%Q -> round_half_even m <= z.
Proof. intros H. rewrite <- (round_half_even_Z z). apply round_half_even_mono, H. Qed.

Lemma round_half_even_ge_Z (m : Q) (z : Z) : (inject_Z z <= m)%Q -> z <= round_half_even m.
Proof. intros H. rewrite <- (round_half_even_Z z). apply round_half_even_mono, H. Qed.

Lemma f64_exp_mono (x y : Q) : (0 < x)%Q -> (x <= y)%Q -> f64_exp x <= f64_exp y.
Proof. intros Hx Hxy. unfold f64_exp. pose proof (floor_log2_mono x y Hx Hxy). lia. Qed.

Lemma scaled_lt (x : Q) : (0 < x)%Q -> (x * P2 (- f64_exp x) < P2 53)%Q.
Proof.
  intros Hx. destruct (floor_log2_spec x Hx) as [_ H].
  apply Qlt_le_trans with (P2 (floor_log2 x + 1) * P2 (- f64_exp x))%Q.
  - apply (proj2 (Qmult_lt_r _ _ _ (P2_pos _))), H.
  - rewrite <- P2_add. apply P2_le. unfold f64_exp. lia.
Qed.

Lemma scaled_ge (x : Q) : (0 < x)%Q -> -1074 < f64_exp x -> (P2 52 <= x * P2 (- f64_exp x))%Q.
Proof.
  intros Hx He. destruct (floor_log2_spec x Hx) as [H _].
  apply Qle_trans with (P2 (floor_log2 x) * P2 (- f64_exp x))%Q.
  - rewrite <- P2_add. apply P2_le. unfold f64_exp in *. lia.
  - apply (proj2 (Qmult_le_r _ _ _ (P2_pos _))), H.
Qed.

Lemma f64_pos_nonneg (x : Q) : (0 < x)%Q -> (0 <= f64_pos x)%Q.
Proof.
  intros Hx. unfold f64_pos.
  apply Qmult_le_0_compat; [|apply Qlt_le_weak, P2_pos].
  change 0%Q with (inject_Z 0). rewrite <- Zle_Qle.
  apply round_half_even_ge_Z. change (inject_Z 0) with 0%Q.
  apply Qmult_le_0_compat; [apply Qlt_le_weak, Hx|apply Qlt_le_weak, P2_pos].
Qed.

Lemma f64_pos_mono (x y : Q) : (0 < x)%Q -> (x <= y)%Q -> (f64_pos x <= f64_pos y)%Q.
Proof.
  intros Hx Hxy. assert (Hy : (0 < y)%Q) by (apply Qlt_le_trans with x; assumption).
  pose proof (f64_exp_mono x y Hx Hxy) as He.
  unfold f64_pos.
  destruct (Z.eq_dec (f64_exp x) (f64_exp y)) as [E|E].
  - rewrite E. apply (proj2 (Qmult_le_r _ _ _ (P2_pos _))). rewrite <- Zle_Qle.
    apply round_half_even_mono. apply (proj2 (Qmult_le_r _ _ _ (P2_pos _))), Hxy.
  - assert (Hy52 : 2 ^ 52 <= round_half_even (y * P2 (- f64_exp y))).
    { apply round_half_even_ge_Z. rewrite <- P2_Z by lia. apply scaled_ge; [exact Hy|].
      unfold f64_exp in *. lia. }
    assert (Hx53 : round_half_even (x * P2 (- f64_exp x)) <= 2 ^ 53).
    { apply round_half_even_le_Z. rewrite <- P2_Z by lia. apply Qlt_le_weak, scaled_lt, Hx. }
    apply Qle_trans with (P2 53 * P2 (f64_exp x))%Q.
    + apply (proj2 (Qmult_le_r _ _ _ (P2_pos _))). rewrite (P2_Z 53) by lia. rewrite <- Zle_Qle. exact Hx53.
    + apply Qle_trans with (P2 52 * P2 (f64_exp y))%Q.
      * rewrite <- !P2_add. apply P2_le. lia.
      * apply (proj2 (Qmult_le_r _ _ _ (P2_pos _))). rewrite (P2_Z 52) by lia. rewrite <- Zle_Qle. exact Hy52.
Qed.

Lemma f64_mono (x y : Q) : (x <= y)%Q -> (f64 x <= f64 y)%Q.
Proof.
  intros Hxy. unfold f64.
  destruct (Qcompare x 0) eqn:Cx; destruct (Qcompare y 0) eqn:Cy;
  first [apply Qeq_alt in Cx | apply Qlt_alt in Cx | apply Qgt_alt in Cx];
  first [apply Qeq_alt in Cy | apply Qlt_alt in Cy | apply Qgt_alt in Cy];
  try (exfalso; lra); try apply Qle_refl.
  - apply f64_pos_nonneg, Cy.
  - assert (H : (0 <= f64_pos (- x))%Q) by (apply f64_pos_nonneg; lra). lra.
  - assert (H : (f64_pos (- y) <= f64_pos (- x))%Q) by (apply f64_pos_mono; lra). lra.
  - assert (H1 : (0 <= f64_pos (- x))%Q) by (apply f64_pos_nonneg; lra).
    assert (H2 : (0 <= f64_pos y)%Q) by (apply f64_pos_nonneg; lra). lra.
  - apply f64_pos_mono; assumption.
Qed.

Lemma f64_Qeq (x y : Q) : (x == y)%Q -> (f64 x == f64 y)%Q.
Proof.
  intros E. apply Qle_antisym; apply f64_mono; rewrite E; apply Qle_refl.
Qed.

Lemma round_half_even_Qeq (a b : Q) : (a == b)%Q -> round_half_even a = round_half_even b.
Proof. intros E. apply Z.le_antisymm; apply round_half_even_mono; rewrite E; apply Qle_refl. Qed.

Lemma f64_pos_exact (x : Q) (j : Z) : (0 < x)%Q ->
  (x * P2 (- f64_exp x) == inject_Z j)%Q -> (f64_pos x == x)%Q.
Proof.
  intros Hx E. unfold f64_pos. rewrite (round_half_even_Qeq _ _ E), round_half_even_Z, <- E.
  rewrite <- Qmult_assoc, (Qmult_comm (P2 _)), P2_opp_mul. ring.
Qed.

Lemma floor_log2_Z (z : Z) : 0 < z -> 0 <= floor_log2 (inject_Z z) <= Z.log2 z.
Proof.
  intros Hz. destruct (floor_log2_spec (inject_Z z)) as [H1 H2]; [unfold Qlt; simpl; lia|].
  split.
  - assert (H : (P2 0 < P2 (floor_log2 (inject_Z z) + 1))%Q).
    { apply Qle_lt_trans with (inject_Z z); [|exact H2].
      rewrite P2_0. unfold Qle; simpl; lia. }
    apply P2_lt_inv in H. lia.
  - destruct (Z.log2_spec z Hz) as [_ Hl].
    assert (H : (P2 (floor_log2 (inject_Z z)) < P2 (Z.succ (Z.log2 z)))%Q).
    { apply Qle_lt_trans with (inject_Z z); [exact H1|].
      rewrite P2_Z by (pose proof (Z.log2_nonneg z); lia). rewrite <- Zlt_Qlt. exact Hl. }
    apply P2_lt_inv in H. lia.
Qed.

Lemma f64_Z (z : Z) : - 2 ^ 53 <= z <= 2 ^ 53 -> (f64 (inject_Z z) == inject_Z z)%Q.
Proof.
  assert (Hpos : forall z, 0 < z <= 2 ^ 53 -> (f64_pos (inject_Z z) == inject_Z z)%Q).
  { intros w Hw. pose proof (floor_log2_Z w (proj1 Hw)) as Hl.
    assert (Hlog : Z.log2 w <= 53).
    { replace 53 with (Z.log2 (2 ^ 53)) by reflexivity. apply Z.log2_le_mono. lia. }
    destruct (Z.le_gt_cases (f64_exp (inject_Z w)) 0) as [He|He].
    - apply (f64_pos_exact _ (w * 2 ^ (- f64_exp (inject_Z w)))); [unfold Qlt; simpl; lia|].
      rewrite inject_Z_mult, P2_Z by lia. reflexivity.
    - assert (Ew : floor_log2 (inject_Z w) = 53) by (unfold f64_exp in He; lia).
      assert (Ee : f64_exp (inject_Z w) = 1) by (unfold f64_exp; lia).
      assert (Hw53 : w = 2 ^ 53).
      { destruct (floor_log2_spec (inject_Z w)) as [H1 _]; [unfold Qlt; simpl; lia|].
        rewrite Ew, P2_Z in H1 by lia. rewrite <- Zle_Qle in H1. lia. }
      apply (f64_pos_exact _ (2 ^ 52)); [unfold Qlt; simpl; lia|].
      rewrite Ee, Hw53. reflexivity. }
  intros Hz. unfold f64.
  destruct (Z.compare_spec z 0) as [E|E|E].
  - subst z. reflexivity.
  - assert (C : Qcompare (inject_Z z) 0 = Lt) by (apply (proj1 (Qlt_alt _ _)); unfold Qlt; simpl; lia). rewrite C.
    rewrite <- inject_Z_opp, (Hpos (- z)) by lia. rewrite inject_Z_opp. ring.
  - assert (C : Qcompare (inject_Z z) 0 = Gt) by (apply (proj1 (Qgt_alt _ _)); unfold Qlt; simpl; lia). rewrite C.
    apply Hpos. lia.
Qed.

(** ** Colour blending *)

Lemma py_int_between (a b : Z) (v : Q) :
  (inject_Z a <= v)%Q -> (v <= inject_Z b)%Q -> a <= py_int v <= b.
Proof.
  intros Ha Hb. unfold py_int. destruct (Qle_bool 0 v).
  - split.
    + rewrite <- (Qfloor_Z a). apply Qfloor_resp_le. exact Ha.
    + rewrite <- (Qfloor_Z b). apply Qfloor_resp_le. exact Hb.
  - assert (H1 : Qfloor (- v) <= Qfloor (- inject_Z a)) by (apply Qfloor_resp_le; lra).
    assert (H2 : Qfloor (- inject_Z b) <= Qfloor (- v)) by (apply Qfloor_resp_le; lra).
    replace (- inject_Z a)%Q with (inject_Z (- a)) in H1
      by (rewrite inject_Z_opp; reflexivity).
    replace (- inject_Z b)%Q with (inject_Z (- b)) in H2
      by (rewrite inject_Z_opp; reflexivity).
    rewrite Qfloor_Z in H1, H2. lia.
Qed.

Lemma f64_zero : (f64 0 == 0)%Q.
Proof. apply (f64_Z 0). lia. Qed.

Lemma blend_channel_between (c1 c2 : Z) (f : Q) :
  - 2 ^ 52 <= c1 <= 2 ^ 52 -> - 2 ^ 52 <= c2 <= 2 ^ 52 -> (0 <= f <= 1)%Q ->
  Z.min c1 c2 <= blend_channel c1 c2 f <= Z.max c1 c2.
Proof.
  intros H1 H2 Hf. unfold blend_channel.
  assert (Ed : (f64 (inject_Z (c2 - c1)) == inject_Z (c2 - c1))%Q) by (apply f64_Z; lia).
  assert (E1 : (f64 (inject_Z c1) == inject_Z c1)%Q) by (apply f64_Z; lia).
  assert (E2 : (f64 (inject_Z c2) == inject_Z c2)%Q) by (apply f64_Z; lia).
  assert (Hc2 : (inject_Z c2 == inject_Z c1 + inject_Z (c2 - c1))%Q)
    by (unfold Qeq; simpl; lia).
  set (D := inject_Z (c2 - c1)) in *. clearbody D.
  destruct (Z.le_ge_cases c1 c2) as [H|H].
  - assert (HD : (0 <= D)%Q) by (rewrite Zle_Qle in H; lra).
    assert (X1 : (0 <= f64 (D * f))%Q)
      by (rewrite <- f64_zero; apply f64_mono; nra).
    assert (X2 : (f64 (D * f) <= D)%Q)
      by (apply Qle_trans with (f64 D); [apply f64_mono; nra | rewrite Ed; apply Qle_refl]).
    rewrite Z.min_l, Z.max_r by exact H. apply py_int_between.
    + apply Qle_trans with (f64 (inject_Z c1)); [rewrite E1; apply Qle_refl | apply f64_mono; lra].
    + apply Qle_trans with (f64 (inject_Z c2)); [apply f64_mono; lra | rewrite E2; apply Qle_refl].
  - assert (HD : (D <= 0)%Q) by (rewrite Zle_Qle in H; lra).
    assert (X1 : (f64 (D * f) <= 0)%Q)
      by (rewrite <- f64_zero; apply f64_mono; nra).
    assert (X2 : (D <= f64 (D * f))%Q)
      by (apply Qle_trans with (f64 D); [rewrite Ed; apply Qle_refl | apply f64_mono; nra]).
    rewrite Z.min_r, Z.max_l by lia. apply py_int_between.
    + apply Qle_trans with (f64 (inject_Z c2)); [rewrite E2; apply Qle_refl | apply f64_mono; lra].
    + apply Qle_trans with (f64 (inject_Z c1)); [apply f64_mono; lra | rewrite E1; apply Qle_refl].
Qed.

Lemma py_int_Qeq (v w : Q) : v == w -> py_int v = py_int w.
Proof.
  intros H. unfold py_int.
  assert (Hf : forall a b : Q, a == b -> Qfloor a = Qfloor b).
  { intros a b E. apply Z.le_antisymm; apply Qfloor_resp_le; rewrite E; apply Qle_refl. }
  destruct (Qle_bool 0 v) eqn:Ev, (Qle_bool 0 w) eqn:Ew.
  - apply Hf, H.
  - apply Qle_bool_iff in Ev. rewrite H in Ev. apply Qle_bool_iff in Ev. congruence.
  - apply Qle_bool_iff in Ew. rewrite <- H in Ew. apply Qle_bool_iff in Ew. congruence.
  - f_equal. apply Hf. rewrite H. reflexivity.
Qed.

Lemma py_int_Z (z : Z) : py_int (inject_Z z) = z.
Proof.
  unfold py_int. destruct (Qle_bool 0 (inject_Z z)); [apply Qfloor_Z|].
  replace (- inject_Z z)%Q with (inject_Z (- z)) by (rewrite inject_Z_opp; reflexivity).
  rewrite Qfloor_Z. lia.
Qed.

(** A channel plus a rounded zero offset is the channel. *)
Lemma blend_channel_offset_zero (c1 : Z) (x : Q) :
  - 2 ^ 53 <= c1 <= 2 ^ 53 -> x == 0 -> py_int (f64 (inject_Z c1 + f64 x)) = c1.
Proof.
  intros H Hx.
  assert (A : (f64 x == 0)%Q) by (apply Qeq_trans with (f64 0); [apply f64_Qeq, Hx | apply f64_zero]).
  transitivity (py_int (inject_Z c1)); [apply py_int_Qeq | apply py_int_Z].
  apply Qeq_trans with (f64 (inject_Z c1)); [apply f64_Qeq; rewrite A; ring | apply f64_Z, H].
Qed.

Lemma blend_channel_zero (c1 c2 : Z) : - 2 ^ 53 <= c1 <= 2 ^ 53 -> blend_channel c1 c2 0 = c1.
Proof. intros H. apply blend_channel_offset_zero; [exact H | ring]. Qed.

Lemma blend_channel_same (c : Z) (f : Q) : - 2 ^ 53 <= c <= 2 ^ 53 -> blend_channel c c f = c.
Proof.
  intros H. apply blend_channel_offset_zero; [exact H|]. rewrite Z.sub_diag.
  change (inject_Z 0) with 0%Q. ring.
Qed.

Lemma nth_error_blend_colors c1 c2 f i a b :
  nth_error c1 i = Some a -> nth_error c2 i = Some b ->
  nth_error (blend_colors c1 c2 f) i = Some (blend_channel a b f).
Proof.
  unfold blend_colors. rewrite nth_error_map. revert c2 i.
  induction c1 as [|a1 c1 IH]; intros [|b1 c2] [|i] Ha Hb; try discriminate; simpl in *.
  - injection Ha as ->. injection Hb as ->. reflexivity.
  - apply IH; assumption.
Qed.

(** C10: for two colours with the same number of channels, all in 0..255,
    and a factor in [0, 1], [_blend_colors] returns a colour with as many
    channels, each lying between the corresponding channels of the two
    colours and so in 0..255; with factor 0 it returns the first colour,
    and blending a colour with itself returns it for every factor. The
    arithmetic is Python's: binary64 products and sums, truncated by [int]. *)
Theorem blend_colors_valid :
  forall (c1 c2 : list Z) (f : Q),
  List.length c1 = List.length c2 ->
  Forall (fun v => 0 <= v <= 255) c1 -> Forall (fun v => 0 <= v <= 255) c2 ->
  (0 <= f <= 1)%Q ->
  List.length (blend_colors c1 c2 f) = List.length c1 /\
  (forall i a b, nth_error c1 i = Some a -> nth_error c2 i = Some b ->
     exists v, nth_error (blend_colors c1 c2 f) i = Some v /\
       Z.min a b <= v <= Z.max a b /\ 0 <= v <= 255) /\
  blend_colors c1 c2 0 = c1 /\
  (forall g, blend_colors c1 c1 g = c1).
Proof.
  intros c1 c2 f Hlen H1 H2 Hf. split; [|split; [|split]].
  - unfold blend_colors. rewrite length_map, length_combine, Hlen. lia.
  - intros i a b Ha Hb. exists (blend_channel a b f). split.
    + apply nth_error_blend_colors; assumption.
    + apply nth_error_In in Ha, Hb.
      rewrite Forall_forall in H1, H2. specialize (H1 a Ha). specialize (H2 b Hb).
      assert (P : 2 ^ 52 = 4503599627370496) by reflexivity.
      pose proof (blend_channel_between a b f ltac:(lia) ltac:(lia) Hf). lia.
  - clear H2 Hf. revert c2 Hlen. induction H1 as [|a c1 Ha H1 IH]; intros [|b c2] Hlen;
      try discriminate; [reflexivity|].
    unfold blend_colors in *. simpl. rewrite blend_channel_zero, IH by (simpl in Hlen; lia).
    reflexivity.
  - intros g. clear - H1. unfold blend_colors. induction H1 as [|a c1 Ha H1 IH]; [reflexivity|].
    simpl. rewrite blend_channel_same by lia. f_equal. exact IH.
Qed.

Lemma blend_colors_valid_witness :
  blend_colors [15; 23; 42] [239; 68; 68] (1 # 2) = [127; 45; 55] /\
  exists v, nth_error (blend_colors [15; 23; 42] [239; 68; 68] (1 # 2)) 0 = Some v /\
    15 <= v <= 239.
Proof.
  split; [reflexivity|].
  destruct (blend_colors_valid [15; 23; 42] [239; 68; 68] (1 # 2) eq_refl
              ltac:(repeat constructor; lia) ltac:(repeat constructor; lia)
              ltac:(split; vm_compute; discriminate)) as (_ & Hnth & _).
  destruct (Hnth 0%nat 15 239 eq_refl eq_refl) as (v & Hv & Hb & _).
  exists v. split; [exact Hv | exact Hb].
Defined.

(** ** Layout of the card and the attached image *)

Lemma card_end_y_eq measure x y it cw mh compact r :
  draw_item_card measure x y it cw mh compact = PyOk r -> card_end_y r = y + card_h r + 40.
Proof.
  intros Hd. unfold draw_item_card in Hd.
  destruct (TextWrap.wrap (description it) (Z.quot cw 22)); [|discriminate].
  cbv beta iota zeta delta [py_bind] in Hd.
  destruct (cve_id it); injection Hd as <-; reflexivity.
Qed.

Lemma compact_card_h_bound measure x y it cw mh r :
  draw_item_card measure x y it cw mh true = PyOk r -> card_h r <= Z.max 522 mh.
Proof.
  intros Hd. unfold draw_item_card in Hd.
  destruct (TextWrap.wrap (description it) (Z.quot cw 22)) as [w|e]; [|discriminate].
  assert (Hmax : forall h0, 0 < h0 ->
            (if andb (0 <? mh) (h0 <? mh) then mh else h0) = Z.max h0 mh)
    by (intros; apply stretch_is_max; assumption).
  pose proof (Nat.le_min_r (List.length w) 3) as Hm. apply inj_le in Hm.
  change (Z.of_nat 3) with 3 in Hm.
  assert (Hn : 0 <= Z.of_nat (Nat.min (List.length w) 3)) by lia.
  destruct (cve_id it); cbv beta iota zeta delta [py_bind] in Hd;
    apply PyOk_inj in Hd; subst r; cbv beta iota delta [card_h];
    destruct (tags it); cbv beta iota delta [nonempty];
    cbv beta iota zeta delta [padding_top spacing_category spacing_product spacing_cve
      spacing_cve_desc spacing_no_cve line_height max_desc_lines tag_section padding_bottom
      profile_of];
    rewrite Hmax by lia; lia.
Qed.

Lemma fit_attached_image_bound a cw img iw ih :
  fit_attached_image a cw img = Some (iw, ih) -> ih <= Z.min (a - 450 - 40) 600.
Proof.
  unfold fit_attached_image. destruct img as [[w h]|]; [|discriminate]. cbv zeta.
  destruct (100 <? a - 450 - 40); [|discriminate].
  destruct (Z.eqb h 0); [discriminate|].
  destruct (Qeq_bool _ 0); [discriminate|].
  match goal with |- context [Z.ltb ?m (py_int ?y)] => destruct (Z.ltb_spec m (py_int y)) end;
    cbn [fst snd];
    match goal with |- context [orb ?x ?y] => destruct (orb x y) end;
    try discriminate; intros He; injection He as <- <-; lia.
Qed.

(** The parts of the layout that hold on every canvas: the card starts
    where the header ends, an attached image starts 40 pixels below the
    card's bottom edge, and no image is drawn when the room left after the
    estimated card height is at most 100 pixels. *)
Lemma generate_layout_order measure width height it img l :
  generate_layout measure width height it img = PyOk l ->
  lay_card_top l = header_bottom /\
  (forall ix iy iw ih, lay_image l = Some (ix, iy, iw, ih) -> iy = lay_card_bottom l + 40) /\
  (height - header_bottom - 120 - 40 - 450 - 40 <= 100 -> lay_image l = None).
Proof.
  unfold generate_layout. intros Hg.
  destruct (fit_attached_image (height - header_bottom - 120 - 40) (width - 160) img)
    as [[iw0 ih0]|] eqn:Ef;
  (destruct (draw_item_card measure 80 header_bottom it (width - 160) _ _) as [r|] eqn:Ed;
   [|discriminate]);
  cbv beta iota zeta delta [py_bind] in Hg; injection Hg as <-; cbn [lay_card_top lay_image lay_card_bottom];
    (split; [reflexivity|]).
  - rewrite (card_end_y_eq _ _ _ _ _ _ _ _ Ed). split.
    + intros ix iy iw ih He. injection He; intros; subst. lia.
    + intros Hs. exfalso. unfold fit_attached_image in Ef. destruct img as [[w h]|]; [|discriminate].
      destruct (Z.ltb_spec 100 (height - header_bottom - 120 - 40 - 450 - 40)); [lia|discriminate].
  - split; [discriminate|reflexivity].
Qed.

(** On the default 2400 x 1600 canvas an attached image never reaches the
    footer separator: the image is at most 600 pixels high and the compact
    card at most 522, which leaves the image bottom at 1462 or above it. *)
Lemma default_canvas_image_above_footer measure it img l :
  generate_layout measure 2400 1600 it img = PyOk l ->
  forall ix iy iw ih, lay_image l = Some (ix, iy, iw, ih) -> iy + ih <= lay_footer_line l.
Proof.
  unfold generate_layout. intros Hg ix iy iw ih.
  destruct (fit_attached_image (1600 - header_bottom - 120 - 40) (2400 - 160) img)
    as [[iw0 ih0]|] eqn:Ef.
  - destruct (draw_item_card measure 80 header_bottom it (2400 - 160) _ _) as [r|] eqn:Ed;
      [|discriminate].
    cbv beta iota zeta delta [py_bind] in Hg. injection Hg as <-.
    cbn [lay_image lay_footer_line]. intros He. injection He as _ <- _ <-.
    rewrite (card_end_y_eq _ _ _ _ _ _ _ _ Ed).
    pose proof (compact_card_h_bound _ _ _ _ _ _ _ Ed) as Hc.
    pose proof (fit_attached_image_bound _ _ _ _ _ Ef) as Hi.
    unfold header_bottom in *. lia.
  - destruct (draw_item_card measure 80 header_bottom it (2400 - 160) _ _) as [r|] eqn:Ed;
      [|discriminate].
    cbv beta iota zeta delta [py_bind] in Hg. injection Hg as <-. discriminate.
Qed.

(** C2: on a 2400 x 1500 canvas (a [height] the configuration file may
    set), a 500 x 1000 attached image is scaled to 275 x 550, the room left
    after the 450-pixel card estimate; the compact card of a bulletin with a
    CVE, tags and three description lines is 522 pixels high, more than the
    450 reserved, so the image, placed below the card, runs from y = 862 to
    y = 1412: past the footer separator at y = 1390 and into the 120 pixels
    reserved for the footer. *)
Theorem attached_image_overlaps_footer :
  forall measure,
  generate_layout measure 2400 1500 image_item (Some (500, 1000)) = PyOk {|
    lay_card_top := 300; lay_card_bottom := 822;
    lay_image := Some (1062, 862, 275, 550);
    lay_footer_line := 1390; lay_canvas_height := 1500 |} /\
  1390 < 862 + 550 /\ 1500 - 120 < 862 + 550.
Proof. intros measure. split; [vm_compute; reflexivity | lia]. Qed.

(* ========================================================================= *)
(** * Further properties of the loaders, the drawing helpers and [main] *)

Lemma check_required_first (o : list (string * json)) (index : nat) (fields : list string) (f : string) :
  find (fun f => negb (truthy (py_get o f JNull))) fields = Some f ->
  check_required (JObj o) index fields
    = PyOk (Some (msg_prefix index ++ "Campo obbligatorio '" ++ f ++ "' mancante o vuoto")).
Proof.
  induction fields as [|a fields IH]; cbn [find]; [discriminate|].
  cbn [check_required py_in py_getitem py_bind].
  change (py_get o a JNull) with (match dict_get o a with Some v => v | None => JNull end).
  destruct (dict_get o a) as [v|]; cbn [truthy negb py_bind].
  - destruct (truthy v); cbn [negb]; [exact IH|].
    intros H; injection H as ->; reflexivity.
  - intros H; injection H as ->; reflexivity.
Qed.

Lemma check_required_none (o : list (string * json)) (index : nat) (fields : list string) :
  find (fun f => negb (truthy (py_get o f JNull))) fields = None ->
  check_required (JObj o) index fields = PyOk None.
Proof.
  induction fields as [|a fields IH]; cbn [find]; [reflexivity|].
  cbn [check_required py_in py_getitem py_bind].
  change (py_get o a JNull) with (match dict_get o a with Some v => v | None => JNull end).
  destruct (dict_get o a) as [v|]; cbn [truthy negb py_bind]; [|discriminate].
  destruct (truthy v); cbn [negb]; [exact IH|discriminate].
Qed.

(** X2: on a dict, [validate_bulletin_data] reports the first of category, severity, product, description (in this order) that is absent or falsy; a key holding a falsy value (null, the empty string, 0, false, an empty list or dict) gets the same message as an absent key. *)
Theorem first_missing_field_reported (o : list (string * json)) (index : nat) (f : string) :
  find (fun f => negb (truthy (py_get o f JNull))) required_fields = Some f ->
  validate_bulletin_data (JObj o) index
    = PyOk (false, msg_prefix index ++ "Campo obbligatorio '" ++ f ++ "' mancante o vuoto").
Proof.
  intros H. unfold validate_bulletin_data.
  rewrite (check_required_first _ _ _ _ H). reflexivity.
Qed.

Lemma first_missing_field_reported_witness :
  find (fun f => negb (truthy (py_get [("category", JStr "patch"); ("severity", JStr "")] f JNull)))
    required_fields = Some "severity" /\
  validate_bulletin_data (JObj [("category", JStr "patch"); ("severity", JStr "")]) 2
    = PyOk (false, "Bollettino #2: Campo obbligatorio 'severity' mancante o vuoto").
Proof.
  split; [reflexivity|].
  rewrite (first_missing_field_reported [("category", JStr "patch"); ("severity", JStr "")]
             2 "severity" eq_refl). reflexivity.
Defined.

Lemma batch_files_app gen input_dir output_dir pre post st :
  batch_files gen input_dir output_dir (app pre post) st
  = (st' <- batch_files gen input_dir output_dir pre st ;;
     batch_files gen input_dir output_dir post st').
Proof.
  revert st. induction pre as [|[name c] pre IH]; intros st; [reflexivity|].
  cbn [app batch_files].
  destruct (load_bulletins_from_file (path_join input_dir name) c) as [[bs|e]|e];
    cbn [py_bind]; [apply IH|apply IH|reflexivity].
Qed.

Lemma process_batch_nonempty gen mk input_dir output_dir files :
  mk output_dir = PyOk tt -> files <> [] ->
  process_batch gen mk input_dir output_dir files
  = batch_files gen input_dir output_dir files
      {| successes := 0; failures := 0; errors := []; written := [] |}.
Proof.
  intros Hmk Hne. unfold process_batch. rewrite Hmk. cbn [py_bind].
  destruct files; [contradiction|reflexivity].
Qed.



Lemma mem_find_key {A} (key : A -> string) (l : list A) (k : string) :
  PyStr.mem k (map key l) = true ->
  exists c, find (fun c => String.eqb (key c) k) l = Some c /\ key c = k.
Proof.
  induction l as [|a l IH]; cbn; [discriminate|].
  destruct (String.eqb_spec (key a) k) as [E|E].
  - intros _. exists a. auto.
  - destruct (String.eqb_spec k (key a)); [congruence|]. exact IH.
Qed.

Lemma category_key_of_valid (k : string) :
  PyStr.mem k valid_categories = true -> category_key (category_of_key k) = k.
Proof.
  intros H. destruct (mem_find_key category_key _ _ H) as [c [Hf Hk]].
  unfold category_of_key. rewrite Hf. exact Hk.
Qed.

Lemma severity_key_of_valid (k : string) :
  PyStr.mem k valid_severities = true -> severity_key (severity_of_key k) = k.
Proof.
  intros H. destruct (mem_find_key severity_key _ _ H) as [c [Hf Hk]].
  unfold severity_of_key. rewrite Hf. exact Hk.
Qed.

(** X1: for a record that [validate_bulletin_data] accepts, [generate_from_dict] builds its item without raising; the item's category and severity are the ones the record names (lower-cased), not the [ADVISORY]/[MEDIUM] fallbacks; its product is a string of at least 2 characters once stripped, its description a string of at least 10, and a truthy CVE id is a string that starts with [CVE-] once upper-cased. *)
Theorem validated_item_fields (data : json) (index : nat) (m : string) :
  validate_bulletin_data data index = PyOk (true, m) ->
  exists r, bulletin_item_of_dict data = PyOk r /\
  (exists c, py_getitem data "category" = PyOk (JStr c) /\
             category_key (item_category r) = PyStr.lower c) /\
  (exists s, py_getitem data "severity" = PyOk (JStr s) /\
             severity_key (item_severity r) = PyStr.lower s) /\
  (exists p, item_product r = JStr p /\ (2 <= String.length (PyStr.strip p))%nat) /\
  (exists d, item_description r = JStr d /\ (10 <= String.length (PyStr.strip d))%nat) /\
  (truthy (item_cve_id r) = true ->
     exists c, item_cve_id r = JStr c /\ String.prefix "CVE-" (PyStr.upper c) = true).
Proof.
  intros Hv. unfold validate_bulletin_data in Hv.
  destruct (check_required data index required_fields) as [[m'|]|e];
    cbn [py_bind] in Hv; try discriminate.
  destruct (py_getitem data "category") as [cv|] eqn:Hc; cbn [py_bind] in Hv; try discriminate.
  destruct cv; cbn [py_bind py_str_method] in Hv; try discriminate.
  destruct (PyStr.mem (PyStr.lower s) valid_categories) eqn:Mc; cbn [negb] in Hv; [|discriminate].
  destruct (py_getitem data "severity") as [sv|] eqn:Hs; cbn [py_bind] in Hv; try discriminate.
  destruct sv; cbn [py_bind py_str_method] in Hv; try discriminate.
  destruct (PyStr.mem (PyStr.lower s0) valid_severities) eqn:Ms; cbn [negb] in Hv; [|discriminate].
  destruct (py_getitem data "product") as [pv|] eqn:Hp; cbn [py_bind] in Hv; try discriminate.
  destruct pv; cbn [py_bind py_str_method] in Hv; try discriminate.
  destruct (Nat.ltb_spec (String.length (PyStr.strip s1)) 2); [discriminate|].
  destruct (py_getitem data "description") as [dv|] eqn:Hd; cbn [py_bind] in Hv; try discriminate.
  destruct dv; cbn [py_bind py_str_method] in Hv; try discriminate.
  destruct (Nat.ltb_spec (String.length (PyStr.strip s2)) 10); [discriminate|].
  destruct data as [| | | | |o]; try discriminate Hc.
  unfold bulletin_item_of_dict. rewrite Hc, Hs, Hp, Hd. cbn [py_bind py_str_method].
  eexists. split; [reflexivity|].
  cbn [item_category item_severity item_product item_description item_cve_id].
  split; [eexists; split; [reflexivity|apply category_key_of_valid; exact Mc]|].
  split; [eexists; split; [reflexivity|apply severity_key_of_valid; exact Ms]|].
  split; [eexists; split; [reflexivity|lia]|].
  split; [eexists; split; [reflexivity|lia]|].
  intros Ht. unfold py_get in Ht |- *. cbn [py_in py_getitem] in Hv.
  destruct (dict_get o "cve_id") as [v|]; [|discriminate Ht].
  cbn [py_bind] in Hv. rewrite Ht in Hv.
  destruct v; cbn [py_bind py_str_method] in Hv; try discriminate.
  exists s3. split; [reflexivity|].
  destruct (String.prefix "CVE-" (PyStr.upper s3)); [reflexivity|discriminate].
Qed.


(** X3: [validate_bulletin_data] does not raise on a dict in which category, severity, product, description and cve_id are strings whenever they are present and truthy. *)
Theorem validate_raises_only_on_non_strings (o : list (string * json)) (index : nat) :
  (forall k v, In k ("cve_id" :: required_fields) -> dict_get o k = Some v -> truthy v = true ->
     exists s, v = JStr s) ->
  exists r, validate_bulletin_data (JObj o) index = PyOk r.
Proof.
  intros Hs. unfold validate_bulletin_data.
  destruct (find (fun f => negb (truthy (py_get o f JNull))) required_fields) as [f|] eqn:Hf.
  - rewrite (check_required_first _ _ _ _ Hf). cbn [py_bind]. eauto.
  - rewrite (check_required_none _ _ _ Hf). cbn [py_bind].
    assert (Hreq : forall k, In k required_fields -> exists s, dict_get o k = Some (JStr s)).
    { intros k Hk. apply find_none with (x := k) in Hf; [|exact Hk].
      unfold py_get in Hf. destruct (dict_get o k) as [v|] eqn:Hv; [|discriminate].
      apply negb_false_iff in Hf. destruct (Hs k v (or_intror Hk) Hv Hf) as [s ->]. eauto. }
    destruct (Hreq "category" ltac:(cbn; tauto)) as [c Hc].
    destruct (Hreq "severity" ltac:(cbn; tauto)) as [sv Hsv].
    destruct (Hreq "product" ltac:(cbn; tauto)) as [p Hp].
    destruct (Hreq "description" ltac:(cbn; tauto)) as [d Hd].
    cbn [py_getitem]. rewrite Hc. cbn [py_bind py_str_method].
    destruct (negb (PyStr.mem (PyStr.lower c) valid_categories)); [eauto|].
    rewrite Hsv. cbn [py_bind py_str_method].
    destruct (negb (PyStr.mem (PyStr.lower sv) valid_severities)); [eauto|].
    rewrite Hp. cbn [py_bind py_str_method].
    destruct (Nat.ltb _ 2); [eauto|].
    rewrite Hd. cbn [py_bind py_str_method].
    destruct (Nat.ltb _ 10); [eauto|].
    cbn [py_in]. destruct (dict_get o "cve_id") as [v|] eqn:Hcv; cbn [py_bind]; [|eauto].
    destruct (truthy v) eqn:Tv; [|eauto].
    destruct (Hs "cve_id" v (or_introl eq_refl) Hcv Tv) as [s ->].
    cbn [py_bind py_str_method]. destruct (negb _); eauto.
Qed.


(** X6: a file holding a dict whose [bulletins] key is a list [l], or which has no [bulletins] key and whose [items] key is [l], loads exactly like a file holding [l]. *)
Theorem bulletins_and_items_formats (path : string) (o : list (string * json)) (l : list json) :
  (dict_get o "bulletins" = Some (JArr l) \/
   (dict_get o "bulletins" = None /\ dict_get o "items" = Some (JArr l))) ->
  load_bulletins_from_file path (Parsed (JObj o)) = load_bulletins_from_file path (Parsed (JArr l)).
Proof.
  intros [H|[H1 H2]]; unfold load_bulletins_from_file; cbn [load_json_file].
  - rewrite H. reflexivity.
  - rewrite H1, H2. reflexivity.
Qed.

Lemma bulletins_and_items_formats_witness :
  (dict_get [("items", JArr [good_record])] "bulletins" = None /\
   dict_get [("items", JArr [good_record])] "items" = Some (JArr [good_record])) /\
  load_bulletins_from_file "b.json" (Parsed (JObj [("items", JArr [good_record])]))
    = PyOk (inl [good_record]).
Proof.
  split; [split; reflexivity|].
  rewrite (bulletins_and_items_formats "b.json" [("items", JArr [good_record])] [good_record]
             (or_intror (conj eq_refl eq_refl))).
  vm_compute. reflexivity.
Defined.

(** X7: among other JSON files, a file whose record list is empty adds no image, no failure and no error message to [process_batch]'s result. *)
Theorem empty_record_file_no_effect gen mk input_dir output_dir pre name c post :
  load_bulletins_from_file (path_join input_dir name) c = PyOk (inl []) ->
  app pre post <> [] ->
  process_batch gen mk input_dir output_dir (app pre ((name, c) :: post))
  = process_batch gen mk input_dir output_dir (app pre post).
Proof.
  intros Hl Hne.
  destruct (mk output_dir) as [[]|em] eqn:Hmk; [|unfold process_batch; rewrite Hmk; reflexivity].
  rewrite !process_batch_nonempty by (exact Hmk || exact Hne || (destruct pre; discriminate)).
  rewrite !batch_files_app.
  destruct (batch_files gen input_dir output_dir pre _) as [st|e]; cbn [py_bind]; [|reflexivity].
  cbn [batch_files]. rewrite Hl. reflexivity.
Qed.

Lemma empty_record_file_no_effect_witness :
  load_bulletins_from_file (path_join "in" "empty.json") (Parsed (JObj [("bulletins", JArr [])]))
    = PyOk (inl []) /\
  app [("good.json", Parsed (JArr [good_record]))] [] <> [] /\
  process_batch generate_ok makedirs_ok "in" "out"
    (app [("good.json", Parsed (JArr [good_record]))]
         [("empty.json", Parsed (JObj [("bulletins", JArr [])]))])
  = PyOk {| successes := 1; failures := 0; errors := []; written := ["out/good.png"] |}.
Proof.
  split; [reflexivity|]. split; [discriminate|].
  rewrite (empty_record_file_no_effect generate_ok makedirs_ok "in" "out"
             [("good.json", Parsed (JArr [good_record]))] "empty.json"
             (Parsed (JObj [("bulletins", JArr [])])) [] eq_refl ltac:(discriminate)).
  vm_compute. reflexivity.
Defined.

Lemma string_length_app (a b : string) : String.length (a ++ b) = (String.length a + String.length b)%nat.
Proof. induction a as [|c a IH]; cbn; [reflexivity|rewrite IH; reflexivity]. Qed.

Lemma string_app_cancel_l (a b c : string) : a ++ b = a ++ c -> b = c.
Proof. induction a as [|x a IH]; cbn; [tauto|]. intros H. injection H. exact IH. Qed.

Lemma string_app_cancel_r (a b c : string) : a ++ c = b ++ c -> a = b.
Proof.
  revert b. induction a as [|x a IH]; intros [|y b] H; cbn in H.
  - reflexivity.
  - apply (f_equal String.length) in H. cbn in H. rewrite string_length_app in H. lia.
  - apply (f_equal String.length) in H. cbn in H. rewrite string_length_app in H. lia.
  - injection H as -> H. f_equal. exact (IH b H).
Qed.

Lemma path_join_inj (d a b : string) : path_join d a = path_join d b -> a = b.
Proof.
  unfold path_join. destruct (orb _ _); intros H; apply string_app_cancel_l in H; [exact H|].
  injection H. exact (fun H => H).
Qed.

Lemma of_nat_02_decode (n : nat) :
  option_map Nat.of_uint (NilEmpty.uint_of_string (PyStr.of_nat_02 n)) = Some n.
Proof.
  unfold PyStr.of_nat_02, PyStr.of_nat. destruct (Nat.ltb n 10).
  - cbn [String.append NilEmpty.uint_of_string]. rewrite NilEmpty.usu.
    cbn [uint_of_char option_map Ascii.eqb Bool.eqb].
    change (Nat.of_uint (Decimal.D0 (Nat.to_uint n))) with (Nat.of_uint (Nat.to_uint n)).
    rewrite DecimalNat.Unsigned.of_to. reflexivity.
  - rewrite NilEmpty.usu. cbn [option_map]. rewrite DecimalNat.Unsigned.of_to. reflexivity.
Qed.

Lemma of_nat_02_inj (i j : nat) : PyStr.of_nat_02 i = PyStr.of_nat_02 j -> i = j.
Proof.
  intros H. apply (f_equal (fun s => option_map Nat.of_uint (NilEmpty.uint_of_string s))) in H.
  rewrite !of_nat_02_decode in H. injection H. exact (fun H => H).
Qed.

Lemma numbered_name_inj (base ext : string) (i j : nat) :
  base ++ "_" ++ PyStr.of_nat_02 i ++ ext = base ++ "_" ++ PyStr.of_nat_02 j ++ ext -> i = j.
Proof.
  intros H. apply string_app_cancel_l in H. cbn in H. injection H as H.
  apply string_app_cancel_r in H. exact (of_nat_02_inj _ _ H).
Qed.

Lemma render_all_multi_written gen output_dir file_name bs i st :
  exists L, written (render_all gen output_dir file_name false bs i st) = app (written st) L /\
    NoDup L /\
    forall x, In x L -> exists k, (i < k)%nat /\
      x = path_join output_dir (base_name file_name ++ "_" ++ PyStr.of_nat_02 k ++ ".png").
Proof.
  revert i st. induction bs as [|b bs IH]; intros i st.
  - exists []. split; [symmetry; apply app_nil_r|]. split; [constructor|]. intros x [].
  - cbn [render_all].
    destruct (generate_from_dict gen b _) eqn:Hg.
    + destruct (IH (S i) {| successes := S (successes st); failures := failures st;
          errors := errors st;
          written := app (written st)
            [path_join output_dir (base_name file_name ++ "_" ++ PyStr.of_nat_02 (S i) ++ ".png")] |})
        as (L & HL & Hnd & Hin).
      eexists. split; [rewrite HL; cbn [written]; rewrite <- app_assoc; reflexivity|].
      split.
      * constructor; [|exact Hnd].
        intros Hx. destruct (Hin _ Hx) as (k & Hk & E).
        apply path_join_inj, numbered_name_inj in E. lia.
      * intros x [<-|Hx]; [exists (S i); split; [lia|reflexivity]|].
        destruct (Hin _ Hx) as (k & Hk & E). exists k. split; [lia|exact E].
    + destruct (IH (S i) {| successes := successes st; failures := S (failures st);
          errors := app (errors st)
            [cross_mark ++ " " ++ file_name ++ " bollettino #" ++ PyStr.of_nat (S i)
             ++ ": Errore generazione: " ++ exn];
          written := written st |})
        as (L & HL & Hnd & Hin).
      exists L. split; [exact HL|]. split; [exact Hnd|].
      intros x Hx. destruct (Hin _ Hx) as (k & Hk & E). exists k. split; [lia|exact E].
Qed.

(** X8: the PNG names [process_batch] generates for the records of one multi-record file ([base_01.png], [base_02.png], ...) are pairwise distinct. *)
Theorem multi_record_names_distinct gen output_dir file_name bs st :
  exists L, written (render_all gen output_dir file_name false bs 0 st) = app (written st) L /\
    NoDup L.
Proof.
  destruct (render_all_multi_written gen output_dir file_name bs 0 st) as (L & H1 & H2 & _).
  exists L. split; assumption.
Qed.


Lemma int16_hex2_all :
  forallb (fun v => match int16 (hex2 v) with PyOk w => Z.eqb w v | PyRaise _ => false end
                    && match hex2 v with
                       | String a _ => negb (Nat.eqb (nat_of_ascii a) 35)
                       | EmptyString => false end)
          (map Z.of_nat (seq 0 256)) = true.
Proof. vm_compute. reflexivity. Qed.

Lemma int16_hex2 (v : Z) : 0 <= v <= 255 ->
  int16 (hex2 v) = PyOk v /\
  exists a b, hex2 v = String a (String b EmptyString) /\ Nat.eqb (nat_of_ascii a) 35 = false.
Proof.
  intros Hv. pose proof int16_hex2_all as H. rewrite forallb_forall in H.
  specialize (H v). rewrite in_map_iff in H.
  assert (Hin : exists n, Z.of_nat n = v /\ In n (seq 0 256)).
  { exists (Z.to_nat v). split; [lia|]. apply in_seq. lia. }
  specialize (H Hin). apply andb_prop in H. destruct H as [H1 H2].
  split.
  - destruct (int16 (hex2 v)) as [w|]; [|discriminate]. apply Z.eqb_eq in H1. subst. reflexivity.
  - unfold hex2 in *. do 2 eexists. split; [reflexivity|].
    apply negb_true_iff. exact H2.
Qed.

(** X9: [_hex_to_rgb] decodes the [#RRGGBB] notation (upper-case digits) of any colour with channels in 0..255 back to that colour. *)
Theorem hex_to_rgb_round_trip (c : rgb) :
  0 <= red c <= 255 -> 0 <= green c <= 255 -> 0 <= blue c <= 255 ->
  hex_to_rgb (rgb_to_hex c) = PyOk c.
Proof.
  destruct c as [r g b]; cbn [red green blue]. intros Hr Hg Hb.
  destruct (int16_hex2 r Hr) as [Ir (r1 & r2 & Er & Nr)].
  destruct (int16_hex2 g Hg) as [Ig (g1 & g2 & Eg & _)].
  destruct (int16_hex2 b Hb) as [Ib (b1 & b2 & Eb & _)].
  unfold hex_to_rgb, rgb_to_hex. cbn [red green blue]. rewrite Er, Eg, Eb in *.
  cbn [String.append lstrip_hash].
  change (Nat.eqb (nat_of_ascii "#") 35) with true. cbn iota.
  cbn [lstrip_hash]. rewrite Nr.
  cbn [substring py_bind]. rewrite Ir, Ig, Ib. reflexivity.
Qed.

Lemma hex_to_rgb_round_trip_witness :
  0 <= 15 <= 255 /\ 0 <= 23 <= 255 /\ 0 <= 42 <= 255 /\
  hex_to_rgb (rgb_to_hex (mk_rgb 15 23 42)) = PyOk (mk_rgb 15 23 42) /\
  rgb_to_hex (mk_rgb 15 23 42) = "#0F172A".
Proof.
  split; [lia|]. split; [lia|]. split; [lia|].
  split; [apply (hex_to_rgb_round_trip (mk_rgb 15 23 42)); cbn; lia|].
  vm_compute. reflexivity.
Defined.

Lemma substring_past_end (n m : nat) (s : string) :
  (String.length s <= n)%nat -> substring n m s = EmptyString.
Proof.
  revert s. induction n as [|n IH]; intros [|c s] H; cbn in *; try reflexivity.
  - destruct m; reflexivity.
  - lia.
  - apply IH. lia.
Qed.

(** X10: [_hex_to_rgb] raises when at most four characters remain after the leading [#] characters are stripped, as for the short form [#FFF]. *)
Theorem hex_to_rgb_short_raises (s : string) :
  (String.length (lstrip_hash s) <= 4)%nat -> exists e, hex_to_rgb s = PyRaise e.
Proof.
  intros H. unfold hex_to_rgb.
  rewrite (substring_past_end 4 2 _ H).
  destruct (int16 (substring 0 2 (lstrip_hash s))); cbn [py_bind]; [|eauto].
  destruct (int16 (substring 2 2 (lstrip_hash s))); cbn [py_bind]; [|eauto].
  eexists. reflexivity.
Qed.

Lemma hex_to_rgb_short_raises_witness :
  (String.length (lstrip_hash "#FFF") <= 4)%nat /\ exists e, hex_to_rgb "#FFF" = PyRaise e.
Proof. split; [vm_compute; lia|]. apply hex_to_rgb_short_raises. vm_compute. lia. Defined.




Lemma py_int_div (a b : Z) (q : Q) :
  0 <= a -> 0 < b -> (q == inject_Z a / inject_Z b)%Q -> py_int q = a / b.
Proof.
  intros Ha Hb Hq. destruct b as [|p|p]; try lia.
  rewrite (py_int_Qeq q (a # p)) by (rewrite Hq, Qmake_Qdiv; reflexivity).
  unfold py_int.
  replace (Qle_bool 0 (a # p)) with true.
  - reflexivity.
  - symmetry. apply Qle_bool_iff. unfold Qle. cbn. lia.
Qed.

Lemma inject_Z_nonzero (z : Z) : z <> 0 -> ~ (inject_Z z == 0)%Q.
Proof. intros H E. change 0%Q with (inject_Z 0) in E. rewrite inject_Z_injective in E. lia. Qed.

Lemma py_int_le_Q (v : Q) : 1 <= py_int v -> (inject_Z (py_int v) <= v)%Q.
Proof.
  unfold py_int. destruct (Qle_bool 0 v) eqn:E; [intros _; apply Qfloor_le|].
  intros H. exfalso. assert (Hv : ~ (0 <= v)%Q) by (intros C; apply Qle_bool_iff in C; congruence).
  assert (Hf : 0 <= Qfloor (- v)).
  { change 0 with (Qfloor (inject_Z 0)). apply Qfloor_resp_le. change (inject_Z 0) with 0%Q.
    apply Qnot_le_lt in Hv. lra. }
  lia.
Qed.

(** X12: for a card at least 81 px wide and an image of positive size (at most 2^53 wide), [generate] scales the attached image to at least 1 and at most [card_width - 80] by [min(available_height - 490, 600)] pixels, and centred at [x = 80 + (card_width - new_width) // 2] it stays at least 40 px inside the card on both sides. The ratio and the scaled sizes are computed with Python's float arithmetic. *)
Theorem attached_image_inside_card (available_height card_width w h iw ih : Z) :
  81 <= card_width -> 1 <= w -> 1 <= h -> w <= 2 ^ 53 ->
  fit_attached_image available_height card_width (Some (w, h)) = Some (iw, ih) ->
  1 <= iw <= card_width - 80 /\ 1 <= ih <= Z.min (available_height - 450 - 40) 600 /\
  80 + 40 <= 80 + (card_width - iw) / 2 /\
  80 + (card_width - iw) / 2 + iw <= 80 + card_width - 40.
Proof.
  intros Hcw Hw Hh Hw53. unfold fit_attached_image. cbv zeta.
  destruct (Z.ltb_spec 100 (available_height - 450 - 40)) as [Hs|]; [|discriminate].
  replace (Z.eqb h 0) with false by (symmetry; apply Z.eqb_neq; lia).
  set (r := f64 (inject_Z w / inject_Z h)).
  destruct (Qeq_bool r 0) eqn:Er; [discriminate|].
  assert (Hr : (0 < r)%Q).
  { assert (Hr0 : (0 <= r)%Q).
    { unfold r. rewrite <- f64_zero. apply f64_mono.
      apply Qle_shift_div_l; [change 0%Q with (inject_Z 0); rewrite <- Zlt_Qlt; lia|].
      rewrite Qmult_0_l. change 0%Q with (inject_Z 0). rewrite <- Zle_Qle. lia. }
    apply Qle_lteq in Hr0 as [Hr0|Hr0]; [exact Hr0|].
    exfalso. assert (C : Qeq_bool r 0 = true) by (apply Qeq_bool_iff; symmetry; exact Hr0).
    congruence. }
  set (nw := Z.min w (card_width - 80)).
  set (mh := Z.min (available_height - 450 - 40) 600).
  assert (Hnw : 1 <= nw <= card_width - 80) by lia.
  assert (P : 2 ^ 53 = 9007199254740992) by reflexivity.
  assert (Enw : (f64 (inject_Z nw) == inject_Z nw)%Q) by (apply f64_Z; lia).
  assert (Emh : (f64 (inject_Z mh) == inject_Z mh)%Q) by (apply f64_Z; lia).
  assert (Hcw2 : forall x, 0 <= x <= card_width - 80 ->
            80 + 40 <= 80 + (card_width - x) / 2 /\
            80 + (card_width - x) / 2 + x <= 80 + card_width - 40).
  { intros x Hx. split.
    - apply Z.add_le_mono_l. apply Z.div_le_lower_bound; lia.
    - assert (2 * ((card_width - x) / 2) <= card_width - x) by (apply Z.mul_div_le; lia). lia. }
  assert (Hy0 : (0 <= f64 (f64 (inject_Z nw) / r))%Q).
  { rewrite <- f64_zero. apply f64_mono. apply Qle_shift_div_l; [exact Hr|].
    rewrite Qmult_0_l, Enw. change 0%Q with (inject_Z 0). rewrite <- Zle_Qle. lia. }
  destruct (Z.ltb_spec mh (py_int (f64 (f64 (inject_Z nw) / r)))) as [Hlt|Hge]; cbn [fst snd].
  - destruct (Z.ltb_spec (py_int (f64 (f64 (inject_Z mh) * r))) 1); cbn [orb]; [discriminate|].
    destruct (Z.ltb_spec mh 1); cbn [orb]; [discriminate|].
    intros E; injection E as <- <-.
    assert (Hm : (inject_Z mh <= inject_Z nw / r)%Q).
    { destruct (Qlt_le_dec (inject_Z nw / r) (inject_Z mh)) as [C|C]; [|exact C].
      exfalso.
      assert (C2 : (f64 (f64 (inject_Z nw) / r) <= inject_Z mh)%Q).
      { apply Qle_trans with (f64 (inject_Z mh)); [|rewrite Emh; apply Qle_refl].
        apply f64_mono. rewrite Enw. lra. }
      pose proof (py_int_between 0 mh _ Hy0 C2). lia. }
    assert (Hm2 : (inject_Z mh * r <= inject_Z nw)%Q).
    { apply Qle_trans with (inject_Z nw / r * r)%Q.
      - apply Qmult_le_compat_r; [exact Hm | lra].
      - apply Qle_lteq. right. field. intros C. rewrite C in Hr. discriminate. }
    assert (Hiw : py_int (f64 (f64 (inject_Z mh) * r)) <= nw).
    { apply (py_int_between 0 nw).
      - rewrite <- f64_zero. apply f64_mono. rewrite Emh.
        apply Qmult_le_0_compat; [change 0%Q with (inject_Z 0); rewrite <- Zle_Qle; lia | lra].
      - apply Qle_trans with (f64 (inject_Z nw)); [|rewrite Enw; apply Qle_refl].
        apply f64_mono. rewrite Emh. exact Hm2. }
    split; [lia|]. split; [lia|]. apply Hcw2. lia.
  - destruct (Z.ltb_spec nw 1); cbn [orb]; [discriminate|].
    destruct (Z.ltb_spec (py_int (f64 (f64 (inject_Z nw) / r))) 1); cbn [orb]; [discriminate|].
    intros E; injection E as <- <-.
    split; [lia|]. split; [lia|]. apply Hcw2. lia.
Qed.

(** X13: [load_config_from_file] returns a configuration exactly when the file exists and holds a JSON object; otherwise it returns an error message. *)
Theorem config_loads_iff_object (path : string) (c : file_content) (now : string) :
  (exists cfg, load_config_from_file path c now = inl cfg) <-> (exists o, c = Parsed (JObj o)).
Proof.
  split.
  - intros [cfg H]. destruct c as [|e|e|[| | | | |o]]; try discriminate H. eauto.
  - intros [o ->]. eexists. reflexivity.
Qed.

(** X14: a configuration loaded from an object takes the current date when [date] is absent or falsy and the given value otherwise; an object with none of the configuration keys gives the [BulletinConfig] defaults with the current date. *)
Theorem config_defaults_and_date (path : string) (o : list (string * json)) (now : string)
    (cfg : BulletinConfig) :
  load_config_from_file path (Parsed (JObj o)) now = inl cfg ->
  (truthy (py_get o "date" JNull) = false -> date cfg = JStr now) /\
  (truthy (py_get o "date" JNull) = true -> date cfg = py_get o "date" JNull) /\
  ((forall k, In k config_keys -> dict_get o k = None) -> cfg = default_config now).
Proof.
  intros H. cbn [load_config_from_file load_json_file] in H. injection H as <-.
  split; [intros T; cbn [date]; rewrite T; reflexivity|].
  split; [intros T; cbn [date]; rewrite T; reflexivity|].
  intros Hk.
  assert (G : forall k d, In k config_keys -> py_get o k d = d).
  { intros k d Hin. unfold py_get. rewrite (Hk k Hin). reflexivity. }
  rewrite !G by (cbn; tauto). reflexivity.
Qed.

Lemma config_defaults_and_date_witness :
  load_config_from_file "config.json" (Parsed (JObj [("title", JStr "Weekly")])) "15/10/2026"
    = inl {| cfg_width := JNum 2400; cfg_height := JNum 1600;
             background_color := JStr "#0F172A"; accent_color := JStr "#3B82F6";
             text_color := JStr "#F8FAFC"; secondary_text := JStr "#94A3B8";
             card_bg := JStr "#1E293B"; logo_path := JNull; logo_bg_replace := JBool false;
             logo_bg_color := JNull; organization := JStr "Security Operations Center";
             title := JStr "Weekly"; date := JStr "15/10/2026";
             footer_text := JStr "Confidential - Internal Use Only" |} /\
  date {| cfg_width := JNum 2400; cfg_height := JNum 1600;
             background_color := JStr "#0F172A"; accent_color := JStr "#3B82F6";
             text_color := JStr "#F8FAFC"; secondary_text := JStr "#94A3B8";
             card_bg := JStr "#1E293B"; logo_path := JNull; logo_bg_replace := JBool false;
             logo_bg_color := JNull; organization := JStr "Security Operations Center";
             title := JStr "Weekly"; date := JStr "15/10/2026";
             footer_text := JStr "Confidential - Internal Use Only" |} = JStr "15/10/2026".
Proof.
  split; [reflexivity|].
  destruct (config_defaults_and_date "config.json" [("title", JStr "Weekly")] "15/10/2026" _ eq_refl)
    as (H & _ & _).
  apply H. reflexivity.
Defined.


Lemma length_list_ascii (s : string) : List.length (list_ascii_of_string s) = String.length s.
Proof. induction s as [|c s IH]; cbn; [reflexivity|rewrite IH; reflexivity]. Qed.

Lemma rfind_aux_spec (c : ascii) (i : Z) (l : list ascii) (acc : Z) :
  rfind_aux c i l acc = acc \/
  (i <= rfind_aux c i l acc < i + Z.of_nat (List.length l) /\
   nth_error l (Z.to_nat (rfind_aux c i l acc - i)) = Some c).
Proof.
  revert i acc. induction l as [|d l IH]; intros i acc; cbn [rfind_aux]; [left; reflexivity|].
  destruct (IH (i + 1) (if Ascii.eqb d c then i else acc)) as [E|(H1 & H2)].
  - rewrite E. destruct (Ascii.eqb_spec d c) as [->|]; [|left; reflexivity].
    right. cbn [List.length]. replace (i - i) with 0 by lia. split; [lia|reflexivity].
  - right. cbn [List.length]. split; [lia|].
    replace (Z.to_nat (rfind_aux c (i + 1) l (if Ascii.eqb d c then i else acc) - i))
      with (S (Z.to_nat (rfind_aux c (i + 1) l (if Ascii.eqb d c then i else acc) - (i + 1))))
      by lia.
    exact H2.
Qed.

Lemma string_append_empty_r (s : string) : s ++ "" = s.
Proof. induction s as [|c s IH]; cbn; [reflexivity|rewrite IH; reflexivity]. Qed.

Lemma substring_0_length (s : string) : substring 0 (String.length s) s = s.
Proof. induction s as [|c s IH]; cbn; [reflexivity|rewrite IH; reflexivity]. Qed.

Lemma substring_split (k : nat) (s : string) :
  (k <= String.length s)%nat ->
  substring 0 k s ++ substring k (String.length s - k) s = s.
Proof.
  revert k. induction s as [|c s IH]; intros [|k] Hk; cbn in *.
  - reflexivity.
  - lia.
  - rewrite substring_0_length. reflexivity.
  - f_equal. apply IH. lia.
Qed.

Lemma substring_at (k : nat) (s : string) (c : ascii) :
  nth_error (list_ascii_of_string s) k = Some c ->
  exists rest, substring k (String.length s - k) s = String c rest.
Proof.
  revert k. induction s as [|d s IH]; intros [|k] H; cbn in *; try discriminate.
  - injection H as ->. rewrite substring_0_length. eauto.
  - apply IH. exact H.
Qed.

Lemma splitext_parts (p : string) :
  fst (splitext p) ++ snd (splitext p) = p /\
  (snd (splitext p) = "" \/ exists rest, snd (splitext p) = String "." rest).
Proof.
  unfold splitext.
  destruct (Z.ltb_spec (rfind "/"%char p) (rfind "."%char p)) as [Hlt|]; cbn [fst snd];
    [|split; [apply string_append_empty_r|left; reflexivity]].
  destruct (existsb _ _); cbn [fst snd]; [|split; [apply string_append_empty_r|left; reflexivity]].
  assert (Hs : rfind "/"%char p >= -1).
  { unfold rfind. destruct (rfind_aux_spec "/"%char 0 (list_ascii_of_string p) (-1)) as [E|[E _]]; lia. }
  unfold rfind in *.
  destruct (rfind_aux_spec "."%char 0 (list_ascii_of_string p) (-1)) as [E|(H1 & H2)]; [lia|].
  rewrite length_list_ascii in H1. rewrite Z.sub_0_r in H2.
  split.
  - apply substring_split. lia.
  - right. exact (substring_at _ _ _ H2).
Qed.

Lemma generate_numbered_spec gen (base ext : string) (bs : list json) (i : nat)
    (acc : list string) (code : Z) (ws : list string) :
  generate_numbered gen base ext bs i acc = (code, ws) ->
  exists n, (n <= List.length bs)%nat /\
    ws = app acc (map (fun j => base ++ "_" ++ PyStr.of_nat_02 j ++ ext) (seq i n)) /\
    code = (if Nat.eqb n (List.length bs) then 0 else 1) /\
    (forall j b, (j < n)%nat -> nth_error bs j = Some b ->
       exists u, generate_from_dict gen b (base ++ "_" ++ PyStr.of_nat_02 (i + j) ++ ext) = PyOk u) /\
    ((n < List.length bs)%nat -> exists b e, nth_error bs n = Some b /\
       generate_from_dict gen b (base ++ "_" ++ PyStr.of_nat_02 (i + n) ++ ext) = PyRaise e).
Proof.
  revert i acc. induction bs as [|b bs IH]; intros i acc H; cbn [generate_numbered] in H.
  - injection H as <- <-. exists 0%nat. cbn. rewrite app_nil_r.
    split; [lia|]. split; [reflexivity|]. split; [reflexivity|].
    split; [intros; lia|intros; lia].
  - destruct (generate_from_dict gen b (base ++ "_" ++ PyStr.of_nat_02 i ++ ext)) as [u|e] eqn:Hg.
    + destruct (IH _ _ H) as (n & Hn & Hws & Hc & Hok & Hfail).
      exists (S n). cbn [List.length seq map]. split; [lia|].
      split; [rewrite Hws, <- app_assoc; reflexivity|].
      split; [exact Hc|]. split.
      * intros [|j] b' Hj Hb'; cbn in Hb'.
        -- injection Hb' as <-. rewrite Nat.add_0_r. eauto.
        -- replace (i + S j)%nat with (S i + j)%nat by lia. apply (Hok j); [lia|exact Hb'].
      * intros Hlt. replace (i + S n)%nat with (S i + n)%nat by lia. apply Hfail. lia.
    + injection H as <- <-. exists 0%nat. cbn [List.length seq map]. rewrite app_nil_r.
      split; [lia|]. split; [reflexivity|]. split; [reflexivity|]. split; [intros; lia|].
      intros _. exists b, e. rewrite Nat.add_0_r. split; [reflexivity|exact Hg].
Qed.

Lemma NoDup_map_inj {A B} (f : A -> B) (l : list A) :
  (forall x y, f x = f y -> x = y) -> NoDup l -> NoDup (map f l).
Proof.
  intros Hf Hl. induction Hl as [|x l Hx Hl IH]; cbn; constructor; [|exact IH].
  intros Hin. apply in_map_iff in Hin. destruct Hin as (y & E & Hy).
  apply Hf in E. subst. contradiction.
Qed.

(** X15: in single-file mode, with a number of records other than one, [main] writes [base_01ext], [base_02ext], ... (all distinct), where [base] and [ext] split [--output] and [ext] defaults to [.png]; it stops at the first record whose generation raises, with exit status 1, and otherwise exits 0 after the last record. *)
Theorem main_numbered_outputs gen mk args fs listing now inp out bs base ext0 code ws :
  config_error args fs now = false -> opt_truthy (arg_batch args) = None ->
  input_file_of args fs = Some inp -> opt_truthy (arg_output args) = Some out ->
  load_bulletins_from_file inp (fs inp) = PyOk (inl bs) -> List.length bs <> 1%nat ->
  splitext out = (base, ext0) ->
  main gen mk args fs listing now = (code, ws) ->
  let ext := if String.eqb ext0 "" then ".png" else ext0 in
  let name := fun j => base ++ "_" ++ PyStr.of_nat_02 j ++ ext in
  base ++ ext0 = out /\
  exists n, (n <= List.length bs)%nat /\ ws = map name (seq 1 n) /\ NoDup ws /\
    code = (if Nat.eqb n (List.length bs) then 0 else 1) /\
    (forall j b, (j < n)%nat -> nth_error bs j = Some b ->
       exists u, generate_from_dict gen b (name (S j)) = PyOk u) /\
    ((n < List.length bs)%nat -> exists b e, nth_error bs n = Some b /\
       generate_from_dict gen b (name (S n)) = PyRaise e).
Proof.
  intros Hc Hb Hi Ho Hl Hlen Hs Hm ext name.
  split.
  { destruct (splitext_parts out) as [H _]. rewrite Hs in H. exact H. }
  unfold main in Hm. rewrite Hc, Hb, Hi, Ho in Hm. unfold run_single in Hm. rewrite Hl in Hm.
  assert (Hm' : generate_numbered gen base ext bs 1 [] = (code, ws)).
  { rewrite <- Hm. destruct bs as [|b [|b' bs]]; cbn [List.length] in Hlen; try lia;
      rewrite Hs; reflexivity. }
  destruct (generate_numbered_spec _ _ _ _ _ _ _ _ Hm') as (n & Hn & Hws & Hcode & Hok & Hfail).
  exists n. split; [exact Hn|]. split; [exact Hws|]. split.
  - rewrite Hws. apply NoDup_map_inj; [|apply seq_NoDup].
    intros x y E. exact (numbered_name_inj _ _ _ _ E).
  - split; [exact Hcode|]. split; [exact Hok|exact Hfail].
Qed.

Lemma main_numbered_outputs_witness :
  config_error report_args two_record_fs "15/10/2026" = false /\
  splitext "report" = ("report", "") /\
  main generate_ok makedirs_ok report_args two_record_fs [] "15/10/2026" = (0, ["report_01.png"; "report_02.png"]) /\
  NoDup ["report_01.png"; "report_02.png"].
Proof.
  split; [reflexivity|]. split; [vm_compute; reflexivity|]. split; [vm_compute; reflexivity|].
  destruct (main_numbered_outputs generate_ok makedirs_ok report_args two_record_fs [] "15/10/2026" "b.json"
              "report" [good_record; good_record] "report" "" 0 ["report_01.png"; "report_02.png"]
              eq_refl eq_refl eq_refl eq_refl ltac:(vm_compute; reflexivity) ltac:(cbn; lia)
              ltac:(vm_compute; reflexivity) ltac:(vm_compute; reflexivity))
    as (_ & n & _ & _ & Hnd & _).
  exact Hnd.
Defined.

(** X16: in single-file mode, [main] exits 1 without writing anything when the input or the output is missing or empty, or when the input file does not load or holds an invalid record, even next to valid ones. *)
Theorem main_single_mode_rejects gen mk args fs listing now :
  config_error args fs now = false -> opt_truthy (arg_batch args) = None ->
  (input_file_of args fs = None \/ opt_truthy (arg_output args) = None \/
   exists inp, input_file_of args fs = Some inp /\
     forall bs, load_bulletins_from_file inp (fs inp) <> PyOk (inl bs)) ->
  main gen mk args fs listing now = (1, []).
Proof.
  intros Hc Hb Hcase. unfold main. rewrite Hc, Hb.
  destruct Hcase as [Hi|[Ho|(inp & Hi & Hl)]].
  - rewrite Hi. reflexivity.
  - rewrite Ho. destruct (input_file_of args fs); reflexivity.
  - rewrite Hi. destruct (opt_truthy (arg_output args)) as [out|]; [|reflexivity].
    unfold run_single.
    destruct (load_bulletins_from_file inp (fs inp)) as [[bs|e]|e]; try reflexivity.
    exfalso. exact (Hl bs eq_refl).
Qed.

(** X17: in single-file mode, a file with a single record is written to [--output] exactly as given, with no number and no extension added. *)
Theorem main_single_record gen mk args fs listing now inp out b :
  config_error args fs now = false -> opt_truthy (arg_batch args) = None ->
  input_file_of args fs = Some inp -> opt_truthy (arg_output args) = Some out ->
  load_bulletins_from_file inp (fs inp) = PyOk (inl [b]) ->
  main gen mk args fs listing now
  = match generate_from_dict gen b out with PyOk _ => (0, [out]) | PyRaise _ => (1, []) end.
Proof.
  intros Hc Hb Hi Ho Hl. unfold main. rewrite Hc, Hb, Hi, Ho. unfold run_single. rewrite Hl.
  reflexivity.
Qed.

(** X18: with [--batch] given and the configuration loading, [main] ignores [--input] and [--output]; an empty batch directory exits 0 without writing anything once the output directory is created. *)
Theorem main_batch_mode gen mk args fs listing now dir :
  config_error args fs now = false -> opt_truthy (arg_batch args) = Some dir ->
  (forall inp out, main gen mk {| arg_input := inp; arg_output := out; arg_config := arg_config args;
                               arg_batch := arg_batch args; arg_output_dir := arg_output_dir args |}
                        fs listing now = main gen mk args fs listing now) /\
  (listing = [] -> mk (arg_output_dir args) = PyOk tt -> main gen mk args fs listing now = (0, [])).
Proof.
  intros Hc Hb. split.
  - intros inp out. unfold main.
    unfold config_error, config_file_of in *. cbn [arg_config arg_batch arg_output_dir].
    rewrite Hc. cbn [arg_batch]. rewrite Hb. reflexivity.
  - intros -> Hmk. unfold main. rewrite Hc, Hb. unfold process_batch. rewrite Hmk. reflexivity.
Qed.

(** X19: when the configuration file [main] picks ([--config], or [config.json] when present) does not hold a JSON object, [main] exits 1 before anything else, in batch mode too. *)
Theorem main_config_error gen mk args fs listing now f :
  config_file_of args fs = Some f -> (forall o, fs f <> Parsed (JObj o)) ->
  main gen mk args fs listing now = (1, []).
Proof.
  intros Hf Ho. unfold main, config_error. rewrite Hf.
  destruct (fs f) as [|e|e|[| | | | |o]] eqn:E; try reflexivity.
  exfalso. exact (Ho o eq_refl).
Qed.


Lemma length_string_of_list_ascii (l : list ascii) :
  String.length (string_of_list_ascii l) = List.length l.
Proof. induction l as [|c l IH]; cbn; [reflexivity|rewrite IH; reflexivity]. Qed.

Lemma take_fitting_bound (width cur_len : Z) (cl chunks cl' : list TextWrap.chunk) (len' : Z)
    (rest : list TextWrap.chunk) :
  cur_len = Z.of_nat (List.length (List.concat cl)) -> cur_len <= width ->
  TextWrap.take_fitting width cur_len cl chunks = (cl', len', rest) ->
  len' = Z.of_nat (List.length (List.concat cl')) /\ len' <= width.
Proof.
  revert cur_len cl. induction chunks as [|ch chunks IH]; intros cur_len cl Hl Hw H;
    cbn [TextWrap.take_fitting] in H.
  - injection H as <- <- _. split; assumption.
  - destruct (Z.leb_spec (cur_len + TextWrap.clen ch) width) as [Hle|].
    + refine (IH _ _ _ Hle H). rewrite concat_app, length_app. cbn [List.concat].
      rewrite app_nil_r. unfold TextWrap.clen in *. lia.
    + injection H as <- <- _. split; assumption.
Qed.

Lemma rfind_hyphen_aux_range (i : nat) (l : list ascii) (acc : Z) :
  TextWrap.rfind_hyphen_aux i l acc = acc \/
  (Z.of_nat i <= TextWrap.rfind_hyphen_aux i l acc < Z.of_nat i + Z.of_nat (List.length l)).
Proof.
  revert i acc. induction l as [|c l IH]; intros i acc; cbn [TextWrap.rfind_hyphen_aux];
    [left; reflexivity|].
  destruct (IH (S i) (if Nat.eqb (TextWrap.code c) 45 then Z.of_nat i else acc)) as [E|E].
  - rewrite E. destruct (Nat.eqb (TextWrap.code c) 45); [right; cbn [List.length]; lia|left; reflexivity].
  - right. cbn [List.length]. lia.
Qed.

Lemma handle_long_word_bound (width cur_len : Z) (cl : list TextWrap.chunk) (ch : TextWrap.chunk)
    (rest : list TextWrap.chunk) :
  1 <= width -> 0 <= cur_len <= width -> cur_len = Z.of_nat (List.length (List.concat cl)) ->
  Z.of_nat (List.length (List.concat (fst (TextWrap.handle_long_word width cur_len cl ch rest))))
    <= width.
Proof.
  intros Hw Hc Hl. unfold TextWrap.handle_long_word.
  replace (width <? 1) with false by (symmetry; apply Z.ltb_ge; lia).
  cbn [fst]. rewrite concat_app, length_app. cbn [List.concat]. rewrite app_nil_r.
  set (sl := width - cur_len).
  set (hy := TextWrap.rfind_hyphen ch sl).
  assert (Hhy : hy = -1 \/ 0 <= hy < sl).
  { unfold hy, TextWrap.rfind_hyphen.
    destruct (rfind_hyphen_aux_range 0 (firstn (Z.to_nat sl) ch) (-1)) as [E|E]; [left; exact E|].
    right. rewrite length_firstn in E. lia. }
  assert (Hend : forall e, 0 <= e <= sl ->
            Z.of_nat (List.length (List.concat cl)) + Z.of_nat (List.length (firstn (Z.to_nat e) ch))
            <= width).
  { intros e He. rewrite length_firstn. lia. }
  rewrite Nat2Z.inj_add.
  destruct (andb (sl <? TextWrap.clen ch) _) eqn:Hcond.
  - apply andb_prop in Hcond. destruct Hcond as [_ Hcond]. apply andb_prop in Hcond.
    destruct Hcond as [Hpos _]. apply Z.ltb_lt in Hpos. apply Hend. lia.
  - apply Hend. lia.
Qed.

Lemma concat_removelast_le (l : list TextWrap.chunk) :
  (List.length (List.concat (removelast l)) <= List.length (List.concat l))%nat.
Proof.
  destruct l as [|x l] using rev_ind; [cbn; lia|].
  rewrite removelast_last, concat_app, length_app. lia.
Qed.

Lemma wrap_step_bound (width : Z) (chunks : list TextWrap.chunk) (lines : list string) :
  1 <= width -> Forall (fun s => Z.of_nat (String.length s) <= width) lines ->
  Forall (fun s => Z.of_nat (String.length s) <= width) (snd (TextWrap.wrap_step width chunks lines)).
Proof.
  intros Hw Hlines. unfold TextWrap.wrap_step.
  set (chunks1 := match chunks, lines with
                  | ch :: rest, _ :: _ => if TextWrap.blank ch then rest else chunks
                  | _, _ => chunks end).
  destruct (TextWrap.take_fitting width 0 [] chunks1) as [[cl cur_len] chunks2] eqn:Ht.
  destruct (take_fitting_bound width 0 [] chunks1 cl cur_len chunks2 eq_refl ltac:(lia) Ht)
    as [Hcl Hcw].
  assert (Hc0 : 0 <= cur_len) by lia.
  set (p := match chunks2 with
            | ch :: rest => if width <? TextWrap.clen ch
                            then TextWrap.handle_long_word width cur_len cl ch rest
                            else (cl, chunks2)
            | [] => (cl, []) end).
  assert (Hp : Z.of_nat (List.length (List.concat (fst p))) <= width).
  { unfold p. destruct chunks2 as [|ch rest]; [cbn [fst]; lia|].
    destruct (width <? TextWrap.clen ch); [|cbn [fst]; lia].
    apply handle_long_word_bound; lia. }
  destruct p as [cl2 chunks3]. cbn [fst] in Hp.
  set (cl3 := match rev cl2 with
              | lst :: _ => if TextWrap.blank lst then removelast cl2 else cl2
              | [] => cl2 end).
  assert (H3 : Z.of_nat (List.length (List.concat cl3)) <= width).
  { unfold cl3. destruct (rev cl2); [exact Hp|].
    destruct (TextWrap.blank c); [|exact Hp].
    pose proof (concat_removelast_le cl2). lia. }
  destruct cl3 as [|x xs]; cbn [snd]; [exact Hlines|].
  apply Forall_app. split; [exact Hlines|]. constructor; [|constructor].
  rewrite length_string_of_list_ascii. exact H3.
Qed.

Lemma wrap_loop_bound (fuel : nat) (width : Z) (chunks : list TextWrap.chunk) (lines : list string) :
  1 <= width -> Forall (fun s => Z.of_nat (String.length s) <= width) lines ->
  Forall (fun s => Z.of_nat (String.length s) <= width) (TextWrap.wrap_loop fuel width chunks lines).
Proof.
  revert chunks lines. induction fuel as [|fuel IH]; intros chunks lines Hw Hl; cbn; [exact Hl|].
  destruct chunks as [|ch rest]; [exact Hl|].
  pose proof (wrap_step_bound width (ch :: rest) lines Hw Hl) as Hs.
  destruct (TextWrap.wrap_step width (ch :: rest) lines) as [chunks' lines'].
  apply IH; assumption.
Qed.

(** X20: every line [textwrap.wrap] returns to [_draw_item_card] is at most [width] characters long. *)
Theorem wrapped_lines_fit_width (text : string) (width : Z) (lines : list string) :
  TextWrap.wrap text width = PyOk lines ->
  Forall (fun s => Z.of_nat (String.length s) <= width) lines.
Proof.
  unfold TextWrap.wrap. destruct (Z.leb_spec width 0); [discriminate|].
  intros Hw. apply PyOk_inj in Hw. subst lines. apply wrap_loop_bound; [lia|constructor].
Qed.

Lemma validated_item_fields_witness :
  validate_bulletin_data lower_cve_record 1 = PyOk (true, "") /\
  exists r, bulletin_item_of_dict lower_cve_record = PyOk r /\
    category_key (item_category r) = PyStr.lower "patch" /\
    item_cve_id r = JStr "cve-2024-1234".
Proof.
  assert (Hv : validate_bulletin_data lower_cve_record 1 = PyOk (true, "")) by (vm_compute; reflexivity).
  destruct (validated_item_fields lower_cve_record 1 "" Hv)
    as (r & Hr & (c & Hc & Hk) & _ & _ & _ & Hcve).
  split; [exact Hv|]. exists r. split; [exact Hr|]. split.
  - vm_compute in Hc. injection Hc as <-. exact Hk.
  - vm_compute in Hr. injection Hr as <-. reflexivity.
Defined.

Lemma validate_raises_only_on_non_strings_witness :
  (forall k v, In k ("cve_id" :: required_fields) ->
     dict_get [("category", JStr "patch"); ("severity", JStr "high"); ("product", JStr "")] k = Some v ->
     truthy v = true -> exists s, v = JStr s) /\
  validate_bulletin_data
    (JObj [("category", JStr "patch"); ("severity", JStr "high"); ("product", JStr "")]) 1
  = PyOk (false, "Bollettino #1: Campo obbligatorio 'product' mancante o vuoto").
Proof.
  assert (Hs : forall k v, In k ("cve_id" :: required_fields) ->
     dict_get [("category", JStr "patch"); ("severity", JStr "high"); ("product", JStr "")] k = Some v ->
     truthy v = true -> exists s, v = JStr s).
  { intros k v Hk. cbn in Hk.
    destruct Hk as [<-|[<-|[<-|[<-|[<-|[]]]]]]; cbn; intros E; try discriminate;
      injection E as <-; eauto. }
  split; [exact Hs|].
  destruct (validate_raises_only_on_non_strings
              [("category", JStr "patch"); ("severity", JStr "high"); ("product", JStr "")] 1 Hs)
    as [r Hr].
  rewrite Hr. rewrite <- Hr. vm_compute. reflexivity.
Defined.

Lemma attached_image_inside_card_witness :
  81 <= 2240 /\ 1 <= 800 /\ 1 <= 600 /\ 800 <= 2 ^ 53 /\
  fit_attached_image 1140 2240 (Some (800, 600)) = Some (800, 600) /\
  80 + 40 <= 80 + (2240 - 800) / 2 /\ 80 + (2240 - 800) / 2 + 800 <= 80 + 2240 - 40.
Proof.
  assert (H : fit_attached_image 1140 2240 (Some (800, 600)) = Some (800, 600))
    by (vm_compute; reflexivity).
  destruct (attached_image_inside_card 1140 2240 800 600 800 600
              ltac:(lia) ltac:(lia) ltac:(lia) ltac:(vm_compute; discriminate) H)
    as (_ & _ & H1 & H2).
  split; [lia|]. split; [lia|]. split; [lia|]. split; [vm_compute; discriminate|].
  split; [exact H|]. split; assumption.
Defined.

Lemma main_single_mode_rejects_witness :
  config_error report_args mixed_fs "15/10/2026" = false /\
  main generate_ok makedirs_ok report_args mixed_fs [] "15/10/2026" = (1, []).
Proof.
  split; [reflexivity|].
  apply main_single_mode_rejects; [reflexivity|reflexivity|].
  right. right. exists "b.json". split; [reflexivity|].
  intros bs. vm_compute. discriminate.
Defined.

Lemma main_single_record_witness :
  load_bulletins_from_file "b.json" (one_record_fs "b.json") = PyOk (inl [good_record]) /\
  main generate_ok makedirs_ok report_args one_record_fs [] "15/10/2026" = (0, ["report"]).
Proof.
  split; [vm_compute; reflexivity|].
  rewrite (main_single_record generate_ok makedirs_ok report_args one_record_fs [] "15/10/2026" "b.json"
             "report" good_record eq_refl eq_refl eq_refl eq_refl ltac:(vm_compute; reflexivity)).
  reflexivity.
Defined.

Lemma main_batch_mode_witness :
  opt_truthy (arg_batch batch_args) = Some "in" /\
  main generate_ok makedirs_ok batch_args two_record_fs [] "15/10/2026" = (0, []) /\
  main generate_ok makedirs_ok batch_args two_record_fs good_bad_files "15/10/2026" = (1, ["output/good.png"]).
Proof.
  destruct (main_batch_mode generate_ok makedirs_ok batch_args two_record_fs [] "15/10/2026" "in" eq_refl eq_refl)
    as [_ H].
  split; [reflexivity|]. split; [exact (H eq_refl eq_refl)|]. vm_compute. reflexivity.
Defined.

Lemma main_config_error_witness :
  config_file_of cfg_args list_config_fs = Some "cfg.json" /\
  main generate_ok makedirs_ok cfg_args list_config_fs [] "15/10/2026" = (1, []).
Proof.
  split; [reflexivity|].
  apply (main_config_error generate_ok makedirs_ok cfg_args list_config_fs [] "15/10/2026" "cfg.json" eq_refl).
  intros o. vm_compute. discriminate.
Defined.

Lemma wrapped_lines_fit_width_witness :
  TextWrap.wrap "A buffer overflow was fixed in the TLS handshake parser." 20
    = PyOk ["A buffer overflow"; "was fixed in the TLS"; "handshake parser."] /\
  Forall (fun s => Z.of_nat (String.length s) <= 20)
    ["A buffer overflow"; "was fixed in the TLS"; "handshake parser."].
Proof.
  assert (H : TextWrap.wrap "A buffer overflow was fixed in the TLS handshake parser." 20
                = PyOk ["A buffer overflow"; "was fixed in the TLS"; "handshake parser."])
    by (vm_compute; reflexivity).
  split; [exact H|]. exact (wrapped_lines_fit_width _ _ _ H).
Defined.
